(** * 5G-AKA key derivation: MILENAGE (TS 35.206) and the TS 33.501 key schedule

    A shallow embedding of [milenage/milenage.go], of the [aka] package and of
    the demonstration driver, together with the properties of the derivation
    chain that the project documentation states.

    Conventions.
    - A Go [byte] is a [Z]; a [[]byte] is a [list Z].  Only two fields of the
      MILENAGE state are ever compared with [nil] ([OP] and [OPc]); they are
      [option]s.  For every other slice the code only looks at [len] and at
      the elements, so a nil slice and an empty one are the same list.
    - A Go [string] is a [string] (a sequence of 8-bit characters); [len] is
      its number of bytes.
    - A method on [*Milenage] is a function from the state to an outcome and
      the state it leaves behind.  An outcome is a value, an [error] value,
      or a run-time panic.
    - The packages [crypto/aes], [crypto/sha256], [crypto/hmac],
      [encoding/binary], [encoding/hex] and [strconv] belong to the Go
      standard library.  They are written here after the standards they
      implement (FIPS 197, FIPS 180-4, RFC 2104) and after their documented
      interface. *)

From Stdlib Require Import String Ascii ZArith List Bool Lia.
Import ListNotations.
Local Open Scope Z_scope.

(* ================================================================== *)
(** ** Byte slices *)

Definition byte := Z.
Definition bytes := list Z.

(** [len(b)] as a Go [int]. *)
Definition len {A} (l : list A) : Z := Z.of_nat (length l).

(** [make([]byte, n)]: [n] zero bytes. *)
Definition make (n : nat) : bytes := repeat 0 n.

(** [b[i]] for an index the surrounding code keeps within bounds. *)
Definition at_ (b : bytes) (i : nat) : Z := nth i b 0.

(** [b[i] = v] for an index within bounds (no effect otherwise; the callers
    below check the bound first where the source can run past it). *)
Fixpoint set_at (b : bytes) (i : nat) (v : Z) : bytes :=
  match b, i with
  | [], _ => []
  | _ :: t, O => v :: t
  | h :: t, S j => h :: set_at t j v
  end.

(** [b[lo:hi]] for [lo <= hi <= len(b)]. *)
Definition slice (b : bytes) (lo hi : nat) : bytes :=
  firstn (hi - lo) (skipn lo b).

(** The builtin [copy(dst[lo:hi], src)]: the first [min(hi-lo, len(src))]
    bytes of [src] overwrite [dst] from index [lo] on. *)
Definition copy_to (dst : bytes) (lo hi : nat) (src : bytes) : bytes :=
  let n := Nat.min (hi - lo) (length src) in
  firstn lo dst ++ firstn n src ++ skipn (lo + n) dst.

(** [binary.BigEndian.PutUint16(b[lo:lo+2], uint16(v))]; the conversion to
    [uint16] keeps the low 16 bits. *)
Definition uint16 (v : Z) : Z := v mod 65536.
Definition be16 (v : Z) : bytes := [(uint16 v / 256) mod 256; uint16 v mod 256].
Definition PutUint16 (b : bytes) (lo : nat) (v : Z) : bytes :=
  copy_to b lo (lo + 2) (be16 v).

(** [binary.BigEndian.PutUint64(s, v)] on a fresh 8-byte slice. *)
Definition uint64 (v : Z) : Z := v mod 2 ^ 64.
Definition be64 (v : Z) : bytes :=
  map (fun k => (uint64 v / 2 ^ (8 * (7 - Z.of_nat k))) mod 256) (seq 0 8).

(** [[]byte(s)]. *)
Definition bytes_of_string (s : string) : bytes :=
  map (fun c => Z.of_N (N_of_ascii c)) (list_ascii_of_string s).

(** Element-wise exclusive or of two equally long blocks, as the standards
    write it. *)
Fixpoint xor_bytes (a b : bytes) : bytes :=
  match a, b with
  | x :: a', y :: b' => Z.lxor x y :: xor_bytes a' b'
  | _, _ => []
  end.

(** Consecutive chunks of [n] elements. *)
Fixpoint chunks_fuel {A} (fuel n : nat) (l : list A) : list (list A) :=
  match fuel with
  | O => []
  | S f =>
      match l with
      | [] => []
      | _ => firstn n l :: chunks_fuel f n (skipn n l)
      end
  end.
Definition chunks {A} (n : nat) (l : list A) : list (list A) :=
  chunks_fuel (length l) n l.

(* ================================================================== *)
(** ** [crypto/aes]: the AES block cipher (FIPS 197) *)

Module AES.

(** Multiplication by [x] in GF(2^8) modulo [x^8 + x^4 + x^3 + x + 1]. *)
Definition xtime (b : Z) : Z :=
  Z.lxor ((2 * b) mod 256) (if 128 <=? b then 27 else 0).

Fixpoint gmul_aux (n : nat) (a b acc : Z) : Z :=
  match n with
  | O => acc
  | S k =>
      gmul_aux k (xtime a) (Z.shiftr b 1)
               (if Z.testbit b 0 then Z.lxor acc a else acc)
  end.
Definition gmul (a b : Z) : Z := gmul_aux 8 a b 0.

(** The multiplicative inverse [b^254] (and [0] for [0]). *)
Definition gf_inv (b : Z) : Z :=
  let b2 := gmul b b in
  let b4 := gmul b2 b2 in
  let b8 := gmul b4 b4 in
  let b16 := gmul b8 b8 in
  let b32 := gmul b16 b16 in
  let b64 := gmul b32 b32 in
  let b128 := gmul b64 b64 in
  gmul b2 (gmul b4 (gmul b8 (gmul b16 (gmul b32 (gmul b64 b128))))).

Definition rotl8 (x : Z) (n : Z) : Z :=
  Z.lor (Z.shiftl x n mod 256) (Z.shiftr x (8 - n)).

(** The S-box of section 5.1.1: inverse followed by the affine map. *)
Definition sbox_calc (b : Z) : Z :=
  let s := gf_inv b in
  Z.lxor s (Z.lxor (rotl8 s 1) (Z.lxor (rotl8 s 2)
    (Z.lxor (rotl8 s 3) (Z.lxor (rotl8 s 4) 99)))).

Definition sbox : list Z :=
  Eval vm_compute in map (fun i => sbox_calc (Z.of_nat i)) (seq 0 256).

Definition SubByte (b : Z) : Z := nth (Z.to_nat b) sbox 0.
Definition SubBytes (s : bytes) : bytes := map SubByte s.

(** The state is kept in input order: byte [r + 4c] is row [r], column [c]. *)
Definition ShiftRows (s : bytes) : bytes :=
  map (fun j => nth (j mod 4 + 4 * ((j / 4 + j mod 4) mod 4))%nat s 0)
      (seq 0 16).

Fixpoint MixColumns (s : bytes) : bytes :=
  match s with
  | a0 :: a1 :: a2 :: a3 :: rest =>
      Z.lxor (gmul 2 a0) (Z.lxor (gmul 3 a1) (Z.lxor a2 a3))
      :: Z.lxor a0 (Z.lxor (gmul 2 a1) (Z.lxor (gmul 3 a2) a3))
      :: Z.lxor a0 (Z.lxor a1 (Z.lxor (gmul 2 a2) (gmul 3 a3)))
      :: Z.lxor (gmul 3 a0) (Z.lxor a1 (Z.lxor a2 (gmul 2 a3)))
      :: MixColumns rest
  | _ => []
  end.

Definition AddRoundKey (s k : bytes) : bytes := xor_bytes s k.

(** Key expansion (section 5.2) for [Nk] = 4, 6 or 8 key words. *)
Definition RotWord (w : bytes) : bytes :=
  match w with
  | a :: t => t ++ [a]
  | [] => []
  end.
Definition SubWord (w : bytes) : bytes := map SubByte w.
Definition Rcon (i : nat) : bytes := [Nat.iter (i - 1) xtime 1; 0; 0; 0].

Fixpoint expand (fuel Nk i : nat) (w : list bytes) : list bytes :=
  match fuel with
  | O => w
  | S f =>
      let prev := nth (i - 1) w [] in
      let t :=
        if (i mod Nk =? 0)%nat
        then xor_bytes (SubWord (RotWord prev)) (Rcon (i / Nk))
        else if ((6 <? Nk) && (i mod Nk =? 4))%nat
             then SubWord prev
             else prev in
      expand f Nk (S i) (w ++ [xor_bytes (nth (i - Nk) w []) t])
  end.

Definition KeyExpansion (key : bytes) : list bytes :=
  let Nk := (length key / 4)%nat in
  let Nr := (Nk + 6)%nat in
  chunks 16 (concat (expand (4 * (Nr + 1) - Nk) Nk Nk (chunks 4 key))).

(** The cipher of section 5.1 on one 16-byte block. *)
Definition Cipher (rk : list bytes) (input : bytes) : bytes :=
  let Nr := (length rk - 1)%nat in
  let s0 := AddRoundKey input (nth 0 rk []) in
  let s :=
    fold_left
      (fun s r => AddRoundKey (MixColumns (ShiftRows (SubBytes s))) (nth r rk []))
      (seq 1 (Nr - 1)) s0 in
  AddRoundKey (ShiftRows (SubBytes s)) (nth Nr rk []).

(** [aes.NewCipher(key)]: a key of 16, 24 or 32 bytes gives a cipher.Block
    (the round keys); any other length gives a KeySizeError ([None]). *)
Definition Block := list bytes.

Definition NewCipher (key : bytes) : option Block :=
  if (len key =? 16) || (len key =? 24) || (len key =? 32)
  then Some (KeyExpansion key)
  else None.

(** [block.Encrypt(dst, src)]: panics ([None]) when [src] or [dst] is shorter
    than one block; otherwise the encryption of [src[:16]] is written to
    [dst[:16]] and the rest of [dst] is left alone. *)
Definition Encrypt (blk : Block) (dst src : bytes) : option bytes :=
  if (len src <? 16) || (len dst <? 16) then None
  else Some (Cipher blk (firstn 16 src) ++ skipn 16 dst).

(** AES-128 on one block, as a plain function. *)
Definition aes128 (key plain : bytes) : bytes :=
  Cipher (KeyExpansion key) plain.

End AES.

(* ================================================================== *)
(** ** [crypto/sha256]: SHA-256 (FIPS 180-4) *)

Module SHA256.

Definition w32 (x : Z) : Z := x mod 2 ^ 32.
Definition add32 (x y : Z) : Z := w32 (x + y).
Definition rotr (n x : Z) : Z :=
  Z.lor (Z.shiftr x n) (w32 (Z.shiftl x (32 - n))).
Definition not32 (x : Z) : Z := Z.lxor x 0xffffffff.

Definition Ch (x y z : Z) : Z := Z.lxor (Z.land x y) (Z.land (not32 x) z).
Definition Maj (x y z : Z) : Z :=
  Z.lxor (Z.land x y) (Z.lxor (Z.land x z) (Z.land y z)).
Definition bsig0 (x : Z) : Z := Z.lxor (rotr 2 x) (Z.lxor (rotr 13 x) (rotr 22 x)).
Definition bsig1 (x : Z) : Z := Z.lxor (rotr 6 x) (Z.lxor (rotr 11 x) (rotr 25 x)).
Definition ssig0 (x : Z) : Z := Z.lxor (rotr 7 x) (Z.lxor (rotr 18 x) (Z.shiftr x 3)).
Definition ssig1 (x : Z) : Z := Z.lxor (rotr 17 x) (Z.lxor (rotr 19 x) (Z.shiftr x 10)).

(** The constants of sections 4.2.2 and 5.3.3 are defined from the first 64
    primes: the first 32 bits of the fractional part of their cube roots,
    and of the square roots of the first eight. *)
Definition is_prime (n : nat) : bool :=
  forallb (fun d => negb (n mod d =? 0)%nat) (seq 2 (n - 2)).
Definition primes64 : list Z :=
  map Z.of_nat (filter is_prime (seq 2 310)).

(** The integer cube root, bit by bit from the top. *)
Fixpoint icbrt_bits (b : nat) (n r : Z) : Z :=
  match b with
  | O => r
  | S b' =>
      let r' := r + 2 ^ Z.of_nat b' in
      icbrt_bits b' n (if r' * r' * r' <=? n then r' else r)
  end.
Definition icbrt (n : Z) : Z := icbrt_bits 40 n 0.

Definition K256 : list Z :=
  Eval vm_compute in map (fun p => icbrt (p * 2 ^ 96) mod 2 ^ 32) primes64.

Definition H0 : list Z :=
  Eval vm_compute in
    map (fun p => Z.sqrt (p * 2 ^ 64) mod 2 ^ 32) (firstn 8 primes64).

(** Padding (section 5.1.1): a [1] bit, zeros, and the bit length on 64 bits. *)
Definition pad (msg : bytes) : bytes :=
  let n := length msg in
  msg ++ [128] ++ repeat 0 ((64 - (n + 9) mod 64) mod 64)%nat
      ++ be64 (8 * Z.of_nat n).

Definition word_of_bytes (b : bytes) : Z :=
  fold_left (fun acc x => acc * 256 + x) b 0.
Definition bytes_of_word (x : Z) : bytes :=
  [(x / 16777216) mod 256; (x / 65536) mod 256; (x / 256) mod 256; x mod 256].

(** Message schedule (section 6.2.2, step 1). *)
Fixpoint schedule (fuel t : nat) (W : list Z) : list Z :=
  match fuel with
  | O => W
  | S f =>
      let wt :=
        add32 (add32 (ssig1 (nth (t - 2) W 0)) (nth (t - 7) W 0))
              (add32 (ssig0 (nth (t - 15) W 0)) (nth (t - 16) W 0)) in
      schedule f (S t) (W ++ [wt])
  end.

Record regs := Regs { ra : Z; rb : Z; rc : Z; rd : Z; re : Z; rf : Z; rg : Z; rh : Z }.

Definition round (s : regs) (kw : Z * Z) : regs :=
  let (k, w) := kw in
  let T1 := add32 (add32 (add32 (rh s) (bsig1 (re s)))
                         (add32 (Ch (re s) (rf s) (rg s)) k)) w in
  let T2 := add32 (bsig0 (ra s)) (Maj (ra s) (rb s) (rc s)) in
  Regs (add32 T1 T2) (ra s) (rb s) (rc s) (add32 (rd s) T1) (re s) (rf s) (rg s).

Definition regs_of (h : list Z) : regs :=
  Regs (nth 0 h 0) (nth 1 h 0) (nth 2 h 0) (nth 3 h 0)
       (nth 4 h 0) (nth 5 h 0) (nth 6 h 0) (nth 7 h 0).
Definition list_of (s : regs) : list Z :=
  [ra s; rb s; rc s; rd s; re s; rf s; rg s; rh s].

Definition compress (h : list Z) (block : bytes) : list Z :=
  let W := schedule 48 16 (map word_of_bytes (chunks 4 block)) in
  let s := fold_left round (combine K256 W) (regs_of h) in
  map (fun p => add32 (fst p) (snd p)) (combine h (list_of s)).

(** [sha256.Sum256(msg)]: the 32-byte digest. *)
Definition Sum256 (msg : bytes) : bytes :=
  concat (map bytes_of_word (fold_left compress (chunks 64 (pad msg)) H0)).

End SHA256.

(* ================================================================== *)
(** ** [crypto/hmac] over SHA-256 (RFC 2104) *)

Module HMAC.

(** [hmac.New(sha256.New, key)], [Write(msg)], [Sum(nil)]: a key longer than
    the 64-byte block is hashed first, a shorter one is padded with zeros. *)
Definition block_key (key : bytes) : bytes :=
  let k := if (64 <? length key)%nat then SHA256.Sum256 key else key in
  k ++ repeat 0 (64 - length k).

Definition sha256 (key msg : bytes) : bytes :=
  let k := block_key key in
  SHA256.Sum256 (map (Z.lxor 0x5c) k
                 ++ SHA256.Sum256 (map (Z.lxor 0x36) k ++ msg)).

End HMAC.

(* ================================================================== *)
(** ** [encoding/hex] and [strconv] *)

Definition hex_digit (c : ascii) : option Z :=
  let n := Z.of_N (N_of_ascii c) in
  if (48 <=? n) && (n <=? 57) then Some (n - 48)
  else if (97 <=? n) && (n <=? 102) then Some (n - 87)
  else if (65 <=? n) && (n <=? 70) then Some (n - 55)
  else None.

(** [hex.DecodeString(s)]; [None] is its error (odd length or a character
    that is not a hexadecimal digit). *)
Fixpoint DecodeString (s : string) : option bytes :=
  match s with
  | EmptyString => Some []
  | String _ EmptyString => None
  | String c1 (String c2 r) =>
      match hex_digit c1, hex_digit c2, DecodeString r with
      | Some h, Some l, Some t => Some (16 * h + l :: t)
      | _, _, _ => None
      end
  end.

(** [strconv.ParseUint(s, 16, bitSize)]; [None] is its error (empty string,
    a character that is not a hexadecimal digit, or a value that does not
    fit in [bitSize] bits). *)
Fixpoint parse_hex (acc : Z) (s : string) : option Z :=
  match s with
  | EmptyString => Some acc
  | String c r =>
      match hex_digit c with
      | Some d => parse_hex (16 * acc + d) r
      | None => None
      end
  end.

Definition ParseUintHex (s : string) (bitSize : Z) : option Z :=
  match s with
  | EmptyString => None
  | _ =>
      match parse_hex 0 s with
      | Some v => if v <? 2 ^ bitSize then Some v else None
      | None => None
      end
  end.

(** The hexadecimal rendering [%x] of a byte slice, used to state values. *)
Definition hex_char (d : Z) : ascii :=
  ascii_of_N (Z.to_N (if d <? 10 then 48 + d else 87 + d)).
Fixpoint hex (b : bytes) : string :=
  match b with
  | [] => EmptyString
  | x :: t => String (hex_char (x / 16)) (String (hex_char (x mod 16)) (hex t))
  end.

(** A byte string written in hexadecimal (empty when ill-formed). *)
Definition unhex (s : string) : bytes :=
  match DecodeString s with
  | Some b => b
  | None => []
  end.

(* ================================================================== *)
(** ** Outcomes of a call *)

(** The [error] values the code builds, one constructor per format string. *)
Inductive error : Type :=
| LengthError (field : string) (want got : Z)
    (* "length of <field> should be <want>, got: <got>" *)
| KeySizeError (n : Z)                      (* aes.KeySizeError *)
| InvalidMCC (mcc : string)                 (* "invalid MCC: %s" *)
| InvalidMNC (mnc : string)                 (* "invalid MNC: %s" *)
| BadSNN (snn : bytes)                      (* "failed to build SNN: %s" *)
| Wrapped (ctx : string) (e : error)        (* "<ctx> failed: %w" *)
| BadFlag (name : string).                  (* a flag the driver cannot parse *)

Inductive outcome (A : Type) : Type :=
| Ok (a : A)
| Err (e : error)
| Panic.
Arguments Ok {A} a.
Arguments Err {A} e.
Arguments Panic {A}.

(** A method with a pointer receiver of type [S]. *)
Definition M (S A : Type) : Type := S -> outcome A * S.

Definition ret {S A} (a : A) : M S A := fun s => (Ok a, s).
Definition bind {S A B} (c : M S A) (k : A -> M S B) : M S B :=
  fun s =>
    match c s with
    | (Ok a, s') => k a s'
    | (Err e, s') => (Err e, s')
    | (Panic, s') => (Panic, s')
    end.
Definition get {S} : M S S := fun s => (Ok s, s).
Definition put {S} (s' : S) : M S unit := fun _ => (Ok tt, s').
Definition lift {S A} (o : outcome A) : M S A := fun s => (o, s).

Notation "x <- c ;; k" := (bind c (fun x => k))
  (at level 61, c at next level, right associativity).
Notation "c ;; k" := (bind c (fun _ => k))
  (at level 61, right associativity).

(** [for i := 0; i < n; i++ { body }] over a local buffer. *)
Definition for_ {A} (n : nat) (body : nat -> A -> A) (init : A) : A :=
  fold_left (fun acc i => body i acc) (seq 0 n) init.

(** The same loop when the body can index out of range ([None]). *)
Fixpoint for_opt {A} (idxs : list nat) (body : nat -> A -> option A) (acc : A)
  : option A :=
  match idxs with
  | [] => Some acc
  | i :: rest =>
      match body i acc with
      | Some acc' => for_opt rest body acc'
      | None => None
      end
  end.

(* ================================================================== *)
(** ** Package [milenage] *)

Module milenage.

Record Milenage : Type := mkMilenage {
  K : bytes;
  OP : option bytes;
  OPc : option bytes;
  RAND : bytes;
  SQN : bytes;
  AMF : bytes;
  MACA : bytes;
  MACS : bytes;
  RES : bytes;
  CK : bytes;
  IK : bytes;
  AK : bytes;
  AKS : bytes;
  RESStar : bytes
}.

Definition set_OPc (v : option bytes) (m : Milenage) : Milenage :=
  mkMilenage (K m) (OP m) v (RAND m) (SQN m) (AMF m) (MACA m) (MACS m)
             (RES m) (CK m) (IK m) (AK m) (AKS m) (RESStar m).
Definition set_MACA (v : bytes) (m : Milenage) : Milenage :=
  mkMilenage (K m) (OP m) (OPc m) (RAND m) (SQN m) (AMF m) v (MACS m)
             (RES m) (CK m) (IK m) (AK m) (AKS m) (RESStar m).
Definition set_MACS (v : bytes) (m : Milenage) : Milenage :=
  mkMilenage (K m) (OP m) (OPc m) (RAND m) (SQN m) (AMF m) (MACA m) v
             (RES m) (CK m) (IK m) (AK m) (AKS m) (RESStar m).
Definition set_AKS (v : bytes) (m : Milenage) : Milenage :=
  mkMilenage (K m) (OP m) (OPc m) (RAND m) (SQN m) (AMF m) (MACA m) (MACS m)
             (RES m) (CK m) (IK m) (AK m) v (RESStar m).
Definition set_RESStar (v : bytes) (m : Milenage) : Milenage :=
  mkMilenage (K m) (OP m) (OPc m) (RAND m) (SQN m) (AMF m) (MACA m) (MACS m)
             (RES m) (CK m) (IK m) (AK m) (AKS m) v.
(** [m.RES = res; m.CK = ck; m.IK = ik; m.AK = ak]. *)
Definition set_f2345 (res ck ik ak : bytes) (m : Milenage) : Milenage :=
  mkMilenage (K m) (OP m) (OPc m) (RAND m) (SQN m) (AMF m) (MACA m) (MACS m)
             res ck ik ak (AKS m) (RESStar m).

(** A slice-typed view of a field that can be nil. *)
Definition sl (o : option bytes) : bytes :=
  match o with
  | Some b => b
  | None => []
  end.

(** [New]: every output field is a fresh zero slice, [SQN] is the low six
    bytes of the big-endian [sqn], [AMF] the big-endian [amf]. *)
Definition New (k : bytes) (op : option bytes) (rand : bytes) (sqn amf : Z)
  : Milenage :=
  let s := be64 sqn in
  {| K := k; OP := op; OPc := None; RAND := rand;
     SQN := for_ 6 (fun i q => set_at q i (at_ s (i + 2))) (make 6);
     AMF := PutUint16 (make 2) 0 amf;
     MACA := make 8; MACS := make 8; RES := make 8;
     CK := make 16; IK := make 16; AK := make 6; AKS := make 6;
     RESStar := [] |}.

Definition NewWithOPc (k : bytes) (opc : option bytes) (rand : bytes)
  (sqn amf : Z) : Milenage :=
  let s := be64 sqn in
  {| K := k; OP := None; OPc := opc; RAND := rand;
     SQN := for_ 6 (fun i q => set_at q i (at_ s (i + 2))) (make 6);
     AMF := PutUint16 (make 2) 0 amf;
     MACA := make 8; MACS := make 8; RES := make 8;
     CK := make 16; IK := make 16; AK := make 6; AKS := make 6;
     RESStar := [] |}.

(** [validateLength]: the first field of the wrong length, in source order. *)
Definition check (field : string) (want : Z) (b : bytes)
  (next : option error) : option error :=
  if negb (len b =? want) then Some (LengthError field want (len b)) else next.

Definition check_set (field : string) (want : Z) (o : option bytes)
  (next : option error) : option error :=
  match o with
  | Some b => check field want b next
  | None => next
  end.

Definition validateLength (m : Milenage) : option error :=
  check "K" 16 (K m)
  (check_set "OP" 16 (OP m)
  (check_set "OPc" 16 (OPc m)
  (check "RAND" 16 (RAND m)
  (check "SQN" 6 (SQN m)
  (check "AMF" 2 (AMF m)
  (check "MACA" 8 (MACA m)
  (check "MACS" 8 (MACS m)
  (check "RES" 8 (RES m)
  (check "CK" 16 (CK m)
  (check "IK" 16 (IK m)
  (check "AK" 6 (AK m)
  (check "AKS" 6 (AKS m) None)))))))))))).

Definition validate : M Milenage unit :=
  fun m =>
    match validateLength m with
    | Some e => (Err e, m)
    | None => (Ok tt, m)
    end.

(** [xor]: the length is chosen by the sign of [len(b1) - len(b2)]. *)
Definition xor (b1 b2 : bytes) : bytes :=
  let l := if len b1 - len b2 <? 0 then length b1 else length b2 in
  for_ l (fun i out => set_at out i (Z.lxor (at_ b1 i) (at_ b2 i))) (make l).

Definition Xor (b1 b2 : bytes) : bytes := xor b1 b2.

Definition encrypt (key plain : bytes) : outcome bytes :=
  match AES.NewCipher key with
  | None => Err (KeySizeError (len key))
  | Some block =>
      match AES.Encrypt block (make (length plain)) plain with
      | Some encrypted => Ok encrypted
      | None => Panic
      end
  end.

(** The copy loop of [computeOPc]:
    [for i, b := range bytes { if i > len(m.OPc) { break }; m.OPc[i] = b }].
    The flag is false when [m.OPc[i]] is out of range. *)
Fixpoint opc_loop (i : nat) (bs dst : bytes) : bool * bytes :=
  match bs with
  | [] => (true, dst)
  | b :: rest =>
      if len dst <? Z.of_nat i then (true, dst)
      else if Z.of_nat i <? len dst then opc_loop (S i) rest (set_at dst i b)
      else (false, dst)
  end.

Definition computeOPc : M Milenage unit :=
  fun m =>
    let m1 := set_OPc (Some (make 16)) m in
    match AES.NewCipher (K m1) with
    | None => (Err (KeySizeError (len (K m1))), m1)
    | Some block =>
        match AES.Encrypt block (make (length (sl (OP m1)))) (sl (OP m1)) with
        | None => (Panic, m1)
        | Some cipherText =>
            let bs := xor cipherText (sl (OP m1)) in
            let (ok, dst) := opc_loop 0 bs (sl (OPc m1)) in
            (if ok then Ok tt else Panic, set_OPc (Some dst) m1)
        end
    end.

(** [if m.OPc == nil { if err := m.computeOPc(); err != nil { return } }]. *)
Definition ensureOPc : M Milenage unit :=
  fun m =>
    match OPc m with
    | None => computeOPc m
    | Some _ => (Ok tt, m)
    end.

Definition ComputeOPc (k : bytes) (op : option bytes) : outcome bytes :=
  let m := New k op (make 16) 0 0 in
  match computeOPc m with
  | (Ok _, m') => Ok (sl (OPc m'))
  | (Err e, _) => Err e
  | (Panic, _) => Panic
  end.

(** [TEMP]: the first 16-byte loop and the first encryption, shared by
    [f1base], [F2345] and [F5Star]. *)
Definition rand_xor_opc (m : Milenage) : bytes :=
  for_ 16 (fun i r => set_at r i (Z.lxor (at_ (RAND m) i) (at_ (sl (OPc m)) i)))
       (make 16).

(** [for i < 16 { rijndaelInput[(i+k)%16] = temp[i] ^ m.OPc[i] }]. *)
Definition rot_loop (k : nat) (temp opc rijndaelInput : bytes) : bytes :=
  for_ 16 (fun i r => set_at r ((i + k) mod 16) (Z.lxor (at_ temp i) (at_ opc i)))
       rijndaelInput.

(** [rijndaelInput[15] ^= c]. *)
Definition flip15 (c : Z) (r : bytes) : bytes :=
  set_at r 15 (Z.lxor (at_ r 15) c).

(** The block [IN1] of [f1base]:
    [for i < 6 { in1[i] = sqn[i]; in1[i+8] = sqn[i] }] and
    [for i < 2 { in1[i+6] = amf[i]; in1[i+14] = amf[i] }];
    [None] when [sqn[i]] or [amf[i]] is out of range. *)
Definition build_in1 (sqn amf : bytes) : option bytes :=
  match
    for_opt (seq 0 6)
      (fun i in1 =>
         match nth_error sqn i with
         | Some v => Some (set_at (set_at in1 i v) (i + 8) v)
         | None => None
         end) (make 16)
  with
  | None => None
  | Some in1 =>
      for_opt (seq 0 2)
        (fun i in1 =>
           match nth_error amf i with
           | Some v => Some (set_at (set_at in1 (i + 6) v) (i + 14) v)
           | None => None
           end) in1
  end.

Definition f1base (sqn amf : bytes) : M Milenage bytes :=
  validate ;;
  ensureOPc ;;
  m <- get ;;
  let rijndaelInput := rand_xor_opc m in
  temp <- lift (encrypt (K m) rijndaelInput) ;;
  match build_in1 sqn amf with
  | None => lift Panic
  | Some in1 =>
      let rijndaelInput := rot_loop 8 in1 (sl (OPc m)) rijndaelInput in
      let rijndaelInput :=
        for_ 16 (fun i r => set_at r i (Z.lxor (at_ r i) (at_ temp i)))
             rijndaelInput in
      out <- lift (encrypt (K m) rijndaelInput) ;;
      ret (xor out (sl (OPc m)))
  end.

Definition F1 : M Milenage bytes :=
  m <- get ;;
  mac <- f1base (SQN m) (AMF m) ;;
  m <- get ;;
  put (set_MACA (slice mac 0 8) m) ;;
  ret (slice mac 0 8).

Definition F1Star (sqn amf : bytes) : M Milenage bytes :=
  mac <- f1base sqn amf ;;
  m <- get ;;
  put (set_MACS (slice mac 8 (length mac)) m) ;;
  ret (slice mac 8 (length mac)).

(** [F2345].  Its bare [return]s after a failed [encrypt] hand back the named
    results together with a non-nil [err]; the outcome is that error. *)
Definition F2345 : M Milenage (bytes * bytes * bytes * bytes) :=
  validate ;;
  ensureOPc ;;
  m <- get ;;
  let rijndaelInput := rand_xor_opc m in
  temp <- lift (encrypt (K m) rijndaelInput) ;;
  let rijndaelInput :=
    for_ 16 (fun i r => set_at r i (Z.lxor (at_ temp i) (at_ (sl (OPc m)) i)))
         rijndaelInput in
  let rijndaelInput := flip15 1 rijndaelInput in
  out <- lift (encrypt (K m) rijndaelInput) ;;
  let tmp := xor out (sl (OPc m)) in
  let res := slice tmp 8 (length tmp) in
  let ak := slice tmp 0 6 in
  let rijndaelInput := rot_loop 12 temp (sl (OPc m)) rijndaelInput in
  let rijndaelInput := flip15 2 rijndaelInput in
  out <- lift (encrypt (K m) rijndaelInput) ;;
  let ck := xor out (sl (OPc m)) in
  let rijndaelInput := rot_loop 8 temp (sl (OPc m)) rijndaelInput in
  let rijndaelInput := flip15 4 rijndaelInput in
  out <- lift (encrypt (K m) rijndaelInput) ;;
  let ik := xor out (sl (OPc m)) in
  put (set_f2345 res ck ik ak m) ;;
  ret (res, ck, ik, ak).

Definition F5Star : M Milenage bytes :=
  validate ;;
  ensureOPc ;;
  m <- get ;;
  let rijndaelInput := rand_xor_opc m in
  tmp <- lift (encrypt (K m) rijndaelInput) ;;
  let rijndaelInput := rot_loop 4 tmp (sl (OPc m)) rijndaelInput in
  let rijndaelInput := flip15 8 rijndaelInput in
  out <- lift (encrypt (K m) rijndaelInput) ;;
  let aks := slice (xor out (sl (OPc m))) 0 6 in
  put (set_AKS aks m) ;;
  ret aks.

(** [fmt.Sprintf("5G:mnc%s.mcc%s.3gppnetwork.org", mnc, mcc)]. *)
Definition snn_string (mnc mcc : string) : string :=
  ("5G:mnc" ++ mnc ++ ".mcc" ++ mcc ++ ".3gppnetwork.org")%string.

(** The 63-byte input [b] of the RES* derivation, as the code fills it. *)
Definition resstar_input (snn : bytes) (m : Milenage) : bytes :=
  let b := make 63 in
  let b := set_at b 0 0x6b in
  let b := copy_to b 1 33 snn in
  let b := PutUint16 b 33 (len snn) in
  let b := copy_to b 35 51 (RAND m) in
  let b := PutUint16 b 51 (len (RAND m)) in
  let b := copy_to b 53 61 (RES m) in
  PutUint16 b 61 (len (RES m)).

Definition resstar_key (m : Milenage) : bytes :=
  let k := make 32 in
  let k := copy_to k 0 16 (CK m) in
  copy_to k 16 32 (IK m).

(** [ComputeRESStar].  [mac.Write] of a [hash.Hash] never returns an error,
    so the branch that wraps it is not an outcome. *)
Definition ComputeRESStar (mcc mnc : string) : M Milenage bytes :=
  validate ;;
  if negb (Z.of_nat (String.length mcc) =? 3) then lift (Err (InvalidMCC mcc))
  else
    let l := Z.of_nat (String.length mnc) in
    let step (mnc : string) : M Milenage bytes :=
      let snn := bytes_of_string (snn_string mnc mcc) in
      if negb (len snn =? 32) then lift (Err (BadSNN snn))
      else
        m <- get ;;
        let out := HMAC.sha256 (resstar_key m) (resstar_input snn m) in
        ret (slice out (length out - 16) (length out)) in
    if l =? 2 then step ("0" ++ mnc)%string
    else if negb (l =? 3) then lift (Err (InvalidMNC mnc))
    else step mnc.

Definition GenerateAUTN : M Milenage bytes :=
  validate ;;
  m <- get ;;
  let autn := make 16 in
  let autn := copy_to autn 0 6 (xor (SQN m) (AK m)) in
  let autn := copy_to autn 6 8 (AMF m) in
  let autn := copy_to autn 8 16 (MACA m) in
  ret autn.

Definition GenerateAUTS : M Milenage bytes :=
  validate ;;
  m <- get ;;
  macS <- F1Star (SQN m) [0; 0] ;;
  aks <- F5Star ;;
  m <- get ;;
  let auts := make 14 in
  let auts := copy_to auts 0 6 (xor (SQN m) aks) in
  let auts := copy_to auts 6 14 macS in
  ret auts.

(** [fmt.Errorf("<ctx> failed: %w", err)] around a call. *)
Definition wrap {A} (ctx : string) (c : M Milenage A) : M Milenage A :=
  fun m =>
    match c m with
    | (Err e, m') => (Err (Wrapped ctx e), m')
    | r => r
    end.

Definition ComputeAll : M Milenage unit :=
  validate ;;
  wrap "F1()" F1 ;;
  m <- get ;;
  wrap "F1Star()" (F1Star (SQN m) (AMF m)) ;;
  wrap "F2345()" F2345 ;;
  wrap "F5Star()" F5Star ;;
  ret tt.

End milenage.

(* ================================================================== *)
(** ** Package [aka] *)

Module aka.

Record Aka : Type := mkAka {
  mil : milenage.Milenage;
  SNN : bytes;
  SUPI : bytes;
  KAUSF : bytes;
  KSEAF : bytes;
  KAMF : bytes;
  HXRESStar : bytes
}.

Definition set_KAUSF (v : bytes) (a : Aka) : Aka :=
  mkAka (mil a) (SNN a) (SUPI a) v (KSEAF a) (KAMF a) (HXRESStar a).
Definition set_KSEAF (v : bytes) (a : Aka) : Aka :=
  mkAka (mil a) (SNN a) (SUPI a) (KAUSF a) v (KAMF a) (HXRESStar a).
Definition set_KAMF (v : bytes) (a : Aka) : Aka :=
  mkAka (mil a) (SNN a) (SUPI a) (KAUSF a) (KSEAF a) v (HXRESStar a).
Definition set_HXRESStar (v : bytes) (a : Aka) : Aka :=
  mkAka (mil a) (SNN a) (SUPI a) (KAUSF a) (KSEAF a) (KAMF a) v.

(** [New] receives the MILENAGE state by value: the fields of the copy are
    the same slices.  The methods of [milenage] replace slices and never
    write into one they were given; the two [append]s below on fields of the
    snapshot ([CK] in [ComputeKAUSF], [RAND] in [ComputeHXRESStar]) can only
    write past the length of those slices, into spare capacity.  The bytes
    seen through every field therefore stay as they were when the copy was
    taken (no two fields are laid over one array by the constructors or by
    the driver), and the copy is modelled as a value. *)
Definition New (mil : milenage.Milenage) (SNN SUPI : string) : Aka :=
  {| mil := mil;
     SNN := bytes_of_string SNN;
     SUPI := bytes_of_string SUPI;
     KAUSF := make 32; KSEAF := make 32; KAMF := make 32;
     HXRESStar := [] |}.

Definition byteArrayLen2B (b : bytes) : bytes :=
  let length := len b in
  let result := make 2 in
  PutUint16 result 0 length.

Definition ComputeKAUSF : M Aka bytes :=
  a <- get ;;
  let sqnXorAk := milenage.Xor (milenage.SQN (mil a)) (milenage.AK (mil a)) in
  let sqnXorAkLen := byteArrayLen2B sqnXorAk in
  let sNNLen := byteArrayLen2B (SNN a) in
  let inputString := [0x6a] in
  let inputString := inputString ++ SNN a in
  let inputString := inputString ++ sNNLen in
  let inputString := inputString ++ sqnXorAk in
  let inputString := inputString ++ sqnXorAkLen in
  let inputKey := milenage.CK (mil a) ++ milenage.IK (mil a) in
  let kausf := HMAC.sha256 inputKey inputString in
  put (set_KAUSF kausf a) ;;
  ret kausf.

Definition ComputeKSEAF : M Aka bytes :=
  a <- get ;;
  let sNNLen := byteArrayLen2B (SNN a) in
  let inputString := [0x6c] in
  let inputString := inputString ++ SNN a in
  let inputString := inputString ++ sNNLen in
  let inputKey := KAUSF a in
  let kseaf := HMAC.sha256 inputKey inputString in
  put (set_KSEAF kseaf a) ;;
  ret kseaf.

Definition ComputeKAMF : M Aka bytes :=
  a <- get ;;
  let sUPILen := byteArrayLen2B (SUPI a) in
  let abba := [0x00; 0x00] in
  let inputString := [0x6d] ++ SUPI a in
  let inputString := inputString ++ sUPILen in
  let inputString := inputString ++ abba in
  let inputString := inputString ++ [0x00; 0x02] in
  let inputKey := KAUSF a in
  let kamf := HMAC.sha256 inputKey inputString in
  put (set_KAMF kamf a) ;;
  ret kamf.

Definition ComputeHXRESStar : M Aka bytes :=
  a <- get ;;
  let inputString := milenage.RAND (mil a) ++ milenage.RESStar (mil a) in
  let hash := SHA256.Sum256 inputString in
  let hxresstar := slice hash (length hash - 16) (length hash) in
  put (set_HXRESStar hxresstar a) ;;
  ret hxresstar.

End aka.

(* ================================================================== *)
(** ** The driver ([main]) *)

Module driver.

(** The values the driver prints, in the order of its trace. *)
Record Trace : Type := mkTrace {
  t_OPc : bytes;
  t_MACA : bytes;
  t_CK : bytes;
  t_IK : bytes;
  t_AK : bytes;
  t_xRES : bytes;
  t_xRESStar : bytes;
  t_AUTN : bytes;
  t_KAUSF : bytes;
  t_HXRESStar : bytes;
  t_KSEAF : bytes;
  t_KAMF : bytes
}.

(** [log.Fatalf] after a failed call ends the run with that error. *)
Definition fatal {A} (o : option A) (name : string) : outcome A :=
  match o with
  | Some a => Ok a
  | None => Err (BadFlag name)
  end.

(** Sequencing of plain outcomes. *)
Definition andThen {A B} (o : outcome A) (k : A -> outcome B) : outcome B :=
  match o with
  | Ok a => k a
  | Err e => Err e
  | Panic => Panic
  end.

Notation "x <~ o ;; k" := (andThen o (fun x => k))
  (at level 61, o at next level, right associativity).

(** A method call on an instance: the value it returned and the state it
    left behind, or the error or panic that ends the run. *)
Definition call {S A} (c : M S A) (s : S) : outcome (A * S) :=
  match c s with
  | (Ok a, s') => Ok (a, s')
  | (Err e, _) => Err e
  | (Panic, _) => Panic
  end.

(** [main] with the values of its six flags.  Every [err != nil] branch is a
    [log.Fatalf]; the assignment [m.RESStar, err = m.ComputeRESStar(...)]
    is reached by the later calls only when [err] is nil. *)
Definition main (imsis ks ops sqns amfs rands : string) : outcome Trace :=
  k <~ fatal (DecodeString ks) "k" ;;
  op <~ fatal (DecodeString ops) "op" ;;
  opc <~ milenage.ComputeOPc k (Some op) ;;
  sqn <~ fatal (ParseUintHex sqns 64) "sqn" ;;
  amf64 <~ fatal (ParseUintHex amfs 16) "amf" ;;
  let amf := uint16 amf64 in
  rand <~ fatal (DecodeString rands) "rand" ;;
  if (String.length imsis <? 5)%nat then Panic
  else
    let mcc := substring 0 3 imsis in
    let mnc := substring 3 2 imsis in
    let m := milenage.NewWithOPc k (Some opc) rand sqn amf in
    r <~ call milenage.F1 m ;;
    let (maca, m) := r : bytes * milenage.Milenage in
    r <~ call milenage.F2345 m ;;
    let (out, m) := r : (bytes * bytes * bytes * bytes) * milenage.Milenage in
    let '(xres, ck, ik, ak) := out in
    r <~ call (milenage.ComputeRESStar (substring 0 3 imsis)
                                       (substring 3 2 imsis)) m ;;
    let (resStar, m) := r : bytes * milenage.Milenage in
    let m := milenage.set_RESStar resStar m in
    let xRESStar := milenage.RESStar m in
    r <~ call milenage.GenerateAUTN m ;;
    let (autn, m) := r : bytes * milenage.Milenage in
    let snn := milenage.snn_string mnc mcc in
    let a := aka.New m snn imsis in
    r <~ call aka.ComputeKAUSF a ;;
    let (kausf, a) := r : bytes * aka.Aka in
    r <~ call aka.ComputeHXRESStar a ;;
    let (hxresstar, a) := r : bytes * aka.Aka in
    r <~ call aka.ComputeKSEAF a ;;
    let (kseaf, a) := r : bytes * aka.Aka in
    r <~ call aka.ComputeKAMF a ;;
    let (kamf, a) := r : bytes * aka.Aka in
    Ok (mkTrace opc maca ck ik ak xres xRESStar autn kausf hxresstar
                kseaf kamf).

(** The default values of the flags. *)
Definition default_run : outcome Trace :=
  main "001010123456789" "00112233445566778899aabbccddeeff"
       "00112233445566778899aabbccddeeff" "000000000001" "8000"
       "00112233445566778899aabbccddeeff".

End driver.

(* ================================================================== *)
(** ** The derivations as the documentation words them *)

Module spec.

(** [OPc = AES-128-Encrypt(K, OP) xor OP]. *)
Definition OPc (K OP : bytes) : bytes :=
  xor_bytes (AES.aes128 K OP) OP.

(** [TEMP = AES(K, RAND xor OPc)]. *)
Definition TEMP (K RAND OPc : bytes) : bytes :=
  AES.aes128 K (xor_bytes RAND OPc).

(** The byte rotation that places input index [i] at output index
    [(i + k) mod 16]. *)
Definition place (k : nat) (x : bytes) : bytes :=
  map (fun j => nth ((j + 16 - k) mod 16) x 0) (seq 0 16).

(** [R[15] ^= c]. *)
Definition flip (c : Z) (r : bytes) : bytes :=
  firstn 15 r ++ [Z.lxor (nth 15 r 0) c].

(** [IN1]: bytes 0..5 = SQN, 6..7 = AMF, 8..13 = SQN, 14..15 = AMF. *)
Definition IN1 (sqn amf : bytes) : bytes := sqn ++ amf ++ sqn ++ amf.

(** [OUT1 = AES(K, rot64(IN1 xor OPc) xor TEMP) xor OPc]. *)
Definition OUT1 (K RAND OPc sqn amf : bytes) : bytes :=
  xor_bytes
    (AES.aes128 K (xor_bytes (place 8 (xor_bytes (IN1 sqn amf) OPc))
                             (TEMP K RAND OPc)))
    OPc.

(** [OUTn = AES(K, flip_c(rot_k(TEMP xor OPc))) xor OPc]. *)
Definition OUT (k : nat) (c : Z) (K RAND OPc : bytes) : bytes :=
  xor_bytes
    (AES.aes128 K (flip c (place k (xor_bytes (TEMP K RAND OPc) OPc))))
    OPc.

Definition OUT2 := OUT 0 1.
Definition OUT3 := OUT 12 2.
Definition OUT4 := OUT 8 4.
Definition OUT5 := OUT 4 8.

(** [SNN = "5G:mnc<MNC3>.mcc<MCC3>.3gppnetwork.org"]. *)
Definition SNN (mnc3 mcc : string) : bytes :=
  bytes_of_string ("5G:mnc" ++ mnc3 ++ ".mcc" ++ mcc ++ ".3gppnetwork.org")%string.

(** The MNC zero-padded to three characters when given as two. *)
Definition MNC3 (mnc : string) : string :=
  if (String.length mnc =? 2)%nat then String "0" mnc else mnc.

(** [S = 0x6B || SNN || 0x0020 || RAND || 0x0010 || RES || 0x0008]. *)
Definition S_RESStar (snn RAND RES : bytes) : bytes :=
  [0x6B] ++ snn ++ [0x00; 0x20] ++ RAND ++ [0x00; 0x10] ++ RES ++ [0x00; 0x08].

(** [RES* = HMAC-SHA-256(CK || IK, S)[16..32]]. *)
Definition RESStar (CK IK snn RAND RES : bytes) : bytes :=
  skipn 16 (HMAC.sha256 (CK ++ IK) (S_RESStar snn RAND RES)).

(** [FC || SUPI || len(SUPI) || ABBA || 0x0002] with [FC = 0x6D] and
    [ABBA = 0x0000]; [hi] and [lo] are the two length bytes. *)
Definition S_KAMF (SUPI : bytes) (hi lo : Z) : bytes :=
  [0x6D] ++ SUPI ++ [hi; lo] ++ [0x00; 0x00] ++ [0x00; 0x02].

End spec.

(* ================================================================== *)
(** ** Vocabulary of the statements *)

(** What [validateLength] accepts. *)
Record lengths_ok (m : milenage.Milenage) : Prop := {
  ok_K : length (milenage.K m) = 16%nat;
  ok_OP : forall op, milenage.OP m = Some op -> length op = 16%nat;
  ok_OPc : forall opc, milenage.OPc m = Some opc -> length opc = 16%nat;
  ok_RAND : length (milenage.RAND m) = 16%nat;
  ok_SQN : length (milenage.SQN m) = 6%nat;
  ok_AMF : length (milenage.AMF m) = 2%nat;
  ok_MACA : length (milenage.MACA m) = 8%nat;
  ok_MACS : length (milenage.MACS m) = 8%nat;
  ok_RES : length (milenage.RES m) = 8%nat;
  ok_CK : length (milenage.CK m) = 16%nat;
  ok_IK : length (milenage.IK m) = 16%nat;
  ok_AK : length (milenage.AK m) = 6%nat;
  ok_AKS : length (milenage.AKS m) = 6%nat
}.

(** An instance whose [OPc] is present or can be derived from its [OP]. *)
Definition has_opc (m : milenage.Milenage) : Prop :=
  milenage.OPc m <> None \/ milenage.OP m <> None.

(** The [OPc] the derivations work with: the stored one, else the one
    derived from [OP]. *)
Definition opc_of (m : milenage.Milenage) : bytes :=
  match milenage.OPc m with
  | Some c => c
  | None => spec.OPc (milenage.K m) (milenage.sl (milenage.OP m))
  end.

(** The invalid-length errors: a field, the length wanted and another
    length got. *)
Definition is_length_error (e : error) : Prop :=
  exists field want got, e = LengthError field want got /\ got <> want.

(** The value [f1base] computes from the instance's inputs. *)
Definition f1_value (K RAND opc sqn amf : bytes) : outcome bytes :=
  match milenage.build_in1 sqn amf with
  | None => Panic
  | Some in1 =>
      Ok (xor_bytes
            (AES.aes128 K (xor_bytes (spec.place 8 (xor_bytes in1 opc))
                                     (spec.TEMP K RAND opc)))
            opc)
  end.

(** The derivations an instance offers, with their arguments. *)
Inductive derivation : Type :=
| dF1
| dF1Star (sqn amf : bytes)
| dF2345
| dF5Star
| dComputeRESStar (mcc mnc : string)
| dGenerateAUTN
| dGenerateAUTS.

(** What a derivation returns: one byte string, or the four of [F2345]. *)
Inductive value : Type :=
| VBytes (b : bytes)
| VQuad (res ck ik ak : bytes).

(** A call whose result is wrapped by [f]. *)
Definition fmap {S A B} (f : A -> B) (c : M S A) : M S B :=
  x <- c ;; ret (f x).

(** The call a derivation stands for. *)
Definition run (d : derivation) : M milenage.Milenage value :=
  match d with
  | dF1 => fmap VBytes milenage.F1
  | dF1Star sqn amf => fmap VBytes (milenage.F1Star sqn amf)
  | dF2345 =>
      fmap (fun '(res, ck, ik, ak) => VQuad res ck ik ak) milenage.F2345
  | dF5Star => fmap VBytes milenage.F5Star
  | dComputeRESStar mcc mnc => fmap VBytes (milenage.ComputeRESStar mcc mnc)
  | dGenerateAUTN => fmap VBytes milenage.GenerateAUTN
  | dGenerateAUTS => fmap VBytes milenage.GenerateAUTS
  end.

(** A sequence of derivations on one instance: the outcome of each call, in
    order; the instance is carried from call to call whatever the outcome. *)
Fixpoint run_all (ds : list derivation) (m : milenage.Milenage)
  : list (outcome value) :=
  match ds with
  | [] => []
  | d :: rest => let (o, m') := run d m in o :: run_all rest m'
  end.

(** The canonical subscriber data of the driver. *)
Definition K0 : bytes := unhex "00112233445566778899aabbccddeeff".
Definition OP0 : bytes := unhex "00112233445566778899aabbccddeeff".
Definition RAND0 : bytes := unhex "00112233445566778899aabbccddeeff".
Definition OPc0 : bytes := unhex "62e75b8d6fa5bf46ec87a9276f9df54d".

(** Instances built from OP, from OPc, and from neither. *)
Definition m_op : milenage.Milenage := milenage.New K0 (Some OP0) RAND0 1 0x8000.
Definition m_opc : milenage.Milenage :=
  milenage.NewWithOPc K0 (Some OPc0) RAND0 1 0x8000.
Definition m_bare : milenage.Milenage := milenage.New K0 None RAND0 1 0x8000.

(** The driver's instance after [F1] and [F2345]. *)
Definition m_derived : milenage.Milenage :=
  snd (milenage.F2345 (snd (milenage.F1 m_opc))).

(** An instance whose CK has three bytes, and its snapshot. *)
Definition m_short_ck : milenage.Milenage :=
  milenage.mkMilenage K0 None (Some OPc0) RAND0 [0; 0; 0; 0; 0; 1] [0x80; 0]
    (make 8) (make 8) (make 8) [1; 2; 3] (make 16) (make 6) (make 6) [].
Definition a_short_ck : aka.Aka :=
  aka.New m_short_ck "5G:mnc001.mcc001.3gppnetwork.org" "001010123456789".

(** An instance built by the constructor from a 15-byte RAND, and its
    snapshot. *)
Definition m_short_rand : milenage.Milenage :=
  milenage.NewWithOPc K0 (Some OPc0) (firstn 15 RAND0) 1 0x8000.
Definition a_short_rand : aka.Aka :=
  aka.New m_short_rand "5G:mnc001.mcc001.3gppnetwork.org" "001010123456789".

(** An instance built by the constructor from a 15-byte K. *)
Definition m_short_k : milenage.Milenage :=
  milenage.NewWithOPc (firstn 15 K0) (Some OPc0) RAND0 1 0x8000.

(** A call fails fast with an invalid-length error. *)
Definition fails_with_length_error {S A} (c : M S A) (s : S) : Prop :=
  exists field want got, fst (c s) = Err (LengthError field want got).

(** The trace of the driver's documented run. *)
Definition golden : driver.Trace :=
  {| driver.t_OPc := unhex "62e75b8d6fa5bf46ec87a9276f9df54d";
     driver.t_MACA := unhex "4af30b82a8531115";
     driver.t_CK := unhex "b379874b3d183d2a21291d439e7761e1";
     driver.t_IK := unhex "f4706f66629cf7ddf881d80025bf1255";
     driver.t_AK := unhex "de656c8b0bce";
     driver.t_xRES := unhex "700eb2300b2c4799";
     driver.t_xRESStar := unhex "31b6d938a5290ccc65bc829f9820a8d9";
     driver.t_AUTN := unhex "de656c8b0bcf80004af30b82a8531115";
     driver.t_KAUSF :=
       unhex "fe8d2546b6971c510329cd8ae34c177d6569486aa9b71159cc3b5c752a93bd10";
     driver.t_HXRESStar := unhex "3308fb7cf06a35f1cd086b904ce82ecf";
     driver.t_KSEAF :=
       unhex "442ac77e2366d8084cb447883b03311065ea6bbd8753cf87e92c0669019cf829";
     driver.t_KAMF :=
       unhex "e0c07aacbba7d77ad55efa309882963a9d46dbc9f0045026df89a5d9a30d9915"
  |}.

(** The instance with its operator field normalised: OP dropped and OPc
    present.  Two instances with the same normal form differ only in
    whether OPc has been derived yet. *)
Definition canon (m : milenage.Milenage) : milenage.Milenage :=
  milenage.mkMilenage (milenage.K m) None (Some (opc_of m)) (milenage.RAND m)
    (milenage.SQN m) (milenage.AMF m) (milenage.MACA m) (milenage.MACS m)
    (milenage.RES m) (milenage.CK m) (milenage.IK m) (milenage.AK m)
    (milenage.AKS m) (milenage.RESStar m).

(** An instance the derivations can work on. *)
Definition ready (m : milenage.Milenage) : Prop := lengths_ok m /\ has_opc m.

(** The driver's snapshot once KAUSF has been computed. *)
Definition a_driver : aka.Aka :=
  snd (aka.ComputeKAUSF
         (aka.New (milenage.set_RESStar
                     (unhex "31b6d938a5290ccc65bc829f9820a8d9") m_derived)
                  "5G:mnc01.mcc001.3gppnetwork.org" "001010123456789")).

(** The number a byte string denotes in big-endian order. *)
Definition be_value (b : bytes) : Z :=
  fold_left (fun acc x => acc * 256 + x) b 0.

(** The inputs every MILENAGE function works from. *)
Definition inputs (m : milenage.Milenage)
  : bytes * bytes * bytes * bytes * bytes :=
  (milenage.K m, milenage.RAND m, milenage.SQN m, milenage.AMF m, opc_of m).

(** The instance after a sequence of derivations. *)
Fixpoint after (ds : list derivation) (m : milenage.Milenage)
  : milenage.Milenage :=
  match ds with
  | [] => m
  | d :: rest => after rest (snd (run d m))
  end.

(** The derivations that read nothing but the inputs. *)
Definition reads_inputs_only (d : derivation) : bool :=
  match d with
  | dF1 | dF1Star _ _ | dF2345 | dF5Star | dGenerateAUTS => true
  | dComputeRESStar _ _ | dGenerateAUTN => false
  end.

(** The byte lengths of the value a derivation returns. *)
Definition value_lengths (v : value) : list nat :=
  match v with
  | VBytes b => [length b]
  | VQuad res ck ik ak => [length res; length ck; length ik; length ak]
  end.

Definition result_lengths (d : derivation) : list nat :=
  match d with
  | dF1 | dF1Star _ _ => [8%nat]
  | dF2345 => [8%nat; 16%nat; 16%nat; 6%nat]
  | dF5Star => [6%nat]
  | dComputeRESStar _ _ | dGenerateAUTN => [16%nat]
  | dGenerateAUTS => [14%nat]
  end.

(* ================================================================== *)
(** ** Sanity checks of the primitives against published vectors *)

(** FIPS 197, appendix C.1. *)
Example aes128_fips197_C1 :
  hex (AES.aes128 (unhex "000102030405060708090a0b0c0d0e0f")
                  (unhex "00112233445566778899aabbccddeeff"))
  = "69c4e0d86a7b0430d8cdb78070b4c55a"%string.
Proof. vm_compute. reflexivity. Qed.

(** FIPS 197, appendices C.2 and C.3 (192- and 256-bit keys). *)
Example aes192_aes256_fips197 :
  hex (AES.Cipher
         (AES.KeyExpansion
            (unhex "000102030405060708090a0b0c0d0e0f1011121314151617"))
         (unhex "00112233445566778899aabbccddeeff"))
  = "dda97ca4864cdfe06eaf70a0ec0d7191"%string
  /\ hex (AES.Cipher
            (AES.KeyExpansion
               (unhex "000102030405060708090a0b0c0d0e0f101112131415161718191a1b1c1d1e1f"))
            (unhex "00112233445566778899aabbccddeeff"))
     = "8ea2b7ca516745bfeafc49904b496089"%string.
Proof. split; vm_compute; reflexivity. Qed.

(** The first and last round constants and the first initial hash word of
    FIPS 180-4. *)
Example sha256_constants :
  length SHA256.K256 = 64%nat
  /\ nth 0 SHA256.K256 0 = 0x428a2f98 /\ nth 63 SHA256.K256 0 = 0xc67178f2
  /\ length SHA256.H0 = 8%nat
  /\ nth 0 SHA256.H0 0 = 0x6a09e667 /\ nth 7 SHA256.H0 0 = 0x5be0cd19.
Proof. repeat split. Qed.

(** FIPS 180-4 sample: SHA-256 of "abc". *)
Example sha256_abc :
  hex (SHA256.Sum256 (bytes_of_string "abc"))
  = "ba7816bf8f01cfea414140de5dae2223b00361a396177a9cb410ff61f20015ad"%string.
Proof. vm_compute. reflexivity. Qed.

(** RFC 4231, test case 2. *)
Example hmac_rfc4231_2 :
  hex (HMAC.sha256 (bytes_of_string "Jefe")
                   (bytes_of_string "what do ya want for nothing?"))
  = "5bdcc146bf60754e6a042426089575c75a003f089d2739839dec58b964ec3843"%string.
Proof. vm_compute. reflexivity. Qed.

(* ================================================================== *)
(** ** Lengths of the primitives' results *)

(** Turns a list of known length into its elements. *)
Ltac explode l H :=
  simpl in H;
  repeat (destruct l as [| ? l]; [ discriminate H | simpl in H ]);
  destruct l; [ clear H | discriminate H ].

Lemma aes128_length (key plain : bytes) :
  length key = 16%nat -> length (AES.aes128 key plain) = 16%nat.
Proof.
  intros Hk. explode key Hk.
  (* the shape of the result does not depend on the bytes *)
  vm_compute. reflexivity.
Qed.

Lemma compress_length (h : list Z) (block : bytes) :
  length h = 8%nat -> length (SHA256.compress h block) = 8%nat.
Proof.
  intros Hh. unfold SHA256.compress.
  rewrite length_map, length_combine, Hh. reflexivity.
Qed.

Lemma sha256_length (msg : bytes) : length (SHA256.Sum256 msg) = 32%nat.
Proof.
  unfold SHA256.Sum256.
  assert (H : forall bl h, length h = 8%nat ->
                           length (fold_left SHA256.compress bl h) = 8%nat).
  { induction bl as [| b bl IH]; intros h Hh; simpl; [ exact Hh | ].
    apply IH, compress_length, Hh. }
  specialize (H (chunks 64 (SHA256.pad msg)) SHA256.H0 eq_refl).
  remember (fold_left SHA256.compress (chunks 64 (SHA256.pad msg)) SHA256.H0)
    as d eqn:Ed.
  clear Ed. explode d H. reflexivity.
Qed.

Lemma hmac_length (key msg : bytes) : length (HMAC.sha256 key msg) = 32%nat.
Proof. apply sha256_length. Qed.

(* ------------------------------------------------------------------ *)
(** ** Buffers, loops and exclusive or *)

Lemma set_at_length (b : bytes) (i : nat) (v : Z) :
  length (set_at b i v) = length b.
Proof.
  revert i; induction b as [| h t IH]; intros [| i]; simpl; auto.
Qed.

Lemma set_at_app (l1 l2 : bytes) (x v : Z) :
  set_at (l1 ++ x :: l2) (length l1) v = l1 ++ v :: l2.
Proof. induction l1 as [| h t IH]; simpl; [ | rewrite IH ]; reflexivity. Qed.

(** A loop that writes [f i] at every index [i < n] of a buffer. *)
Lemma for_fill (f : nat -> Z) (n : nat) (out : bytes) :
  (n <= length out)%nat ->
  for_ n (fun i o => set_at o i (f i)) out = map f (seq 0 n) ++ skipn n out.
Proof.
  unfold for_. induction n as [| n IH]; intros Hn; [ reflexivity | ].
  rewrite seq_S, fold_left_app, IH by lia.
  cbn [fold_left Nat.add]. rewrite map_app. cbn [map].
  pose proof (skipn_skipn 1 n out) as Hr.
  destruct (skipn n out) as [| x rest] eqn:E.
  - apply (f_equal (@length Z)) in E. rewrite length_skipn in E. simpl in E. lia.
  - change (skipn 1 (x :: rest)) with rest in Hr.
    change (1 + n)%nat with (S n) in Hr.
    rewrite <- Hr, <- app_assoc. cbn [app].
    replace n with (length (map f (seq 0 n))) at 2
      by (rewrite length_map, length_seq; reflexivity).
    apply set_at_app.
Qed.

Lemma for_fill_make (f : nat -> Z) (n : nat) :
  for_ n (fun i o => set_at o i (f i)) (make n) = map f (seq 0 n).
Proof.
  rewrite for_fill by (unfold make; rewrite repeat_length; lia).
  unfold make. rewrite skipn_all2 by (rewrite repeat_length; lia).
  apply app_nil_r.
Qed.

Lemma xor_bytes_length (a b : bytes) :
  length (xor_bytes a b) = Nat.min (length a) (length b).
Proof.
  revert b; induction a as [| x a IH]; intros [| y b]; simpl; auto.
Qed.

Lemma xor_bytes_nth (a b : bytes) :
  xor_bytes a b
  = map (fun i => Z.lxor (nth i a 0) (nth i b 0))
        (seq 0 (Nat.min (length a) (length b))).
Proof.
  revert b; induction a as [| x a IH]; intros [| y b]; simpl; auto.
  rewrite <- seq_shift, map_map. f_equal. apply IH.
Qed.

(** The helper [xor] of the package is the element-wise exclusive or over
    the shorter of its two arguments. *)
Lemma xor_spec (b1 b2 : bytes) : milenage.xor b1 b2 = xor_bytes b1 b2.
Proof.
  unfold milenage.xor. rewrite for_fill_make, xor_bytes_nth. unfold at_, len.
  destruct (Z.ltb_spec (Z.of_nat (length b1) - Z.of_nat (length b2)) 0).
  - rewrite Nat.min_l by lia. reflexivity.
  - rewrite Nat.min_r by lia. reflexivity.
Qed.

Lemma xor_bytes_cancel (a b : bytes) :
  length a = length b -> xor_bytes (xor_bytes a b) b = a.
Proof.
  revert b; induction a as [| x a IH]; intros [| y b] H; simpl in *;
    try discriminate; auto.
  rewrite IH by lia.
  rewrite Z.lxor_assoc, Z.lxor_nilpotent, Z.lxor_0_r. reflexivity.
Qed.

Lemma encrypt_ok (key plain : bytes) :
  length key = 16%nat -> length plain = 16%nat ->
  milenage.encrypt key plain = Ok (AES.aes128 key plain).
Proof.
  intros Hk Hp. unfold milenage.encrypt, AES.NewCipher, AES.Encrypt, len, make.
  rewrite repeat_length, Hk, Hp.
  replace (firstn 16 plain) with plain by (symmetry; apply firstn_all2; lia).
  change (skipn 16 (repeat 0 16)) with (@nil Z).
  change ((Z.of_nat 16 =? 16) || (Z.of_nat 16 =? 24) || (Z.of_nat 16 =? 32))
    with true.
  change ((Z.of_nat 16 <? 16) || (Z.of_nat 16 <? 16)) with false.
  cbv beta iota. rewrite app_nil_r. reflexivity.
Qed.

Lemma xor16_length (a b : bytes) :
  length a = 16%nat -> length b = 16%nat -> length (xor_bytes a b) = 16%nat.
Proof. intros Ha Hb. rewrite xor_bytes_length, Ha, Hb. reflexivity. Qed.

(** The first loop of every derivation: [rijndaelInput[i] = a[i] ^ b[i]]. *)
Lemma xor_loop16 (a b buf : bytes) :
  length a = 16%nat -> length b = 16%nat -> length buf = 16%nat ->
  for_ 16 (fun i r => set_at r i (Z.lxor (at_ a i) (at_ b i))) buf
  = xor_bytes a b.
Proof.
  intros Ha Hb Hbuf.
  rewrite (for_fill (fun i => Z.lxor (at_ a i) (at_ b i))) by lia.
  rewrite skipn_all2 by lia. rewrite app_nil_r, xor_bytes_nth, Ha, Hb.
  reflexivity.
Qed.

(** [rijndaelInput[i] ^= temp[i]] for every [i]. *)
Lemma xor_into16 (buf temp : bytes) :
  length buf = 16%nat -> length temp = 16%nat ->
  for_ 16 (fun i r => set_at r i (Z.lxor (at_ r i) (at_ temp i))) buf
  = xor_bytes buf temp.
Proof. intros Hb Ht. explode buf Hb. explode temp Ht. reflexivity. Qed.

(** The rotating loop overwrites the whole buffer with the rotation of
    [temp xor opc]. *)
Lemma rot_loop_spec (k : nat) (temp opc buf : bytes) :
  (k < 16)%nat ->
  length temp = 16%nat -> length opc = 16%nat -> length buf = 16%nat ->
  milenage.rot_loop k temp opc buf = spec.place k (xor_bytes temp opc).
Proof.
  intros Hk Ht Ho Hb. explode temp Ht. explode opc Ho. explode buf Hb.
  do 16 (destruct k as [| k]; [ reflexivity | ]). lia.
Qed.

Lemma flip15_spec (c : Z) (r : bytes) :
  length r = 16%nat -> milenage.flip15 c r = spec.flip c r.
Proof. intros Hr. explode r Hr. reflexivity. Qed.

Lemma place_length (k : nat) (x : bytes) : length (spec.place k x) = 16%nat.
Proof. unfold spec.place. rewrite length_map, length_seq. reflexivity. Qed.

Lemma flip_length (c : Z) (r : bytes) :
  length r = 16%nat -> length (spec.flip c r) = 16%nat.
Proof. intros Hr. explode r Hr. reflexivity. Qed.

(** [place k] puts input index [i] at output index [(i + k) mod 16]. *)
Lemma place_index (k i : nat) (x : bytes) :
  (k < 16)%nat -> (i < 16)%nat ->
  nth ((i + k) mod 16) (spec.place k x) 0 = nth i x 0.
Proof.
  intros Hk Hi. unfold spec.place.
  assert (Hj : ((i + k) mod 16 < 16)%nat) by (apply Nat.mod_upper_bound; lia).
  rewrite (nth_indep _ 0 ((fun j => nth ((j + 16 - k) mod 16) x 0) 0%nat))
    by (rewrite length_map, length_seq; exact Hj).
  rewrite (map_nth (fun j => nth ((j + 16 - k) mod 16) x 0)).
  rewrite seq_nth by exact Hj. f_equal.
  do 16 (destruct k as [| k]; [ do 16 (destruct i as [| i]; [ reflexivity | ]); lia | ]).
  lia.
Qed.

(* ------------------------------------------------------------------ *)
(** ** Length validation *)

Lemma check_pass (field : string) (want : Z) (b : bytes) (next : option error) :
  len b = want -> milenage.check field want b next = next.
Proof.
  intros H. unfold milenage.check. rewrite H, Z.eqb_refl. reflexivity.
Qed.

Lemma check_None (field : string) (want : Z) (b : bytes) (next : option error) :
  milenage.check field want b next = None -> len b = want /\ next = None.
Proof.
  unfold milenage.check. destruct (Z.eqb_spec (len b) want); simpl; intros H.
  - auto.
  - discriminate H.
Qed.

Lemma check_set_None (field : string) (want : Z) (o : option bytes)
  (next : option error) :
  milenage.check_set field want o next = None ->
  (forall b, o = Some b -> len b = want) /\ next = None.
Proof.
  destruct o as [b |]; simpl; intros H.
  - apply check_None in H. destruct H as [H1 H2]. split; [ | exact H2 ].
    intros b' E. injection E as <-. exact H1.
  - split; [ intros b E; discriminate E | exact H ].
Qed.

Lemma validateLength_None (m : milenage.Milenage) :
  milenage.validateLength m = None <-> lengths_ok m.
Proof.
  unfold milenage.validateLength. split.
  - intros H.
    repeat match type of H with
           | milenage.check _ _ _ _ = None =>
               apply check_None in H; let L := fresh "L" in destruct H as [L H]
           | milenage.check_set _ _ _ _ = None =>
               apply check_set_None in H;
               let L := fresh "L" in destruct H as [L H]
           end.
    unfold len in *.
    constructor; try lia; intros b E;
      match goal with
      | L : forall b, _ = Some b -> _ |- _ => specialize (L b E); lia
      end.
  - intros [HK HOP HOPc HRAND HSQN HAMF HMACA HMACS HRES HCK HIK HAK HAKS].
    rewrite !check_pass; try (unfold len; lia).
    + destruct (milenage.OPc m) as [c |]; simpl.
      * rewrite check_pass by (unfold len; rewrite (HOPc c eq_refl); reflexivity).
        destruct (milenage.OP m) as [o |]; simpl; [ | reflexivity ].
        rewrite check_pass by (unfold len; rewrite (HOP o eq_refl); reflexivity).
        reflexivity.
      * destruct (milenage.OP m) as [o |]; simpl; [ | reflexivity ].
        rewrite check_pass by (unfold len; rewrite (HOP o eq_refl); reflexivity).
        reflexivity.
Qed.

Lemma check_Some (field : string) (want : Z) (b : bytes) (next : option error)
  (e : error) :
  (next = Some e -> is_length_error e) ->
  milenage.check field want b next = Some e -> is_length_error e.
Proof.
  intros Hn. unfold milenage.check.
  destruct (Z.eqb_spec (len b) want); simpl; intros H; [ auto | ].
  injection H as <-. exists field, want, (len b). auto.
Qed.

Lemma validateLength_Some (m : milenage.Milenage) (e : error) :
  milenage.validateLength m = Some e -> is_length_error e.
Proof.
  unfold milenage.validateLength, milenage.check_set.
  repeat first
    [ apply check_Some
    | match goal with
      | |- match ?o with Some _ => _ | None => _ end = Some _ -> _ =>
          destruct o
      end ].
  all: intros H; discriminate H.
Qed.

(* ------------------------------------------------------------------ *)
(** ** Derivation of OPc *)

Lemma aes_block_ok (key src : bytes) :
  length key = 16%nat -> length src = 16%nat ->
  AES.NewCipher key = Some (AES.KeyExpansion key)
  /\ AES.Encrypt (AES.KeyExpansion key) (make (length src)) src
     = Some (AES.aes128 key src).
Proof.
  intros Hk Hs. unfold AES.NewCipher, AES.Encrypt, len, make.
  rewrite repeat_length, Hk, Hs.
  replace (firstn 16 src) with src by (symmetry; apply firstn_all2; lia).
  change (skipn 16 (repeat 0 16)) with (@nil Z).
  rewrite app_nil_r. split; reflexivity.
Qed.

Lemma opc_loop16 (bs : bytes) :
  length bs = 16%nat -> milenage.opc_loop 0 bs (make 16) = (true, bs).
Proof. intros H. explode bs H. reflexivity. Qed.

Lemma spec_OPc_length (k op : bytes) :
  length k = 16%nat -> length op = 16%nat -> length (spec.OPc k op) = 16%nat.
Proof.
  intros Hk Ho. unfold spec.OPc. apply xor16_length; [ | exact Ho ].
  apply aes128_length, Hk.
Qed.

Lemma computeOPc_ok (m : milenage.Milenage) (op : bytes) :
  length (milenage.K m) = 16%nat -> milenage.OP m = Some op ->
  length op = 16%nat ->
  milenage.computeOPc m
  = (Ok tt, milenage.set_OPc (Some (spec.OPc (milenage.K m) op)) m).
Proof.
  intros Hk Hop Ho. unfold milenage.computeOPc.
  cbn [milenage.K milenage.OP milenage.OPc milenage.set_OPc milenage.sl].
  rewrite Hop. cbn [milenage.sl].
  destruct (aes_block_ok (milenage.K m) op Hk Ho) as [-> ->].
  rewrite xor_spec. fold (spec.OPc (milenage.K m) op).
  rewrite opc_loop16 by (apply spec_OPc_length; assumption).
  reflexivity.
Qed.

Lemma set_OPc_same (m : milenage.Milenage) (c : bytes) :
  milenage.OPc m = Some c -> milenage.set_OPc (Some c) m = m.
Proof. destruct m; simpl; intros ->; reflexivity. Qed.

Lemma opc_of_length (m : milenage.Milenage) :
  lengths_ok m -> has_opc m -> length (opc_of m) = 16%nat.
Proof.
  intros L H. unfold opc_of.
  destruct (milenage.OPc m) as [c |] eqn:Ec.
  - apply (ok_OPc m L c Ec).
  - destruct (milenage.OP m) as [o |] eqn:Eo.
    + apply spec_OPc_length; [ apply (ok_K m L) | apply (ok_OP m L o Eo) ].
    + destruct H as [H | H]; congruence.
Qed.

Lemma ensureOPc_ok (m : milenage.Milenage) :
  lengths_ok m -> has_opc m ->
  milenage.ensureOPc m = (Ok tt, milenage.set_OPc (Some (opc_of m)) m).
Proof.
  intros L H. unfold milenage.ensureOPc, opc_of.
  destruct (milenage.OPc m) as [c |] eqn:Ec.
  - rewrite set_OPc_same by exact Ec. reflexivity.
  - destruct (milenage.OP m) as [o |] eqn:Eo.
    + apply computeOPc_ok; [ apply (ok_K m L) | exact Eo | apply (ok_OP m L o Eo) ].
    + destruct H as [H | H]; congruence.
Qed.

Lemma validate_ok (m : milenage.Milenage) :
  lengths_ok m -> milenage.validate m = (Ok tt, m).
Proof.
  intros L. unfold milenage.validate.
  apply validateLength_None in L. rewrite L. reflexivity.
Qed.

Lemma rand_xor_opc_spec (m : milenage.Milenage) (c : bytes) :
  length (milenage.RAND m) = 16%nat -> length c = 16%nat ->
  milenage.rand_xor_opc (milenage.set_OPc (Some c) m)
  = xor_bytes (milenage.RAND m) c.
Proof.
  intros Hr Hc. unfold milenage.rand_xor_opc.
  cbn [milenage.RAND milenage.OPc milenage.set_OPc milenage.sl].
  apply xor_loop16; auto.
Qed.

(* ------------------------------------------------------------------ *)
(** ** Closed forms of the MILENAGE derivations *)

Lemma for_opt_inv {A} (P : A -> Prop) (body : nat -> A -> option A) :
  (forall i a a', body i a = Some a' -> P a -> P a') ->
  forall idxs acc r, P acc -> for_opt idxs body acc = Some r -> P r.
Proof.
  intros Hb. induction idxs as [| i rest IH]; simpl; intros acc r Hp H.
  - injection H as <-. exact Hp.
  - destruct (body i acc) as [a' |] eqn:E; [ | discriminate H ].
    apply (IH a' r); [ apply (Hb i acc a' E Hp) | exact H ].
Qed.

Lemma build_in1_length (sqn amf in1 : bytes) :
  milenage.build_in1 sqn amf = Some in1 -> length in1 = 16%nat.
Proof.
  unfold milenage.build_in1.
  destruct (for_opt (seq 0 6) _ (make 16)) as [a |] eqn:E1; [ | discriminate ].
  intros E2.
  assert (Ha : length a = 16%nat).
  { apply (for_opt_inv (fun x : bytes => length x = 16%nat)) in E1;
      [ exact E1 | | reflexivity ].
    intros i x x'. destruct (nth_error sqn i); [ | discriminate ].
    intros H; injection H as <-. rewrite !set_at_length. auto. }
  apply (for_opt_inv (fun x : bytes => length x = 16%nat)) in E2;
    [ exact E2 | | exact Ha ].
  intros i x x'. destruct (nth_error amf i); [ | discriminate ].
  intros H; injection H as <-. rewrite !set_at_length. auto.
Qed.

Lemma build_in1_ok (sqn amf : bytes) :
  length sqn = 6%nat -> length amf = 2%nat ->
  milenage.build_in1 sqn amf = Some (spec.IN1 sqn amf).
Proof. intros Hs Ha. explode sqn Hs. explode amf Ha. reflexivity. Qed.

Lemma f1base_closed (m : milenage.Milenage) (sqn amf : bytes) :
  lengths_ok m -> has_opc m ->
  milenage.f1base sqn amf m
  = (f1_value (milenage.K m) (milenage.RAND m) (opc_of m) sqn amf,
     milenage.set_OPc (Some (opc_of m)) m).
Proof.
  intros L H.
  pose proof (opc_of_length m L H) as Hc.
  pose proof (ok_K m L) as Hk. pose proof (ok_RAND m L) as Hr.
  unfold milenage.f1base, bind.
  rewrite validate_ok by exact L. rewrite ensureOPc_ok by assumption.
  unfold get, lift, ret.
  rewrite rand_xor_opc_spec by assumption.
  cbn [milenage.K milenage.OPc milenage.set_OPc milenage.sl].
  rewrite encrypt_ok by (auto using xor16_length).
  unfold f1_value. fold (spec.TEMP (milenage.K m) (milenage.RAND m) (opc_of m)).
  destruct (milenage.build_in1 sqn amf) as [in1 |] eqn:E; [ | reflexivity ].
  pose proof (build_in1_length _ _ _ E) as Hi.
  assert (Ht : length (spec.TEMP (milenage.K m) (milenage.RAND m) (opc_of m))
               = 16%nat) by (apply aes128_length, Hk).
  rewrite rot_loop_spec by (auto using xor16_length; lia).
  rewrite xor_into16 by (auto using place_length).
  rewrite encrypt_ok
    by (auto; apply xor16_length; auto using place_length).
  rewrite xor_spec. reflexivity.
Qed.

Lemma slice_to_end (b : bytes) (lo : nat) :
  slice b lo (length b) = skipn lo b.
Proof.
  unfold slice. apply firstn_all2. rewrite length_skipn. lia.
Qed.

Lemma f1_value_ok (K RAND opc sqn amf : bytes) :
  length sqn = 6%nat -> length amf = 2%nat ->
  f1_value K RAND opc sqn amf = Ok (spec.OUT1 K RAND opc sqn amf).
Proof.
  intros Hs Ha. unfold f1_value. rewrite build_in1_ok by assumption.
  reflexivity.
Qed.

Lemma OUT1_length (K RAND opc sqn amf : bytes) :
  length K = 16%nat -> length opc = 16%nat ->
  length (spec.OUT1 K RAND opc sqn amf) = 16%nat.
Proof.
  intros Hk Hc. unfold spec.OUT1. apply xor16_length; [ | exact Hc ].
  apply aes128_length, Hk.
Qed.

Lemma OUT_length (k : nat) (c : Z) (K RAND opc : bytes) :
  length K = 16%nat -> length opc = 16%nat ->
  length (spec.OUT k c K RAND opc) = 16%nat.
Proof.
  intros Hk Hc. unfold spec.OUT. apply xor16_length; [ | exact Hc ].
  apply aes128_length, Hk.
Qed.

Lemma place_0 (x : bytes) : length x = 16%nat -> spec.place 0 x = x.
Proof. intros Hx. explode x Hx. reflexivity. Qed.

Lemma F1_closed (m : milenage.Milenage) :
  lengths_ok m -> has_opc m ->
  let mac := spec.OUT1 (milenage.K m) (milenage.RAND m) (opc_of m)
                       (milenage.SQN m) (milenage.AMF m) in
  milenage.F1 m
  = (Ok (firstn 8 mac),
     milenage.set_MACA (firstn 8 mac) (milenage.set_OPc (Some (opc_of m)) m)).
Proof.
  intros L H mac. unfold milenage.F1, bind at 1, get at 1.
  unfold bind at 1. rewrite f1base_closed by assumption.
  rewrite f1_value_ok by (apply L). reflexivity.
Qed.

Lemma F1Star_closed (m : milenage.Milenage) (sqn amf : bytes) :
  lengths_ok m -> has_opc m ->
  let m' := milenage.set_OPc (Some (opc_of m)) m in
  milenage.F1Star sqn amf m
  = match f1_value (milenage.K m) (milenage.RAND m) (opc_of m) sqn amf with
    | Ok mac => (Ok (skipn 8 mac), milenage.set_MACS (skipn 8 mac) m')
    | Err e => (Err e, m')
    | Panic => (Panic, m')
    end.
Proof.
  intros L H m'. unfold milenage.F1Star, bind at 1.
  rewrite f1base_closed by assumption.
  destruct (f1_value _ _ _ sqn amf) as [mac | e |]; try reflexivity.
  unfold bind, get, put, ret. rewrite slice_to_end. reflexivity.
Qed.

Lemma F2345_closed (m : milenage.Milenage) :
  lengths_ok m -> has_opc m ->
  let K := milenage.K m in
  let RAND := milenage.RAND m in
  let opc := opc_of m in
  let res := skipn 8 (spec.OUT2 K RAND opc) in
  let ak := firstn 6 (spec.OUT2 K RAND opc) in
  let ck := spec.OUT3 K RAND opc in
  let ik := spec.OUT4 K RAND opc in
  milenage.F2345 m
  = (Ok (res, ck, ik, ak),
     milenage.set_f2345 res ck ik ak (milenage.set_OPc (Some opc) m)).
Proof.
  intros L H K RAND opc res ak ck ik.
  pose proof (opc_of_length m L H) as Hc.
  pose proof (ok_K m L) as Hk. pose proof (ok_RAND m L) as Hr.
  assert (Ht : length (spec.TEMP K RAND opc) = 16%nat)
    by (apply aes128_length, Hk).
  unfold milenage.F2345, bind.
  rewrite validate_ok by exact L. rewrite ensureOPc_ok by assumption.
  unfold get, lift, ret, put.
  rewrite rand_xor_opc_spec by assumption.
  cbn [milenage.K milenage.OPc milenage.set_OPc milenage.sl].
  rewrite encrypt_ok by (auto using xor16_length).
  fold K RAND opc. fold (spec.TEMP K RAND opc).
  rewrite xor_loop16 by (auto using xor16_length).
  rewrite flip15_spec by (auto using xor16_length).
  rewrite encrypt_ok by (auto using flip_length, xor16_length).
  rewrite !xor_spec, slice_to_end.
  rewrite (rot_loop_spec 12)
    by (auto using flip_length, xor16_length; lia).
  rewrite flip15_spec by (apply place_length).
  rewrite encrypt_ok by (auto using flip_length, place_length).
  rewrite (rot_loop_spec 8)
    by (auto using flip_length, place_length; lia).
  rewrite flip15_spec by (apply place_length).
  rewrite encrypt_ok by (auto using flip_length, place_length).
  unfold res, ak, ck, ik, spec.OUT2, spec.OUT3, spec.OUT4, spec.OUT.
  rewrite place_0 by (auto using xor16_length). rewrite !xor_spec. reflexivity.
Qed.

Lemma F5Star_closed (m : milenage.Milenage) :
  lengths_ok m -> has_opc m ->
  let aks := firstn 6 (spec.OUT5 (milenage.K m) (milenage.RAND m) (opc_of m)) in
  milenage.F5Star m
  = (Ok aks, milenage.set_AKS aks (milenage.set_OPc (Some (opc_of m)) m)).
Proof.
  intros L H aks.
  pose proof (opc_of_length m L H) as Hc.
  pose proof (ok_K m L) as Hk. pose proof (ok_RAND m L) as Hr.
  assert (Ht : length (spec.TEMP (milenage.K m) (milenage.RAND m) (opc_of m))
               = 16%nat) by (apply aes128_length, Hk).
  unfold milenage.F5Star, bind.
  rewrite validate_ok by exact L. rewrite ensureOPc_ok by assumption.
  unfold get, lift, ret, put.
  rewrite rand_xor_opc_spec by assumption.
  cbn [milenage.K milenage.OPc milenage.set_OPc milenage.sl].
  rewrite encrypt_ok by (auto using xor16_length).
  fold (spec.TEMP (milenage.K m) (milenage.RAND m) (opc_of m)).
  rewrite (rot_loop_spec 4) by (auto using xor16_length; lia).
  rewrite flip15_spec by (apply place_length).
  rewrite encrypt_ok by (auto using flip_length, place_length).
  rewrite xor_spec. reflexivity.
Qed.

(* ------------------------------------------------------------------ *)
(** ** Validity of the states the derivations leave behind *)

Lemma lengths_ok_set_OPc (m : milenage.Milenage) (c : bytes) :
  lengths_ok m -> length c = 16%nat ->
  lengths_ok (milenage.set_OPc (Some c) m).
Proof.
  intros [] Hc. constructor; simpl; auto.
  intros c' E. injection E as <-. exact Hc.
Qed.

Lemma lengths_ok_set_MACA (m : milenage.Milenage) (v : bytes) :
  lengths_ok m -> length v = 8%nat -> lengths_ok (milenage.set_MACA v m).
Proof. intros [] Hv. constructor; simpl; auto. Qed.

Lemma lengths_ok_set_MACS (m : milenage.Milenage) (v : bytes) :
  lengths_ok m -> length v = 8%nat -> lengths_ok (milenage.set_MACS v m).
Proof. intros [] Hv. constructor; simpl; auto. Qed.

Lemma lengths_ok_set_AKS (m : milenage.Milenage) (v : bytes) :
  lengths_ok m -> length v = 6%nat -> lengths_ok (milenage.set_AKS v m).
Proof. intros [] Hv. constructor; simpl; auto. Qed.

Lemma lengths_ok_set_f2345 (m : milenage.Milenage) (res ck ik ak : bytes) :
  lengths_ok m -> length res = 8%nat -> length ck = 16%nat ->
  length ik = 16%nat -> length ak = 6%nat ->
  lengths_ok (milenage.set_f2345 res ck ik ak m).
Proof. intros [] H1 H2 H3 H4. constructor; simpl; auto. Qed.

Lemma firstn_length_16 (n : nat) (b : bytes) :
  length b = 16%nat -> (n <= 16)%nat -> length (firstn n b) = n.
Proof. intros Hb Hn. rewrite length_firstn. lia. Qed.

Lemma skipn8_length_16 (b : bytes) :
  length b = 16%nat -> length (skipn 8 b) = 8%nat.
Proof. intros Hb. rewrite length_skipn. lia. Qed.

(* ------------------------------------------------------------------ *)
(** ** AUTN, AUTS and RES* *)

Lemma autn_layout (sqn ak amf maca : bytes) :
  length sqn = 6%nat -> length ak = 6%nat -> length amf = 2%nat ->
  length maca = 8%nat ->
  copy_to (copy_to (copy_to (make 16) 0 6 (xor_bytes sqn ak)) 6 8 amf) 8 16 maca
  = xor_bytes sqn ak ++ amf ++ maca.
Proof.
  intros H1 H2 H3 H4.
  explode sqn H1. explode ak H2. explode amf H3. explode maca H4. reflexivity.
Qed.

Lemma GenerateAUTN_closed (m : milenage.Milenage) :
  lengths_ok m ->
  milenage.GenerateAUTN m
  = (Ok (xor_bytes (milenage.SQN m) (milenage.AK m)
         ++ milenage.AMF m ++ milenage.MACA m), m).
Proof.
  intros L. unfold milenage.GenerateAUTN, bind.
  rewrite validate_ok by exact L. unfold get, ret.
  rewrite xor_spec, autn_layout by (apply L). reflexivity.
Qed.

Lemma auts_layout (sqn aks macS : bytes) :
  length sqn = 6%nat -> length aks = 6%nat -> length macS = 8%nat ->
  copy_to (copy_to (make 14) 0 6 (xor_bytes sqn aks)) 6 14 macS
  = xor_bytes sqn aks ++ macS.
Proof.
  intros H1 H2 H3. explode sqn H1. explode aks H2. explode macS H3.
  reflexivity.
Qed.

Lemma GenerateAUTS_closed (m : milenage.Milenage) :
  lengths_ok m -> has_opc m ->
  let K := milenage.K m in
  let RAND := milenage.RAND m in
  let opc := opc_of m in
  let macS := skipn 8 (spec.OUT1 K RAND opc (milenage.SQN m) [0; 0]) in
  let aks := firstn 6 (spec.OUT5 K RAND opc) in
  milenage.GenerateAUTS m
  = (Ok (xor_bytes (milenage.SQN m) aks ++ macS),
     milenage.set_AKS aks
       (milenage.set_MACS macS (milenage.set_OPc (Some opc) m))).
Proof.
  intros L H K RAND opc macS aks.
  pose proof (opc_of_length m L H) as Hc.
  assert (HmacS : length macS = 8%nat)
    by (apply skipn8_length_16, OUT1_length; [ apply L | exact Hc ]).
  assert (Haks : length aks = 6%nat)
    by (apply firstn_length_16; [ apply OUT_length; [ apply L | exact Hc ] | lia ]).
  unfold milenage.GenerateAUTS, bind at 1.
  rewrite validate_ok by exact L.
  unfold bind at 1, get at 1. unfold bind at 1.
  rewrite F1Star_closed by assumption.
  rewrite f1_value_ok by (solve [ apply L | reflexivity ]).
  fold K RAND opc. fold macS.
  set (m1 := milenage.set_MACS macS (milenage.set_OPc (Some opc) m)).
  assert (L1 : lengths_ok m1)
    by (apply lengths_ok_set_MACS; [ apply lengths_ok_set_OPc | ]; assumption).
  assert (H1 : has_opc m1) by (left; discriminate).
  unfold bind at 1. rewrite F5Star_closed by assumption.
  change (opc_of m1) with opc.
  change (milenage.K m1) with K. change (milenage.RAND m1) with RAND.
  fold aks. unfold bind, get, ret.
  change (milenage.SQN (milenage.set_AKS aks (milenage.set_OPc (Some opc) m1)))
    with (milenage.SQN m).
  rewrite xor_spec, auts_layout by (solve [ apply L | assumption ]).
  reflexivity.
Qed.

Lemma string_length_append (s1 s2 : string) :
  String.length (s1 ++ s2)%string = (String.length s1 + String.length s2)%nat.
Proof. induction s1 as [| c s1 IH]; simpl; [ | rewrite IH ]; reflexivity. Qed.

Lemma bytes_of_string_length (s : string) :
  length (bytes_of_string s) = String.length s.
Proof.
  unfold bytes_of_string. rewrite length_map.
  induction s as [| c s IH]; simpl; [ | rewrite IH ]; reflexivity.
Qed.

(** The assembled SNN is 26 bytes of fixed text around the two codes. *)
Lemma snn_string_length (mnc mcc : string) :
  length (bytes_of_string (milenage.snn_string mnc mcc))
  = (26 + String.length mnc + String.length mcc)%nat.
Proof.
  rewrite bytes_of_string_length. unfold milenage.snn_string.
  rewrite !string_length_append. simpl. lia.
Qed.

Lemma resstar_input_layout (snn rand res : bytes) :
  length snn = 32%nat -> length rand = 16%nat -> length res = 8%nat ->
  PutUint16
    (copy_to
       (PutUint16
          (copy_to
             (PutUint16 (copy_to (set_at (make 63) 0 0x6b) 1 33 snn) 33 (len snn))
             35 51 rand)
          51 (len rand))
       53 61 res)
    61 (len res)
  = spec.S_RESStar snn rand res.
Proof.
  intros H1 H2 H3. explode snn H1. explode rand H2. explode res H3.
  reflexivity.
Qed.

Lemma resstar_key_layout (ck ik : bytes) :
  length ck = 16%nat -> length ik = 16%nat ->
  copy_to (copy_to (make 32) 0 16 ck) 16 32 ik = ck ++ ik.
Proof. intros H1 H2. explode ck H1. explode ik H2. reflexivity. Qed.

Lemma hmac_tail (key msg : bytes) :
  let out := HMAC.sha256 key msg in
  slice out (length out - 16) (length out) = skipn 16 out.
Proof.
  intros out. rewrite slice_to_end. unfold out. rewrite hmac_length.
  reflexivity.
Qed.

(** The RES* derivation once the two codes have the accepted lengths. *)
Lemma resstar_step (m : milenage.Milenage) (mnc3 mcc : string) :
  lengths_ok m -> String.length mcc = 3%nat -> String.length mnc3 = 3%nat ->
  let snn := bytes_of_string (milenage.snn_string mnc3 mcc) in
  length snn = 32%nat
  /\ HMAC.sha256 (milenage.resstar_key m) (milenage.resstar_input snn m)
     = HMAC.sha256 (milenage.CK m ++ milenage.IK m)
                   (spec.S_RESStar snn (milenage.RAND m) (milenage.RES m)).
Proof.
  intros L Hc Hn snn.
  assert (Hs : length snn = 32%nat)
    by (unfold snn; rewrite snn_string_length, Hc, Hn; reflexivity).
  split; [ exact Hs | ].
  unfold milenage.resstar_key, milenage.resstar_input.
  rewrite resstar_key_layout by (solve [ apply (ok_CK m L) | apply (ok_IK m L) ]).
  rewrite resstar_input_layout
    by (solve [ exact Hs | apply (ok_RAND m L) | apply (ok_RES m L) ]).
  reflexivity.
Qed.

Lemma ComputeRESStar_closed (m : milenage.Milenage) (mcc mnc : string) :
  lengths_ok m ->
  milenage.ComputeRESStar mcc mnc m
  = (if negb (String.length mcc =? 3)%nat then Err (InvalidMCC mcc)
     else if ((String.length mnc =? 2) || (String.length mnc =? 3))%nat
          then Ok (spec.RESStar (milenage.CK m) (milenage.IK m)
                                (spec.SNN (spec.MNC3 mnc) mcc)
                                (milenage.RAND m) (milenage.RES m))
          else Err (InvalidMNC mnc),
     m).
Proof.
  intros L. unfold milenage.ComputeRESStar, bind at 1.
  rewrite validate_ok by exact L.
  destruct (Nat.eqb_spec (String.length mcc) 3) as [Hc | Hc].
  2: { destruct (Z.eqb_spec (Z.of_nat (String.length mcc)) 3); [ lia | ].
       reflexivity. }
  rewrite Hc. cbn [Z.of_nat Pos.of_succ_nat Pos.succ Z.eqb Pos.eqb negb].
  unfold spec.RESStar, spec.SNN, spec.MNC3.
  destruct (Nat.eqb_spec (String.length mnc) 2) as [H2 | H2].
  - rewrite H2. cbn [Z.of_nat Pos.of_succ_nat Pos.succ Z.eqb Pos.eqb orb].
    destruct (resstar_step m (String "0" mnc) mcc L Hc) as [Hs Hh];
      [ simpl; rewrite H2; reflexivity | ].
    change ("0" ++ mnc)%string with (String "0" mnc).
    unfold len. rewrite Hs. cbn [Z.of_nat Pos.of_succ_nat Pos.succ Z.eqb Pos.eqb negb].
    unfold bind, get, ret. rewrite hmac_tail, Hh. reflexivity.
  - destruct (Z.eqb_spec (Z.of_nat (String.length mnc)) 2) as [E | _]; [ lia | ].
    destruct (Nat.eqb_spec (String.length mnc) 3) as [H3 | H3].
    + rewrite H3. cbn [Z.of_nat Pos.of_succ_nat Pos.succ Z.eqb Pos.eqb negb orb].
      destruct (resstar_step m mnc mcc L Hc H3) as [Hs Hh].
      unfold len. rewrite Hs.
      cbn [Z.of_nat Pos.of_succ_nat Pos.succ Z.eqb Pos.eqb negb].
      unfold bind, get, ret. rewrite hmac_tail, Hh. reflexivity.
    + destruct (Z.eqb_spec (Z.of_nat (String.length mnc)) 3) as [E | _]; [ lia | ].
      reflexivity.
Qed.

(* ================================================================== *)
(** * The documented properties *)

(** C1.  With the canonical inputs (IMSI 001010123456789, hence MCC "001",
    MNC "01" and SUPI the whole IMSI; K, OP and RAND all
    00112233445566778899aabbccddeeff; SQN 1; AMF 0x8000) the driver's chain
    [ComputeOPc], [NewWithOPc], [F1], [F2345], [ComputeRESStar], [GenerateAUTN]
    and the four AKA derivations on the driver-built SNN and SUPI runs to the
    end and yields exactly the documented OPc, MAC-A, CK, IK, AK, xRES, xRES*,
    AUTN, KAUSF, HXRES*, KSEAF and KAMF. *)
Theorem C1_golden_vector :
  ParseUintHex "000000000001" 64 = Some 1
  /\ ParseUintHex "8000" 16 = Some 0x8000
  /\ driver.main "001010123456789" "00112233445566778899aabbccddeeff"
                 "00112233445566778899aabbccddeeff" "000000000001" "8000"
                 "00112233445566778899aabbccddeeff"
     = Ok golden.
Proof. split; [ | split ]; vm_compute; reflexivity. Qed.

(** C2.  On an instance that passes the length validation and whose OPc is
    present or derivable from its OP, [F2345] returns [(res, ck, ik, ak)]
    where, with [TEMP = AES-128(K, RAND xor OPc)] and [X = TEMP xor OPc]:
    [ak] is bytes 0..5 and [res] bytes 8..15 of
    [OUT2 = AES(K, X with byte 15 xor 0x01) xor OPc];
    [ck = AES(K, R3 with byte 15 xor 0x02) xor OPc], [R3] holding [X[i]] at
    index [(i+12) mod 16]; [ik = AES(K, R4 with byte 15 xor 0x04) xor OPc],
    [R4] holding [X[i]] at index [(i+8) mod 16]; and the fields RES, CK, IK
    and AK of the instance hold these values afterwards. *)
Theorem C2_F2345_outputs (m : milenage.Milenage) :
  milenage.validateLength m = None -> has_opc m ->
  let K := milenage.K m in
  let OPc := opc_of m in
  let TEMP := AES.aes128 K (xor_bytes (milenage.RAND m) OPc) in
  let X := xor_bytes TEMP OPc in
  let OUT2 := xor_bytes (AES.aes128 K (spec.flip 0x01 X)) OPc in
  let R3 := spec.place 12 X in
  let R4 := spec.place 8 X in
  let ak := firstn 6 OUT2 in
  let res := skipn 8 OUT2 in
  let ck := xor_bytes (AES.aes128 K (spec.flip 0x02 R3)) OPc in
  let ik := xor_bytes (AES.aes128 K (spec.flip 0x04 R4)) OPc in
  (forall i, (i < 16)%nat -> nth ((i + 12) mod 16) R3 0 = nth i X 0)
  /\ (forall i, (i < 16)%nat -> nth ((i + 8) mod 16) R4 0 = nth i X 0)
  /\ length OUT2 = 16%nat /\ length ck = 16%nat /\ length ik = 16%nat
  /\ exists m',
       milenage.F2345 m = (Ok (res, ck, ik, ak), m')
       /\ milenage.RES m' = res /\ milenage.CK m' = ck
       /\ milenage.IK m' = ik /\ milenage.AK m' = ak.
Proof.
  intros Hv H K OPc TEMP X OUT2 R3 R4 ak res ck ik.
  apply validateLength_None in Hv.
  pose proof (opc_of_length m Hv H) as Hc.
  pose proof (ok_K m Hv) as Hk.
  split; [ intros i Hi; apply place_index; [ lia | exact Hi ] | ].
  split; [ intros i Hi; apply place_index; [ lia | exact Hi ] | ].
  split; [ apply xor16_length; [ apply aes128_length, Hk | exact Hc ] | ].
  split; [ apply xor16_length; [ apply aes128_length, Hk | exact Hc ] | ].
  split; [ apply xor16_length; [ apply aes128_length, Hk | exact Hc ] | ].
  pose proof (F2345_closed m Hv H) as E. cbv zeta in E.
  unfold spec.OUT2, spec.OUT3, spec.OUT4, spec.OUT, spec.TEMP in E.
  rewrite place_0 in E
    by (apply xor16_length; [ apply aes128_length, Hk | exact Hc ]).
  eexists. split; [ exact E | ].
  repeat split; reflexivity.
Qed.

Lemma C2_F2345_outputs_witness :
  milenage.validateLength m_op = None /\ has_opc m_op
  /\ exists m',
       milenage.F2345 m_op
       = (Ok (unhex "700eb2300b2c4799", unhex "b379874b3d183d2a21291d439e7761e1",
              unhex "f4706f66629cf7ddf881d80025bf1255", unhex "de656c8b0bce"),
          m')
       /\ milenage.CK m' = unhex "b379874b3d183d2a21291d439e7761e1".
Proof.
  assert (Hv : milenage.validateLength m_op = None) by (vm_compute; reflexivity).
  assert (H : has_opc m_op) by (right; discriminate).
  split; [ exact Hv | ]. split; [ exact H | ].
  destruct (C2_F2345_outputs m_op Hv H) as (_ & _ & _ & _ & _ & m' & E & _ & Eck & _).
  exists m'. split.
  - rewrite E. vm_compute. reflexivity.
  - rewrite Eck. vm_compute. reflexivity.
Defined.

(** C3 as stated fails on an instance that passes the length validation but
    has neither OP nor OPc: the validation lets both be nil, the lazy OPc
    derivation then hands an empty OP to the block cipher, and [F1] and
    [F1Star] panic instead of returning. *)
Lemma C3_counterexample :
  milenage.validateLength m_bare = None
  /\ fst (milenage.F1 m_bare) = Panic
  /\ fst (milenage.F1Star [0; 0; 0; 0; 0; 1] [0x80; 0] m_bare) = Panic.
Proof. split; [ | split ]; vm_compute; reflexivity. Qed.

(** C3 (amended).  On an instance that passes the length validation and whose
    OPc is present or derivable from its OP, for every 6-byte [sqn] and
    2-byte [amf]: with [TEMP = AES(K, RAND xor OPc)], [IN1] the block with
    bytes 0..5 = sqn, 6..7 = amf, 8..13 = sqn, 14..15 = amf, [rot64] placing
    input index [i] at output index [(i+8) mod 16] and
    [OUT1 = AES(K, rot64(IN1 xor OPc) xor TEMP) xor OPc],
    [F1Star(sqn, amf)] returns and stores in MACS the last 8 bytes of [OUT1],
    and [F1()] returns and stores in MACA the first 8 bytes of the [OUT1]
    built from the instance's own SQN and AMF. *)
Theorem C3_F1_F1Star_outputs (m : milenage.Milenage) (sqn amf : bytes) :
  milenage.validateLength m = None -> has_opc m ->
  length sqn = 6%nat -> length amf = 2%nat ->
  let K := milenage.K m in
  let OPc := opc_of m in
  let TEMP := AES.aes128 K (xor_bytes (milenage.RAND m) OPc) in
  let IN1 (sqn amf : bytes) := sqn ++ amf ++ sqn ++ amf in
  let rot64 := spec.place 8 in
  let OUT1 (sqn amf : bytes) :=
    xor_bytes (AES.aes128 K (xor_bytes (rot64 (xor_bytes (IN1 sqn amf) OPc)) TEMP))
              OPc in
  (forall x i, (i < 16)%nat -> nth ((i + 8) mod 16) (rot64 x) 0 = nth i x 0)
  /\ length (OUT1 sqn amf) = 16%nat
  /\ (exists m',
        milenage.F1Star sqn amf m = (Ok (skipn 8 (OUT1 sqn amf)), m')
        /\ milenage.MACS m' = skipn 8 (OUT1 sqn amf))
  /\ (exists m',
        milenage.F1 m
        = (Ok (firstn 8 (OUT1 (milenage.SQN m) (milenage.AMF m))), m')
        /\ milenage.MACA m'
           = firstn 8 (OUT1 (milenage.SQN m) (milenage.AMF m))).
Proof.
  intros Hv H Hs Ha K OPc TEMP IN1 rot64 OUT1.
  apply validateLength_None in Hv.
  pose proof (opc_of_length m Hv H) as Hc.
  pose proof (ok_K m Hv) as Hk.
  split; [ intros x i Hi; apply place_index; [ lia | exact Hi ] | ].
  split; [ apply xor16_length; [ apply aes128_length, Hk | exact Hc ] | ].
  split.
  - eexists. rewrite F1Star_closed by assumption.
    rewrite f1_value_ok by assumption. split; reflexivity.
  - eexists. rewrite F1_closed by assumption. split; reflexivity.
Qed.

Lemma C3_F1_F1Star_outputs_witness :
  milenage.validateLength m_op = None /\ has_opc m_op
  /\ length [0; 0; 0; 0; 0; 1] = 6%nat /\ length [0x80; 0] = 2%nat
  /\ fst (milenage.F1 m_op) = Ok (unhex "4af30b82a8531115")
  /\ fst (milenage.F1Star [0; 0; 0; 0; 0; 1] [0x80; 0] m_op)
     = Ok (unhex "23fc01ba24031362").
Proof.
  assert (Hv : milenage.validateLength m_op = None) by (vm_compute; reflexivity).
  assert (H : has_opc m_op) by (right; discriminate).
  split; [ exact Hv | ]. split; [ exact H | ].
  split; [ reflexivity | ]. split; [ reflexivity | ].
  destruct (C3_F1_F1Star_outputs m_op [0; 0; 0; 0; 0; 1] [0x80; 0] Hv H
              eq_refl eq_refl) as (_ & _ & (m1 & E1 & _) & (m2 & E2 & _)).
  split.
  - rewrite E2. vm_compute. reflexivity.
  - rewrite E1. vm_compute. reflexivity.
Defined.

(** C4.  On an instance that passes the length validation,
    [ComputeRESStar(mcc, mnc)] returns an error exactly when [len(mcc) != 3]
    or [len(mnc)] is neither 2 nor 3.  Otherwise, with a 2-character [mnc]
    zero-padded to three, [SNN = "5G:mnc<mnc3>.mcc<mcc>.3gppnetwork.org"] has
    exactly 32 bytes and the call returns the last 16 bytes of HMAC-SHA-256
    keyed with [CK || IK] over the 63-byte string
    [0x6B || SNN || 0x0020 || RAND || 0x0010 || RES || 0x0008]; the error
    of the SNN-length check is never returned. *)
Theorem C4_ComputeRESStar_result (m : milenage.Milenage) (mcc mnc : string) :
  milenage.validateLength m = None ->
  let bad :=
    String.length mcc <> 3%nat
    \/ (String.length mnc <> 2%nat /\ String.length mnc <> 3%nat) in
  let mnc3 := if (String.length mnc =? 2)%nat then ("0" ++ mnc)%string else mnc in
  let SNN :=
    bytes_of_string ("5G:mnc" ++ mnc3 ++ ".mcc" ++ mcc ++ ".3gppnetwork.org")%string in
  let S :=
    [0x6B] ++ SNN ++ [0x00; 0x20] ++ milenage.RAND m ++ [0x00; 0x10]
           ++ milenage.RES m ++ [0x00; 0x08] in
  let mac := HMAC.sha256 (milenage.CK m ++ milenage.IK m) S in
  ((exists e, fst (milenage.ComputeRESStar mcc mnc m) = Err e) <-> bad)
  /\ (~ bad ->
      length SNN = 32%nat /\ length S = 63%nat /\ length mac = 32%nat
      /\ fst (milenage.ComputeRESStar mcc mnc m) = Ok (skipn 16 mac)
      /\ length (skipn 16 mac) = 16%nat)
  /\ (forall snn, fst (milenage.ComputeRESStar mcc mnc m) <> Err (BadSNN snn)).
Proof.
  intros Hv bad mnc3 SNN S mac.
  apply validateLength_None in Hv.
  rewrite (ComputeRESStar_closed m mcc mnc Hv). cbn [fst].
  unfold bad.
  destruct (Nat.eqb_spec (String.length mcc) 3) as [Hc | Hc]; cbn [negb].
  2: { split; [ | split ].
       - split; [ intros _; left; exact Hc | intros _; eexists; reflexivity ].
       - intros Hb. exfalso. apply Hb. left. exact Hc.
       - intros snn E. discriminate E. }
  destruct (Nat.eqb_spec (String.length mnc) 2) as [H2 | H2]; cbn [orb].
  - split; [ | split ].
    + split; [ intros [e E]; discriminate E | intros [Hb | [Hb _]]; contradiction ].
    + intros _.
      assert (Hs : length SNN = 32%nat).
      { pose proof (snn_string_length ("0" ++ mnc) mcc) as P.
        unfold milenage.snn_string in P. unfold SNN, mnc3. cbv iota.
        rewrite P. simpl. lia. }
      split; [ exact Hs | ].
      split; [ unfold S; rewrite !length_app, Hs, (ok_RAND m Hv), (ok_RES m Hv);
               reflexivity | ].
      split; [ apply hmac_length | ].
      split; [ | unfold mac; rewrite length_skipn, hmac_length; reflexivity ].
      unfold spec.RESStar, spec.S_RESStar, spec.SNN, spec.MNC3, mac, S, SNN, mnc3.
      rewrite H2. reflexivity.
    + intros snn E. discriminate E.
  - destruct (Nat.eqb_spec (String.length mnc) 3) as [H3 | H3].
    + split; [ | split ].
      * split; [ intros [e E]; discriminate E
               | intros [Hb | [_ Hb]]; contradiction ].
      * intros _.
        assert (Hs : length SNN = 32%nat).
        { pose proof (snn_string_length mnc mcc) as P.
          unfold milenage.snn_string in P. unfold SNN, mnc3. cbv iota.
          rewrite P. lia. }
        split; [ exact Hs | ].
        split; [ unfold S; rewrite !length_app, Hs, (ok_RAND m Hv), (ok_RES m Hv);
                 reflexivity | ].
        split; [ apply hmac_length | ].
        split; [ | unfold mac; rewrite length_skipn, hmac_length; reflexivity ].
        unfold spec.RESStar, spec.S_RESStar, spec.SNN, spec.MNC3, mac, S, SNN, mnc3.
        rewrite H3. reflexivity.
      * intros snn E. discriminate E.
    + split; [ | split ].
      * split; [ intros _; right; split; assumption
               | intros _; eexists; reflexivity ].
      * intros Hb. exfalso. apply Hb. right. split; assumption.
      * intros snn E. discriminate E.
Qed.

Lemma C4_ComputeRESStar_result_witness :
  milenage.validateLength m_derived = None
  /\ fst (milenage.ComputeRESStar "001" "01" m_derived)
     = Ok (unhex "31b6d938a5290ccc65bc829f9820a8d9")
  /\ (exists e, fst (milenage.ComputeRESStar "001" "1" m_derived) = Err e)
  /\ (exists e, fst (milenage.ComputeRESStar "001" "0001" m_derived) = Err e).
Proof.
  assert (Hv : milenage.validateLength m_derived = None)
    by (vm_compute; reflexivity).
  split; [ exact Hv | ].
  split; [ | split ].
  - pose proof (C4_ComputeRESStar_result m_derived "001" "01" Hv) as P.
    cbv zeta in P. destruct P as (_ & P & _).
    destruct P as (_ & _ & _ & E & _).
    + intros [Hb | [Hb _]]; apply Hb; reflexivity.
    + rewrite E. vm_compute. reflexivity.
  - pose proof (C4_ComputeRESStar_result m_derived "001" "1" Hv) as P.
    cbv zeta in P. destruct P as (P & _).
    apply P. right. split; discriminate.
  - pose proof (C4_ComputeRESStar_result m_derived "001" "0001" Hv) as P.
    cbv zeta in P. destruct P as (P & _).
    apply P. right. split; discriminate.
Defined.

(** C5 as stated fails at the AKA layer, which validates nothing.  A
    snapshot whose CK has 3 bytes instead of 16 does not pass the length
    validation, yet [ComputeKAUSF], [ComputeKSEAF], [ComputeKAMF] and
    [ComputeHXRESStar] return a key and no error; so does
    [ComputeHXRESStar] on the snapshot of an instance that the constructor
    built from a 15-byte RAND. *)
Lemma C5_counterexample :
  milenage.validateLength (aka.mil a_short_ck) = Some (LengthError "CK" 16 3)
  /\ ~ fails_with_length_error aka.ComputeKAUSF a_short_ck
  /\ ~ fails_with_length_error aka.ComputeKSEAF a_short_ck
  /\ ~ fails_with_length_error aka.ComputeKAMF a_short_ck
  /\ ~ fails_with_length_error aka.ComputeHXRESStar a_short_ck
  /\ (exists kausf, fst (aka.ComputeKAUSF a_short_ck) = Ok kausf)
  /\ milenage.validateLength (aka.mil a_short_rand)
     = Some (LengthError "RAND" 16 15)
  /\ ~ fails_with_length_error aka.ComputeHXRESStar a_short_rand
  /\ (exists h, fst (aka.ComputeHXRESStar a_short_rand) = Ok h).
Proof.
  split; [ vm_compute; reflexivity | ].
  split; [ intros (f & w & g & E); discriminate E | ].
  split; [ intros (f & w & g & E); discriminate E | ].
  split; [ intros (f & w & g & E); discriminate E | ].
  split; [ intros (f & w & g & E); discriminate E | ].
  split; [ eexists; reflexivity | ].
  split; [ vm_compute; reflexivity | ].
  split; [ intros (f & w & g & E); discriminate E | ].
  eexists. reflexivity.
Qed.

(** Every AKA derivation returns a value, whatever the snapshot holds. *)
Lemma aka_always_ok (a : aka.Aka) :
  (exists v a', aka.ComputeKAUSF a = (Ok v, a') /\ length v = 32%nat)
  /\ (exists v a', aka.ComputeKSEAF a = (Ok v, a') /\ length v = 32%nat)
  /\ (exists v a', aka.ComputeKAMF a = (Ok v, a') /\ length v = 32%nat)
  /\ (exists v a', aka.ComputeHXRESStar a = (Ok v, a') /\ length v = 16%nat).
Proof.
  split; [ | split; [ | split ] ];
    cbv [aka.ComputeKAUSF aka.ComputeKSEAF aka.ComputeKAMF
         aka.ComputeHXRESStar bind get put ret];
    do 2 eexists; (split; [ reflexivity | ]);
    try apply hmac_length.
  rewrite slice_to_end, length_skipn, sha256_length. reflexivity.
Qed.

(** A method that starts with the length validation stops there. *)
Lemma validate_fails {A} (m : milenage.Milenage) (e : error)
  (k : M milenage.Milenage A) :
  milenage.validateLength m = Some e ->
  (milenage.validate ;; k) m = (Err e, m).
Proof.
  intros H. unfold bind, milenage.validate. rewrite H. reflexivity.
Qed.

Lemma f1base_fails (m : milenage.Milenage) (e : error) (sqn amf : bytes) :
  milenage.validateLength m = Some e ->
  milenage.f1base sqn amf m = (Err e, m).
Proof. intros H. unfold milenage.f1base. apply validate_fails, H. Qed.

(** C5 (amended).  Every MILENAGE method ([F1], [F1Star], [F2345], [F5Star],
    [ComputeRESStar], [GenerateAUTN], [GenerateAUTS], [ComputeAll]) starts
    with the length validation of the instance: whenever a field has a length
    other than the tabled one (K, RAND, CK, IK 16 bytes; SQN, AK, AKS 6;
    AMF 2; MACA, MACS, RES 8; OP and OPc 16 when present), the method returns
    the invalid-length error naming the first such field, returns no result
    and leaves the instance as it was.  The AKA-layer derivations
    [ComputeKAUSF], [ComputeKSEAF], [ComputeKAMF] and [ComputeHXRESStar]
    perform no validation: they return a key (32, 32, 32 and 16 bytes) on
    every snapshot. *)
Theorem C5_invalid_length_fails_fast (m : milenage.Milenage) (e : error) :
  milenage.validateLength m = Some e ->
  (exists field want got, e = LengthError field want got /\ got <> want)
  /\ ~ lengths_ok m
  /\ milenage.F1 m = (Err e, m)
  /\ (forall sqn amf, milenage.F1Star sqn amf m = (Err e, m))
  /\ milenage.F2345 m = (Err e, m)
  /\ milenage.F5Star m = (Err e, m)
  /\ (forall mcc mnc, milenage.ComputeRESStar mcc mnc m = (Err e, m))
  /\ milenage.GenerateAUTN m = (Err e, m)
  /\ milenage.GenerateAUTS m = (Err e, m)
  /\ milenage.ComputeAll m = (Err e, m)
  /\ (forall a : aka.Aka,
        (exists v a', aka.ComputeKAUSF a = (Ok v, a') /\ length v = 32%nat)
        /\ (exists v a', aka.ComputeKSEAF a = (Ok v, a') /\ length v = 32%nat)
        /\ (exists v a', aka.ComputeKAMF a = (Ok v, a') /\ length v = 32%nat)
        /\ (exists v a', aka.ComputeHXRESStar a = (Ok v, a')
                         /\ length v = 16%nat)).
Proof.
  intros H.
  split; [ apply (validateLength_Some m e H) | ].
  split; [ intros L; apply validateLength_None in L; congruence | ].
  split; [ unfold milenage.F1, bind at 1, get at 1; unfold bind at 1;
           rewrite (f1base_fails m e _ _ H); reflexivity | ].
  split; [ intros sqn amf; unfold milenage.F1Star, bind at 1;
           rewrite (f1base_fails m e _ _ H); reflexivity | ].
  split; [ apply validate_fails, H | ].
  split; [ apply validate_fails, H | ].
  split; [ intros mcc mnc; apply validate_fails, H | ].
  split; [ apply validate_fails, H | ].
  split; [ apply validate_fails, H | ].
  split; [ apply validate_fails, H | ].
  apply aka_always_ok.
Qed.

Lemma C5_invalid_length_fails_fast_witness :
  milenage.validateLength m_short_ck = Some (LengthError "CK" 16 3)
  /\ milenage.F2345 m_short_ck = (Err (LengthError "CK" 16 3), m_short_ck)
  /\ milenage.GenerateAUTN m_short_ck
     = (Err (LengthError "CK" 16 3), m_short_ck).
Proof.
  assert (Hv : milenage.validateLength m_short_ck
               = Some (LengthError "CK" 16 3)) by (vm_compute; reflexivity).
  split; [ exact Hv | ].
  destruct (C5_invalid_length_fails_fast m_short_ck _ Hv)
    as (_ & _ & _ & _ & E1 & _ & _ & E2 & _).
  split; [ exact E1 | exact E2 ].
Defined.

Lemma autn_fields (sqn ak amf maca : bytes) :
  length sqn = 6%nat -> length ak = 6%nat -> length amf = 2%nat ->
  length maca = 8%nat ->
  let autn := xor_bytes sqn ak ++ amf ++ maca in
  length autn = 16%nat
  /\ xor_bytes (slice autn 0 6) ak = sqn
  /\ slice autn 6 8 = amf
  /\ slice autn 8 16 = maca.
Proof.
  intros H1 H2 H3 H4 autn.
  assert (Hx : length (xor_bytes sqn ak) = 6%nat)
    by (rewrite xor_bytes_length, H1, H2; reflexivity).
  assert (E1 : slice autn 0 6 = xor_bytes sqn ak).
  { unfold slice, autn. cbn [Nat.sub skipn].
    rewrite firstn_app, Hx, firstn_all2 by lia. cbn [Nat.sub firstn].
    apply app_nil_r. }
  split; [ unfold autn; rewrite !length_app; lia | ].
  split; [ rewrite E1; apply xor_bytes_cancel; lia | ].
  unfold slice, autn.
  split.
  - rewrite skipn_app, Hx, skipn_all2 by lia. cbn [Nat.sub skipn app].
    rewrite firstn_app, H3, firstn_all2 by lia. cbn [Nat.sub firstn].
    apply app_nil_r.
  - rewrite skipn_app, Hx, skipn_all2 by lia. cbn [Nat.sub app].
    rewrite skipn_app, H3, skipn_all2 by lia. cbn [Nat.sub skipn app].
    apply firstn_all2. lia.
Qed.

(** C6.  On an instance that passes the length validation [GenerateAUTN]
    succeeds, leaves the instance unchanged and returns a 16-byte token whose
    bytes 0..5 xor AK give SQN, whose bytes 6..7 are AMF and whose bytes
    8..15 are MACA, for the current values of these four fields. *)
Theorem C6_GenerateAUTN_layout (m : milenage.Milenage) :
  milenage.validateLength m = None ->
  exists autn,
    milenage.GenerateAUTN m = (Ok autn, m)
    /\ length autn = 16%nat
    /\ xor_bytes (slice autn 0 6) (milenage.AK m) = milenage.SQN m
    /\ slice autn 6 8 = milenage.AMF m
    /\ slice autn 8 16 = milenage.MACA m.
Proof.
  intros Hv. apply validateLength_None in Hv.
  eexists. split; [ apply (GenerateAUTN_closed m Hv) | ].
  apply autn_fields;
    [ apply (ok_SQN m Hv) | apply (ok_AK m Hv) | apply (ok_AMF m Hv)
    | apply (ok_MACA m Hv) ].
Qed.

Lemma C6_GenerateAUTN_layout_witness :
  milenage.validateLength m_derived = None
  /\ fst (milenage.GenerateAUTN m_derived)
     = Ok (unhex "de656c8b0bcf80004af30b82a8531115")
  /\ (forall autn, fst (milenage.GenerateAUTN m_derived) = Ok autn ->
      xor_bytes (slice autn 0 6) (unhex "de656c8b0bce") = [0; 0; 0; 0; 0; 1]).
Proof.
  assert (Hv : milenage.validateLength m_derived = None)
    by (vm_compute; reflexivity).
  split; [ exact Hv | ].
  destruct (C6_GenerateAUTN_layout m_derived Hv) as (autn & E & _ & Hx & _).
  rewrite E. cbn [fst]. split.
  - f_equal. revert E. vm_compute. intros E. injection E as <-. reflexivity.
  - intros a Ea. injection Ea as <-. exact Hx.
Defined.

(* ------------------------------------------------------------------ *)
(** ** Instances built from OP and from OPc *)

Lemma ready_canon (m : milenage.Milenage) : ready m -> ready (canon m).
Proof.
  intros [L H]. pose proof (opc_of_length m L H) as Hc.
  split; [ | left; discriminate ].
  destruct L. constructor; simpl; auto; try discriminate.
  intros c E. injection E as <-. exact Hc.
Qed.

Lemma f1_value_length (K RAND opc sqn amf mac : bytes) :
  length K = 16%nat -> length opc = 16%nat ->
  f1_value K RAND opc sqn amf = Ok mac -> length mac = 16%nat.
Proof.
  intros Hk Hc. unfold f1_value.
  destruct (milenage.build_in1 sqn amf); [ | discriminate ].
  intros E. injection E as <-.
  apply xor16_length; [ apply aes128_length, Hk | exact Hc ].
Qed.

Lemma ready_after_OPc (m : milenage.Milenage) :
  ready m -> ready (milenage.set_OPc (Some (opc_of m)) m).
Proof.
  intros [L H]. split; [ | left; discriminate ].
  apply lengths_ok_set_OPc; [ exact L | apply opc_of_length; assumption ].
Qed.

Lemma fmap_run {S A B} (f : A -> B) (c : M S A) (s : S) :
  fmap f c s
  = match c s with
    | (Ok a, s') => (Ok (f a), s')
    | (Err e, s') => (Err e, s')
    | (Panic, s') => (Panic, s')
    end.
Proof. unfold fmap, bind, ret. destruct (c s) as [[a | e |] s']; reflexivity. Qed.

(** Every derivation commutes with the normalisation: it returns the same
    outcome on [canon m] as on [m], and leaves states with the same normal
    form. *)
Lemma run_canon (d : derivation) (m : milenage.Milenage) :
  ready m ->
  ready (snd (run d m))
  /\ run d (canon m) = (fst (run d m), canon (snd (run d m))).
Proof.
  intros R. pose proof (ready_canon m R) as Rc.
  pose proof (ready_after_OPc m R) as Ro.
  destruct R as [L H]. destruct Rc as [Lc Hc]. destruct Ro as [Lo Ho].
  pose proof (opc_of_length m L H) as Hopc.
  pose proof (ok_K m L) as Hk.
  destruct d as [| sqn amf | | | mcc mnc | |]; unfold run; rewrite !fmap_run.
  - (* F1 *)
    rewrite (F1_closed m L H), (F1_closed (canon m) Lc Hc).
    split; [ | reflexivity ]. split; [ | left; discriminate ].
    apply lengths_ok_set_MACA; [ exact Lo | ].
    apply firstn_length_16; [ apply OUT1_length; assumption | lia ].
  - (* F1Star *)
    rewrite (F1Star_closed m sqn amf L H), (F1Star_closed (canon m) sqn amf Lc Hc).
    change (opc_of (canon m)) with (opc_of m).
    change (milenage.K (canon m)) with (milenage.K m).
    change (milenage.RAND (canon m)) with (milenage.RAND m).
    destruct (f1_value (milenage.K m) (milenage.RAND m) (opc_of m) sqn amf)
      as [mac | e |] eqn:E.
    + split; [ | reflexivity ]. split; [ | left; discriminate ].
      apply lengths_ok_set_MACS; [ exact Lo | ].
      apply skipn8_length_16. apply (f1_value_length _ _ _ _ _ _ Hk Hopc E).
    + split; [ | reflexivity ]. split; [ exact Lo | left; discriminate ].
    + split; [ | reflexivity ]. split; [ exact Lo | left; discriminate ].
  - (* F2345 *)
    rewrite (F2345_closed m L H), (F2345_closed (canon m) Lc Hc).
    split; [ | reflexivity ]. split; [ | left; discriminate ].
    apply lengths_ok_set_f2345; [ exact Lo | | | | ].
    + apply skipn8_length_16, OUT_length; assumption.
    + apply OUT_length; assumption.
    + apply OUT_length; assumption.
    + apply firstn_length_16; [ apply OUT_length; assumption | lia ].
  - (* F5Star *)
    rewrite (F5Star_closed m L H), (F5Star_closed (canon m) Lc Hc).
    split; [ | reflexivity ]. split; [ | left; discriminate ].
    apply lengths_ok_set_AKS; [ exact Lo | ].
    apply firstn_length_16; [ apply OUT_length; assumption | lia ].
  - (* ComputeRESStar *)
    rewrite (ComputeRESStar_closed m mcc mnc L),
            (ComputeRESStar_closed (canon m) mcc mnc Lc).
    destruct (negb (String.length mcc =? 3)%nat);
      [ split; [ split; assumption | reflexivity ] | ].
    destruct ((String.length mnc =? 2)%nat || (String.length mnc =? 3)%nat);
      split; solve [ split; assumption | reflexivity ].
  - (* GenerateAUTN *)
    rewrite (GenerateAUTN_closed m L), (GenerateAUTN_closed (canon m) Lc).
    split; [ split; assumption | reflexivity ].
  - (* GenerateAUTS *)
    rewrite (GenerateAUTS_closed m L H), (GenerateAUTS_closed (canon m) Lc Hc).
    split; [ | reflexivity ]. split; [ | left; discriminate ].
    apply lengths_ok_set_AKS.
    + apply lengths_ok_set_MACS; [ exact Lo | ].
      apply skipn8_length_16, OUT1_length; assumption.
    + apply firstn_length_16; [ apply OUT_length; assumption | lia ].
Qed.

Lemma run_all_canon (ds : list derivation) (m1 m2 : milenage.Milenage) :
  ready m1 -> ready m2 -> canon m1 = canon m2 ->
  run_all ds m1 = run_all ds m2.
Proof.
  revert m1 m2. induction ds as [| d ds IH]; intros m1 m2 R1 R2 E; simpl;
    [ reflexivity | ].
  destruct (run_canon d m1 R1) as [R1' E1].
  destruct (run_canon d m2 R2) as [R2' E2].
  rewrite E, E2 in E1.
  pose proof (f_equal fst E1) as Ev. pose proof (f_equal snd E1) as Em.
  cbn [fst snd] in Ev, Em.
  destruct (run d m1) as [o1 m1'], (run d m2) as [o2 m2'].
  cbn [fst snd] in *. subst o2. f_equal.
  apply IH; [ exact R1' | exact R2' | symmetry; exact Em ].
Qed.

Lemma New_lengths (k rand : bytes) (op : option bytes) (sqn amf : Z) :
  length k = 16%nat -> length rand = 16%nat ->
  (forall o, op = Some o -> length o = 16%nat) ->
  lengths_ok (milenage.New k op rand sqn amf).
Proof.
  intros Hk Hr Ho. constructor; simpl; auto; discriminate.
Qed.

Lemma NewWithOPc_lengths (k rand : bytes) (opc : option bytes) (sqn amf : Z) :
  length k = 16%nat -> length rand = 16%nat ->
  (forall o, opc = Some o -> length o = 16%nat) ->
  lengths_ok (milenage.NewWithOPc k opc rand sqn amf).
Proof.
  intros Hk Hr Ho. constructor; simpl; auto; discriminate.
Qed.

Lemma ComputeOPc_ok (k op : bytes) :
  length k = 16%nat -> length op = 16%nat ->
  milenage.ComputeOPc k (Some op) = Ok (spec.OPc k op).
Proof.
  intros Hk Ho. unfold milenage.ComputeOPc.
  rewrite (computeOPc_ok _ op) by (solve [ exact Hk | exact Ho | reflexivity ]).
  reflexivity.
Qed.

(** C7.  For 16-byte K, OP and RAND and any [sqn] and [amf], [ComputeOPc]
    succeeds, and every derivation ([F1], [F1Star] with any arguments,
    [F2345], [F5Star], [ComputeRESStar] with any codes, [GenerateAUTN],
    [GenerateAUTS]) has the same outcome on [New(K, OP, RAND, sqn, amf)],
    which derives OPc on first use, as on
    [NewWithOPc(K, ComputeOPc(K, OP), RAND, sqn, amf)]; the same holds for
    every sequence of derivations run on the two instances. *)
Theorem C7_OP_and_OPc_instances_agree (K OP RAND : bytes) (sqn amf : Z) :
  length K = 16%nat -> length OP = 16%nat -> length RAND = 16%nat ->
  exists opc,
    milenage.ComputeOPc K (Some OP) = Ok opc
    /\ (forall d,
          fst (run d (milenage.New K (Some OP) RAND sqn amf))
          = fst (run d (milenage.NewWithOPc K (Some opc) RAND sqn amf)))
    /\ (forall ds,
          run_all ds (milenage.New K (Some OP) RAND sqn amf)
          = run_all ds (milenage.NewWithOPc K (Some opc) RAND sqn amf)).
Proof.
  intros Hk Ho Hr. exists (spec.OPc K OP).
  split; [ apply ComputeOPc_ok; assumption | ].
  assert (Hall : forall ds,
             run_all ds (milenage.New K (Some OP) RAND sqn amf)
             = run_all ds (milenage.NewWithOPc K (Some (spec.OPc K OP))
                                               RAND sqn amf)).
  { intros ds. apply run_all_canon.
    - split; [ | right; discriminate ].
      apply New_lengths; auto. intros o E. injection E as <-. exact Ho.
    - split; [ | left; discriminate ].
      apply NewWithOPc_lengths; auto. intros o E. injection E as <-.
      apply spec_OPc_length; assumption.
    - reflexivity. }
  split; [ | exact Hall ].
  intros d. specialize (Hall [d]). simpl in Hall.
  destruct (run d (milenage.New K (Some OP) RAND sqn amf)) as [o1 m1].
  destruct (run d (milenage.NewWithOPc K (Some (spec.OPc K OP)) RAND sqn amf))
    as [o2 m2].
  injection Hall as ->. reflexivity.
Qed.

Lemma C7_OP_and_OPc_instances_agree_witness :
  length K0 = 16%nat /\ length OP0 = 16%nat /\ length RAND0 = 16%nat
  /\ milenage.ComputeOPc K0 (Some OP0) = Ok OPc0
  /\ run_all [dGenerateAUTS; dF1; dF2345; dComputeRESStar "001" "01";
              dGenerateAUTN] m_op
     = run_all [dGenerateAUTS; dF1; dF2345; dComputeRESStar "001" "01";
                dGenerateAUTN] m_opc.
Proof.
  split; [ reflexivity | ]. split; [ reflexivity | ]. split; [ reflexivity | ].
  destruct (C7_OP_and_OPc_instances_agree K0 OP0 RAND0 1 0x8000
              eq_refl eq_refl eq_refl) as (opc & E & _ & Hall).
  assert (Eo : opc = OPc0).
  { assert (E' : milenage.ComputeOPc K0 (Some OP0) = Ok OPc0)
      by (vm_compute; reflexivity).
    rewrite E' in E. injection E as <-. reflexivity. }
  subst opc. split; [ exact E | apply Hall ].
Defined.

(** C8.  For 16-byte K and OP, [ComputeOPc(K, OP)] succeeds and returns
    exactly the 16-byte value [AES-128-Encrypt(K, OP) xor OP]: the copy loop
    of [computeOPc], although bounded by [i > len] instead of [i >= len],
    writes all 16 bytes and never indexes out of range.  The result is a
    function of [K] and [OP] alone. *)
Theorem C8_ComputeOPc_value (K OP : bytes) :
  length K = 16%nat -> length OP = 16%nat ->
  let opc := xor_bytes (AES.aes128 K OP) OP in
  milenage.ComputeOPc K (Some OP) = Ok opc
  /\ length opc = 16%nat
  /\ milenage.opc_loop 0 opc (make 16) = (true, opc).
Proof.
  intros Hk Ho opc.
  split; [ apply ComputeOPc_ok; assumption | ].
  split; [ apply spec_OPc_length; assumption | ].
  apply opc_loop16, spec_OPc_length; assumption.
Qed.

Lemma C8_ComputeOPc_value_witness :
  length K0 = 16%nat /\ length OP0 = 16%nat
  /\ milenage.ComputeOPc K0 (Some OP0)
     = Ok (unhex "62e75b8d6fa5bf46ec87a9276f9df54d").
Proof.
  split; [ reflexivity | ]. split; [ reflexivity | ].
  destruct (C8_ComputeOPc_value K0 OP0 eq_refl eq_refl) as (E & _ & _).
  rewrite E. vm_compute. reflexivity.
Defined.

(** C9.  On every AKA instance, whatever SUPI it holds, [ComputeKAMF]
    succeeds, stores and returns the whole 32-byte HMAC-SHA-256, keyed with
    the instance's current KAUSF, of
    [0x6D || SUPI || len(SUPI) on two bytes, big-endian || 0x00 0x00 || 0x00 0x02].
    The two length bytes are those of [uint16(len(SUPI))]; they are
    [len(SUPI) / 256] and [len(SUPI) mod 256] for every SUPI shorter than
    65536 bytes. *)
Theorem C9_ComputeKAMF_value (a : aka.Aka) :
  let n := len (aka.SUPI a) in
  let hi := (n mod 65536 / 256) mod 256 in
  let lo := (n mod 65536) mod 256 in
  let S := [0x6D] ++ aka.SUPI a ++ [hi; lo] ++ [0x00; 0x00] ++ [0x00; 0x02] in
  let kamf := HMAC.sha256 (aka.KAUSF a) S in
  aka.ComputeKAMF a = (Ok kamf, aka.set_KAMF kamf a)
  /\ length kamf = 32%nat
  /\ (n < 65536 -> hi = n / 256 /\ lo = n mod 256).
Proof.
  intros n hi lo S kamf.
  split; [ | split ].
  - cbv [aka.ComputeKAMF bind get put ret]. unfold kamf, S.
    rewrite <- !app_assoc. reflexivity.
  - apply hmac_length.
  - intros Hn. unfold hi, lo, n, len in *.
    rewrite (Z.mod_small (Z.of_nat (length (aka.SUPI a))) 65536) by lia.
    split; [ | reflexivity ].
    apply Z.mod_small. split.
    + apply Z.div_pos; lia.
    + apply Z.div_lt_upper_bound; lia.
Qed.

Lemma C9_ComputeKAMF_value_witness :
  len (aka.SUPI a_driver) < 65536
  /\ fst (aka.ComputeKAMF a_driver)
     = Ok (unhex "e0c07aacbba7d77ad55efa309882963a9d46dbc9f0045026df89a5d9a30d9915")
  /\ (len (aka.SUPI a_driver) mod 65536 / 256) mod 256 = 0
  /\ (len (aka.SUPI a_driver) mod 65536) mod 256 = 15.
Proof.
  assert (Hn : len (aka.SUPI a_driver) < 65536) by (vm_compute; reflexivity).
  split; [ exact Hn | ].
  destruct (C9_ComputeKAMF_value a_driver) as (E & _ & Hb).
  destruct (Hb Hn) as [Hhi Hlo].
  split; [ rewrite E; vm_compute; reflexivity | ].
  split; [ rewrite Hhi | rewrite Hlo ]; vm_compute; reflexivity.
Defined.

(** [ComputeRESStar] leaves the instance as it found it, whatever it
    returns. *)
Lemma ComputeRESStar_frame (m : milenage.Milenage) (mcc mnc : string) :
  snd (milenage.ComputeRESStar mcc mnc m) = m.
Proof.
  unfold milenage.ComputeRESStar, bind, milenage.validate, get, ret, lift.
  cbv zeta.
  repeat match goal with
         | |- context [match ?c with Some _ => _ | None => _ end] => destruct c
         | |- context [if ?c then _ else _] => destruct c
         end;
    reflexivity.
Qed.

(** C10.  A successful [ComputeRESStar] on an instance that passes the
    length validation changes no field of the instance: the state after the
    call is the state before it, so K, OP, OPc, RAND, SQN, AMF, MACA, MACS,
    RES, CK, IK, AK, AKS and RESStar are as before.  The value it returns
    is not stored: a snapshot taken after the call hashes the RESStar the
    instance already had, and hashes the returned value only when the
    caller has assigned it to the field first. *)
Theorem C10_ComputeRESStar_frame (m m' : milenage.Milenage) (mcc mnc : string)
  (resStar : bytes) :
  milenage.validateLength m = None ->
  milenage.ComputeRESStar mcc mnc m = (Ok resStar, m') ->
  m' = m
  /\ milenage.RESStar m' = milenage.RESStar m
  /\ (forall snn supi,
        fst (aka.ComputeHXRESStar (aka.New m' snn supi))
        = Ok (skipn 16 (SHA256.Sum256 (milenage.RAND m ++ milenage.RESStar m))))
  /\ (forall snn supi,
        fst (aka.ComputeHXRESStar
               (aka.New (milenage.set_RESStar resStar m') snn supi))
        = Ok (skipn 16 (SHA256.Sum256 (milenage.RAND m ++ resStar)))).
Proof.
  intros _ E.
  assert (Em : m' = m).
  { pose proof (ComputeRESStar_frame m mcc mnc) as F. rewrite E in F. exact F. }
  subst m'.
  assert (Hh : forall x, slice (SHA256.Sum256 x)
                               (length (SHA256.Sum256 x) - 16)
                               (length (SHA256.Sum256 x))
                         = skipn 16 (SHA256.Sum256 x)).
  { intros x. rewrite slice_to_end, sha256_length. reflexivity. }
  split; [ reflexivity | ]. split; [ reflexivity | ].
  split; intros snn supi;
    cbv [aka.ComputeHXRESStar bind get put ret fst]; rewrite Hh; reflexivity.
Qed.

Lemma C10_ComputeRESStar_frame_witness :
  milenage.validateLength m_derived = None
  /\ milenage.ComputeRESStar "001" "01" m_derived
     = (Ok (unhex "31b6d938a5290ccc65bc829f9820a8d9"), m_derived)
  /\ milenage.RESStar m_derived = []
  /\ fst (aka.ComputeHXRESStar
            (aka.New (milenage.set_RESStar
                        (unhex "31b6d938a5290ccc65bc829f9820a8d9") m_derived)
                     "5G:mnc01.mcc001.3gppnetwork.org" "001010123456789"))
     = Ok (skipn 16 (SHA256.Sum256
                       (milenage.RAND m_derived
                        ++ unhex "31b6d938a5290ccc65bc829f9820a8d9"))).
Proof.
  assert (Hv : milenage.validateLength m_derived = None)
    by (vm_compute; reflexivity).
  assert (E : milenage.ComputeRESStar "001" "01" m_derived
              = (Ok (unhex "31b6d938a5290ccc65bc829f9820a8d9"), m_derived))
    by (vm_compute; reflexivity).
  destruct (C10_ComputeRESStar_frame m_derived m_derived "001" "01" _ Hv E)
    as (_ & _ & _ & Hx).
  split; [ exact Hv | ]. split; [ exact E | ].
  split; [ vm_compute; reflexivity | apply Hx ].
Defined.

(* ================================================================== *)
(** * Further properties of the code *)

(* ------------------------------------------------------------------ *)
(** ** The helper [xor] *)

(** X1.  [xor] (and its exported alias [Xor]) returns, for any two slices,
    a slice as long as the shorter one whose bytes are the exclusive or of
    the bytes of the arguments at the same index; neither length is
    required to match. *)
Theorem X1_xor_shorter_elementwise (b1 b2 : bytes) :
  length (milenage.xor b1 b2) = Nat.min (length b1) (length b2)
  /\ milenage.Xor b1 b2 = milenage.xor b1 b2
  /\ (forall i, (i < Nat.min (length b1) (length b2))%nat ->
      nth i (milenage.xor b1 b2) 0 = Z.lxor (nth i b1 0) (nth i b2 0)).
Proof.
  split; [ rewrite xor_spec; apply xor_bytes_length | ].
  split; [ reflexivity | ].
  intros i Hi. rewrite xor_spec, xor_bytes_nth.
  rewrite (nth_indep _ 0 ((fun j => Z.lxor (nth j b1 0) (nth j b2 0)) 0%nat))
    by (rewrite length_map, length_seq; exact Hi).
  rewrite (map_nth (fun j => Z.lxor (nth j b1 0) (nth j b2 0))).
  rewrite seq_nth by exact Hi. reflexivity.
Qed.

Lemma X1_xor_shorter_elementwise_witness :
  milenage.xor [1; 2; 3] [7; 7] = [6; 5]
  /\ (1 < Nat.min (length [1; 2; 3]) (length [7; 7]))%nat
  /\ nth 1 (milenage.xor [1; 2; 3] [7; 7]) 0 = Z.lxor 2 7.
Proof.
  split; [ reflexivity | ].
  assert (H : (1 < Nat.min (length [1; 2; 3]) (length [7; 7]))%nat)
    by (simpl; lia).
  split; [ exact H | ].
  destruct (X1_xor_shorter_elementwise [1; 2; 3] [7; 7]) as (_ & _ & Hn).
  exact (Hn 1%nat H).
Defined.

(* ------------------------------------------------------------------ *)
(** ** Length validation *)

Lemma validateLength_K (m : milenage.Milenage) :
  length (milenage.K m) <> 16%nat ->
  milenage.validateLength m = Some (LengthError "K" 16 (len (milenage.K m))).
Proof.
  intros Hk. unfold milenage.validateLength, milenage.check at 1, len.
  destruct (Z.eqb_spec (Z.of_nat (length (milenage.K m))) 16) as [E | E];
    [ lia | reflexivity ].
Qed.

(** X2.  [validateLength] returns nil exactly when K, RAND, CK and IK have 16
    bytes, SQN, AK and AKS 6, AMF 2, MACA, MACS and RES 8, and OP and OPc
    have 16 bytes unless they are nil.  A K of another length is reported
    first, whatever the other fields hold, and every error it returns names
    a field together with the wanted length and a different length got. *)
Theorem X2_validateLength_accepts (m : milenage.Milenage) :
  (milenage.validateLength m = None <-> lengths_ok m)
  /\ (length (milenage.K m) <> 16%nat ->
      milenage.validateLength m
      = Some (LengthError "K" 16 (len (milenage.K m))))
  /\ (forall e, milenage.validateLength m = Some e ->
      exists field want got, e = LengthError field want got /\ got <> want).
Proof.
  split; [ apply validateLength_None | ].
  split; [ apply validateLength_K | apply validateLength_Some ].
Qed.

Lemma X2_validateLength_accepts_witness :
  length (milenage.K m_short_k) <> 16%nat
  /\ milenage.validateLength m_short_k = Some (LengthError "K" 16 15)
  /\ milenage.validateLength m_opc = None
  /\ length (milenage.AKS m_opc) = 6%nat.
Proof.
  assert (Hk : length (milenage.K m_short_k) <> 16%nat) by (simpl; lia).
  split; [ exact Hk | ].
  destruct (X2_validateLength_accepts m_short_k) as (_ & H1 & _).
  split; [ exact (H1 Hk) | ].
  assert (Hv : milenage.validateLength m_opc = None) by (vm_compute; reflexivity).
  split; [ exact Hv | ].
  destruct (X2_validateLength_accepts m_opc) as (H2 & _ & _).
  apply (ok_AKS m_opc (proj1 H2 Hv)).
Defined.

(* ------------------------------------------------------------------ *)
(** ** [ComputeOPc] outside its intended inputs *)

Lemma opc_loop_overrun (bs dst : bytes) (i : nat) :
  length dst = 16%nat -> (i <= 16)%nat -> (16 - i < length bs)%nat ->
  fst (milenage.opc_loop i bs dst) = false.
Proof.
  revert dst i. induction bs as [| b bs IH]; intros dst i Hd Hi Hl;
    cbn [length] in Hl; [ lia | ].
  cbn [milenage.opc_loop]. unfold len. rewrite Hd.
  destruct (Z.ltb_spec (Z.of_nat 16) (Z.of_nat i)); [ lia | ].
  destruct (Z.ltb_spec (Z.of_nat i) (Z.of_nat 16)); [ | reflexivity ].
  apply IH; [ rewrite set_at_length; exact Hd | lia | lia ].
Qed.

Lemma cipher_length (key plain : bytes) :
  length key = 16%nat \/ length key = 24%nat \/ length key = 32%nat ->
  length (AES.Cipher (AES.KeyExpansion key) plain) = 16%nat.
Proof.
  intros [Hk | [Hk | Hk]]; explode key Hk; vm_compute; reflexivity.
Qed.

Lemma NewCipher_keyed (k : bytes) :
  length k = 16%nat \/ length k = 24%nat \/ length k = 32%nat ->
  AES.NewCipher k = Some (AES.KeyExpansion k).
Proof.
  intros Hk. unfold AES.NewCipher, len.
  destruct Hk as [Hk | [Hk | Hk]]; rewrite Hk; reflexivity.
Qed.

Lemma ComputeOPc_bad_key (k : bytes) (op : option bytes) :
  ~ (length k = 16%nat \/ length k = 24%nat \/ length k = 32%nat) ->
  milenage.ComputeOPc k op = Err (KeySizeError (len k)).
Proof.
  intros Hk. unfold milenage.ComputeOPc, milenage.computeOPc.
  cbn [milenage.K milenage.OP milenage.OPc milenage.set_OPc milenage.New].
  unfold AES.NewCipher, len.
  destruct (Z.eqb_spec (Z.of_nat (length k)) 16) as [E | E];
    [ exfalso; apply Hk; left; lia | ].
  destruct (Z.eqb_spec (Z.of_nat (length k)) 24) as [E1 | E1];
    [ exfalso; apply Hk; right; left; lia | ].
  destruct (Z.eqb_spec (Z.of_nat (length k)) 32) as [E2 | E2];
    [ exfalso; apply Hk; right; right; lia | ].
  reflexivity.
Qed.

Lemma ComputeOPc_keyed (k op : bytes) :
  length k = 16%nat \/ length k = 24%nat \/ length k = 32%nat ->
  length op = 16%nat ->
  milenage.ComputeOPc k (Some op)
  = Ok (xor_bytes (AES.Cipher (AES.KeyExpansion k) op) op)
  /\ length (xor_bytes (AES.Cipher (AES.KeyExpansion k) op) op) = 16%nat.
Proof.
  intros Hk Hs.
  assert (Hx : length (xor_bytes (AES.Cipher (AES.KeyExpansion k) op) op)
               = 16%nat)
    by (apply xor16_length; [ apply cipher_length, Hk | exact Hs ]).
  split; [ | exact Hx ].
  unfold milenage.ComputeOPc, milenage.computeOPc.
  cbn [milenage.K milenage.OP milenage.OPc milenage.set_OPc milenage.New
       milenage.sl].
  rewrite (NewCipher_keyed k Hk). unfold AES.Encrypt, len, make.
  rewrite repeat_length, Hs.
  replace (firstn 16 op) with op by (symmetry; apply firstn_all2; lia).
  change (skipn 16 (repeat 0 16)) with (@nil Z).
  change ((Z.of_nat 16 <? 16) || (Z.of_nat 16 <? 16)) with false.
  cbv beta iota. rewrite app_nil_r, xor_spec.
  fold (make 16). rewrite (opc_loop16 _ Hx). reflexivity.
Qed.

(** X3.  [ComputeOPc] validates nothing itself.  A key whose length is not
    16, 24 or 32 gives the cipher's key-size error; with a key of one of
    these lengths, an OP that is nil or shorter than 16 bytes makes the
    block encryption panic, an OP longer than 16 bytes makes the copy loop
    index the 16-byte OPc out of range (its bound [i > len(m.OPc)] lets
    [i = 16] through) and panic, and a 16-byte OP gives the 16-byte
    [E(K, OP) xor OP], also under a 24- or 32-byte key. *)
Theorem X3_ComputeOPc_edges (k : bytes) (op : option bytes) :
  let keyed :=
    length k = 16%nat \/ length k = 24%nat \/ length k = 32%nat in
  (~ keyed -> milenage.ComputeOPc k op = Err (KeySizeError (len k)))
  /\ (keyed -> (length (milenage.sl op) < 16)%nat ->
      milenage.ComputeOPc k op = Panic)
  /\ (keyed -> (16 < length (milenage.sl op))%nat ->
      milenage.ComputeOPc k op = Panic)
  /\ (keyed -> forall b, op = Some b -> length b = 16%nat ->
      milenage.ComputeOPc k op
      = Ok (xor_bytes (AES.Cipher (AES.KeyExpansion k) b) b)
      /\ length (xor_bytes (AES.Cipher (AES.KeyExpansion k) b) b) = 16%nat).
Proof.
  intros keyed.
  split; [ apply ComputeOPc_bad_key | ].
  split; [ | split ].
  - intros Hk Hs. unfold milenage.ComputeOPc, milenage.computeOPc.
    cbn [milenage.K milenage.OP milenage.OPc milenage.set_OPc milenage.New].
    rewrite (NewCipher_keyed k Hk). unfold AES.Encrypt, len.
    destruct (Z.ltb_spec (Z.of_nat (length (milenage.sl op))) 16) as [E | E];
      [ reflexivity | lia ].
  - intros Hk Hs. unfold milenage.ComputeOPc, milenage.computeOPc.
    cbn [milenage.K milenage.OP milenage.OPc milenage.set_OPc milenage.New].
    change (milenage.sl (Some (make 16))) with (make 16).
    rewrite (NewCipher_keyed k Hk). unfold AES.Encrypt, len, make.
    rewrite repeat_length.
    destruct (Z.ltb_spec (Z.of_nat (length (milenage.sl op))) 16) as [E | E];
      [ lia | ].
    cbn [orb]. rewrite xor_spec.
    pose proof (opc_loop_overrun
                  (xor_bytes
                     (AES.Cipher (AES.KeyExpansion k)
                        (firstn 16 (milenage.sl op))
                      ++ skipn 16 (repeat 0 (length (milenage.sl op))))
                     (milenage.sl op))
                  (repeat 0 16) 0 eq_refl (Nat.le_0_l 16)) as Hover.
    destruct (milenage.opc_loop 0 _ (repeat 0 16)) as [ok dst].
    cbn [fst] in Hover. rewrite Hover.
    + reflexivity.
    + rewrite xor_bytes_length, length_app, length_skipn, repeat_length,
        (cipher_length k _ Hk). lia.
  - intros Hk b -> Hs. apply ComputeOPc_keyed; assumption.
Qed.

Lemma X3_ComputeOPc_edges_witness :
  milenage.ComputeOPc (firstn 15 K0) (Some OP0) = Err (KeySizeError 15)
  /\ milenage.ComputeOPc K0 None = Panic
  /\ milenage.ComputeOPc K0 (Some (OP0 ++ [0])) = Panic
  /\ milenage.ComputeOPc (K0 ++ firstn 8 K0) (Some OP0)
     = Ok (unhex "3ffb77f7de3d1b52c267c77e6304d2dc").
Proof.
  pose proof (X3_ComputeOPc_edges (firstn 15 K0) (Some OP0)) as P1.
  pose proof (X3_ComputeOPc_edges K0 None) as P2.
  pose proof (X3_ComputeOPc_edges K0 (Some (OP0 ++ [0]))) as P3.
  pose proof (X3_ComputeOPc_edges (K0 ++ firstn 8 K0) (Some OP0)) as P4.
  cbv zeta in P1, P2, P3, P4.
  destruct P1 as (P1 & _). destruct P2 as (_ & P2 & _).
  destruct P3 as (_ & _ & P3 & _). destruct P4 as (_ & _ & _ & P4).
  split; [ apply P1; simpl; lia | ].
  split; [ apply P2; [ left; reflexivity | simpl; lia ] | ].
  split; [ apply P3; [ left; reflexivity | simpl; lia ] | ].
  destruct (P4 (or_intror (or_introl eq_refl)) OP0 eq_refl eq_refl) as [P4' _].
  rewrite P4'. vm_compute. reflexivity.
Defined.

(* ------------------------------------------------------------------ *)
(** ** The constructors *)

Lemma be_value_6 (v : Z) :
  be_value [(v / 1099511627776) mod 256; (v / 4294967296) mod 256;
            (v / 16777216) mod 256; (v / 65536) mod 256;
            (v / 256) mod 256; (v / 1) mod 256]
  = v mod 281474976710656.
Proof.
  unfold be_value. cbn [fold_left]. rewrite Z.div_1_r.
  Z.div_mod_to_equations. lia.
Qed.

Lemma be_value_2 (v : Z) :
  be_value [(v / 256) mod 256; v mod 256] = v mod 65536.
Proof.
  unfold be_value. cbn [fold_left]. Z.div_mod_to_equations. lia.
Qed.

Lemma mod_mod_divides (x a b : Z) :
  0 < b -> 0 < a -> (x mod (a * b)) mod b = x mod b.
Proof.
  intros Hb Ha. rewrite (Z.mul_comm a b), Z.rem_mul_r by lia.
  rewrite (Z.mul_comm b), Z.mod_add by lia.
  apply Z.mod_mod. lia.
Qed.

(** X4.  [New] and [NewWithOPc] store the sequence number as the six
    low-order bytes of its big-endian form, so the SQN field denotes
    [sqn mod 2^48] (the two high bytes of the 64-bit argument are dropped),
    and the AMF field denotes [amf mod 2^16].  [New] keeps OP and leaves OPc
    nil, [NewWithOPc] does the opposite; every output field starts as zero
    bytes of its tabled width.  Neither constructor validates: the instance
    passes [validateLength] exactly when K and RAND have 16 bytes and the
    operator field given is nil or has 16 bytes. *)
Theorem X4_constructors (k rand : bytes) (o : option bytes) (sqn amf : Z) :
  let m1 := milenage.New k o rand sqn amf in
  let m2 := milenage.NewWithOPc k o rand sqn amf in
  let fits :=
    length k = 16%nat /\ length rand = 16%nat
    /\ (forall b, o = Some b -> length b = 16%nat) in
  (length (milenage.SQN m1) = 6%nat
   /\ be_value (milenage.SQN m1) = sqn mod 2 ^ 48
   /\ length (milenage.AMF m1) = 2%nat
   /\ be_value (milenage.AMF m1) = amf mod 2 ^ 16)
  /\ milenage.SQN m2 = milenage.SQN m1 /\ milenage.AMF m2 = milenage.AMF m1
  /\ (milenage.OP m1 = o /\ milenage.OPc m1 = None)
  /\ (milenage.OP m2 = None /\ milenage.OPc m2 = o)
  /\ (milenage.MACA m1, milenage.MACS m1, milenage.RES m1, milenage.CK m1,
      milenage.IK m1, milenage.AK m1, milenage.AKS m1, milenage.RESStar m1)
     = (make 8, make 8, make 8, make 16, make 16, make 6, make 6, [])
  /\ (milenage.validateLength m1 = None <-> fits)
  /\ (milenage.validateLength m2 = None <-> fits).
Proof.
  intros m1 m2 fits.
  assert (Es : milenage.SQN m1
               = [(uint64 sqn / 1099511627776) mod 256;
                  (uint64 sqn / 4294967296) mod 256;
                  (uint64 sqn / 16777216) mod 256;
                  (uint64 sqn / 65536) mod 256;
                  (uint64 sqn / 256) mod 256; (uint64 sqn / 1) mod 256])
    by reflexivity.
  assert (Ea : milenage.AMF m1
               = [(uint16 amf / 256) mod 256; uint16 amf mod 256])
    by reflexivity.
  split.
  { rewrite Es, Ea, be_value_6, be_value_2. unfold uint64, uint16.
    repeat split.
    - change 281474976710656 with (2 ^ 48).
      change (2 ^ 64) with (2 ^ 16 * 2 ^ 48).
      apply mod_mod_divides; lia.
    - change (2 ^ 16) with 65536. apply Z.mod_mod. lia. }
  split; [ reflexivity | ]. split; [ reflexivity | ].
  split; [ split; reflexivity | ]. split; [ split; reflexivity | ].
  split; [ reflexivity | ].
  split; rewrite validateLength_None; split.
  - intros L. split; [ apply (ok_K _ L) | ].
    split; [ apply (ok_RAND _ L) | apply (ok_OP _ L) ].
  - intros (Hk & Hr & Ho). apply New_lengths; assumption.
  - intros L. split; [ apply (ok_K _ L) | ].
    split; [ apply (ok_RAND _ L) | apply (ok_OPc _ L) ].
  - intros (Hk & Hr & Ho). apply NewWithOPc_lengths; assumption.
Qed.

Lemma X4_constructors_witness :
  (length K0 = 16%nat /\ length RAND0 = 16%nat
   /\ (forall b, Some OP0 = Some b -> length b = 16%nat))
  /\ milenage.validateLength (milenage.New K0 (Some OP0) RAND0 (2 ^ 48 + 5) 0x8000)
     = None
  /\ milenage.SQN (milenage.New K0 (Some OP0) RAND0 (2 ^ 48 + 5) 0x8000)
     = [0; 0; 0; 0; 0; 5].
Proof.
  assert (F : length K0 = 16%nat /\ length RAND0 = 16%nat
              /\ (forall b, Some OP0 = Some b -> length b = 16%nat)).
  { split; [ reflexivity | ]. split; [ reflexivity | ].
    intros b E. injection E as <-. reflexivity. }
  split; [ exact F | ].
  pose proof (X4_constructors K0 RAND0 (Some OP0) (2 ^ 48 + 5) 0x8000) as P.
  cbv zeta in P. destruct P as (_ & _ & _ & _ & _ & _ & Hv & _).
  split; [ apply Hv, F | reflexivity ].
Defined.

(* ------------------------------------------------------------------ *)
(** ** [byteArrayLen2B] *)

(** X5.  [byteArrayLen2B] returns two bytes that denote, big-endian, the
    length of its argument modulo 65536: the length itself for every slice
    shorter than 65536 bytes. *)
Theorem X5_byteArrayLen2B_value (b : bytes) :
  length (aka.byteArrayLen2B b) = 2%nat
  /\ be_value (aka.byteArrayLen2B b) = len b mod 65536
  /\ (len b < 65536 -> be_value (aka.byteArrayLen2B b) = len b).
Proof.
  assert (E : aka.byteArrayLen2B b
              = [(uint16 (len b) / 256) mod 256; uint16 (len b) mod 256])
    by reflexivity.
  assert (Hv : be_value (aka.byteArrayLen2B b) = len b mod 65536).
  { rewrite E, be_value_2. unfold uint16. apply Z.mod_mod. lia. }
  split; [ rewrite E; reflexivity | ]. split; [ exact Hv | ].
  intros Hn. rewrite Hv. apply Z.mod_small. unfold len in *. lia.
Qed.

Lemma X5_byteArrayLen2B_value_witness :
  len (repeat 7 300) < 65536
  /\ aka.byteArrayLen2B (repeat 7 300) = [1; 44]
  /\ be_value (aka.byteArrayLen2B (repeat 7 300)) = 300.
Proof.
  assert (H : len (repeat 7 300) < 65536) by (vm_compute; reflexivity).
  split; [ exact H | ]. split; [ vm_compute; reflexivity | ].
  destruct (X5_byteArrayLen2B_value (repeat 7 300)) as (_ & _ & P).
  rewrite (P H). vm_compute. reflexivity.
Defined.

(* ------------------------------------------------------------------ *)
(** ** [F5Star] and [GenerateAUTS] *)

(** X6.  On an instance that passes the length validation and whose OPc is
    present or derivable, [F5Star] returns the first six bytes of
    [AES(K, R5 with byte 15 xor 0x08) xor OPc], where [R5] holds
    [(TEMP xor OPc)[i]] at index [(i+4) mod 16] and
    [TEMP = AES(K, RAND xor OPc)]; it stores them in AKS and changes no
    other output field. *)
Theorem X6_F5Star_output (m : milenage.Milenage) :
  milenage.validateLength m = None -> has_opc m ->
  let K := milenage.K m in
  let OPc := opc_of m in
  let TEMP := AES.aes128 K (xor_bytes (milenage.RAND m) OPc) in
  let X := xor_bytes TEMP OPc in
  let R5 := spec.place 4 X in
  let aks := firstn 6 (xor_bytes (AES.aes128 K (spec.flip 0x08 R5)) OPc) in
  (forall i, (i < 16)%nat -> nth ((i + 4) mod 16) R5 0 = nth i X 0)
  /\ length aks = 6%nat
  /\ exists m',
       milenage.F5Star m = (Ok aks, m')
       /\ milenage.AKS m' = aks
       /\ (milenage.MACA m', milenage.MACS m', milenage.RES m',
           milenage.CK m', milenage.IK m', milenage.AK m', milenage.RESStar m')
          = (milenage.MACA m, milenage.MACS m, milenage.RES m,
             milenage.CK m, milenage.IK m, milenage.AK m, milenage.RESStar m).
Proof.
  intros Hv H K OPc TEMP X R5 aks.
  apply validateLength_None in Hv.
  pose proof (opc_of_length m Hv H) as Hc.
  pose proof (ok_K m Hv) as Hk.
  split; [ intros i Hi; apply place_index; [ lia | exact Hi ] | ].
  split.
  { apply firstn_length_16; [ | lia ].
    apply xor16_length; [ apply aes128_length, Hk | exact Hc ]. }
  eexists. split; [ apply (F5Star_closed m Hv H) | ].
  split; reflexivity.
Qed.

Lemma X6_F5Star_output_witness :
  milenage.validateLength m_op = None /\ has_opc m_op
  /\ fst (milenage.F5Star m_op) = Ok (unhex "b9ac50c48a83").
Proof.
  assert (Hv : milenage.validateLength m_op = None) by (vm_compute; reflexivity).
  assert (H : has_opc m_op) by (right; discriminate).
  split; [ exact Hv | ]. split; [ exact H | ].
  destruct (X6_F5Star_output m_op Hv H) as (_ & _ & m' & E & _).
  rewrite E. vm_compute. reflexivity.
Defined.

Lemma auts_fields (sqn aks macS : bytes) :
  length sqn = 6%nat -> length aks = 6%nat -> length macS = 8%nat ->
  let auts := xor_bytes sqn aks ++ macS in
  length auts = 14%nat
  /\ xor_bytes (slice auts 0 6) aks = sqn
  /\ slice auts 6 14 = macS.
Proof.
  intros H1 H2 H3 auts.
  assert (Hx : length (xor_bytes sqn aks) = 6%nat)
    by (rewrite xor_bytes_length, H1, H2; reflexivity).
  split; [ unfold auts; rewrite length_app; lia | ].
  unfold slice, auts. split.
  - cbn [Nat.sub skipn]. rewrite firstn_app, Hx, firstn_all2 by lia.
    cbn [Nat.sub firstn]. rewrite app_nil_r. apply xor_bytes_cancel. lia.
  - rewrite skipn_app, Hx, skipn_all2 by lia. cbn [Nat.sub skipn app].
    apply firstn_all2. lia.
Qed.

(** X7.  On an instance that passes the length validation and whose OPc is
    present or derivable, [GenerateAUTS] returns a 14-byte token whose bytes
    0..5 xor AK-S give SQN and whose bytes 6..13 are MAC-S, where MAC-S is
    what [F1Star] returns for the instance's SQN and an all-zero AMF and
    AK-S is what [F5Star] returns.  As a side effect the fields MACS and AKS
    are overwritten with these two values; AMF, SQN and the other output
    fields keep their values. *)
Theorem X7_GenerateAUTS_layout (m : milenage.Milenage) :
  milenage.validateLength m = None -> has_opc m ->
  exists auts m',
    milenage.GenerateAUTS m = (Ok auts, m')
    /\ length auts = 14%nat
    /\ xor_bytes (slice auts 0 6) (milenage.AKS m') = milenage.SQN m
    /\ slice auts 6 14 = milenage.MACS m'
    /\ fst (milenage.F1Star (milenage.SQN m) [0; 0] m) = Ok (milenage.MACS m')
    /\ fst (milenage.F5Star m) = Ok (milenage.AKS m')
    /\ (milenage.SQN m', milenage.AMF m', milenage.MACA m', milenage.RES m',
        milenage.CK m', milenage.IK m', milenage.AK m', milenage.RESStar m')
       = (milenage.SQN m, milenage.AMF m, milenage.MACA m, milenage.RES m,
          milenage.CK m, milenage.IK m, milenage.AK m, milenage.RESStar m).
Proof.
  intros Hv H. apply validateLength_None in Hv.
  pose proof (opc_of_length m Hv H) as Hc.
  pose proof (ok_K m Hv) as Hk.
  do 2 eexists. split; [ apply (GenerateAUTS_closed m Hv H) | ].
  cbn [milenage.AKS milenage.MACS milenage.set_AKS milenage.set_MACS
       milenage.set_OPc].
  assert (HmacS : length (skipn 8 (spec.OUT1 (milenage.K m) (milenage.RAND m)
                                     (opc_of m) (milenage.SQN m) [0; 0]))
                  = 8%nat)
    by (apply skipn8_length_16, OUT1_length; assumption).
  assert (Haks : length (firstn 6 (spec.OUT5 (milenage.K m) (milenage.RAND m)
                                     (opc_of m))) = 6%nat)
    by (apply firstn_length_16; [ apply OUT_length; assumption | lia ]).
  destruct (auts_fields _ _ _ (ok_SQN m Hv) Haks HmacS) as (A1 & A2 & A3).
  split; [ exact A1 | ]. split; [ exact A2 | ]. split; [ exact A3 | ].
  split.
  { rewrite (F1Star_closed m _ _ Hv H).
    rewrite f1_value_ok by (solve [ apply (ok_SQN m Hv) | reflexivity ]).
    reflexivity. }
  split; [ rewrite (F5Star_closed m Hv H); reflexivity | reflexivity ].
Qed.

Lemma X7_GenerateAUTS_layout_witness :
  milenage.validateLength m_derived = None /\ has_opc m_derived
  /\ fst (milenage.GenerateAUTS m_derived)
     = Ok (unhex "b9ac50c48a82cdf74673bc86e7ab").
Proof.
  assert (Hv : milenage.validateLength m_derived = None)
    by (vm_compute; reflexivity).
  assert (H : has_opc m_derived) by (left; vm_compute; discriminate).
  split; [ exact Hv | ]. split; [ exact H | ].
  destruct (X7_GenerateAUTS_layout m_derived Hv H) as (auts & m' & E & _).
  rewrite E. cbn [fst]. f_equal.
  revert E. vm_compute. intros E. injection E as <-. reflexivity.
Defined.

(* ------------------------------------------------------------------ *)
(** ** [ComputeAll] *)

Lemma wrap_ok {A} (ctx : string) (c : M milenage.Milenage A)
  (m m' : milenage.Milenage) (a : A) :
  c m = (Ok a, m') -> milenage.wrap ctx c m = (Ok a, m').
Proof. intros E. unfold milenage.wrap. rewrite E. reflexivity. Qed.

Lemma ComputeAll_closed (m : milenage.Milenage) :
  lengths_ok m -> has_opc m ->
  let K := milenage.K m in
  let RAND := milenage.RAND m in
  let opc := opc_of m in
  let out1 := spec.OUT1 K RAND opc (milenage.SQN m) (milenage.AMF m) in
  let out2 := spec.OUT2 K RAND opc in
  milenage.ComputeAll m
  = (Ok tt,
     milenage.mkMilenage K (milenage.OP m) (Some opc) RAND (milenage.SQN m)
       (milenage.AMF m) (firstn 8 out1) (skipn 8 out1) (skipn 8 out2)
       (spec.OUT3 K RAND opc) (spec.OUT4 K RAND opc) (firstn 6 out2)
       (firstn 6 (spec.OUT5 K RAND opc)) (milenage.RESStar m)).
Proof.
  intros L H K RAND opc out1 out2.
  pose proof (opc_of_length m L H) as Hc.
  pose proof (ok_K m L) as Hk.
  assert (Ho1 : length out1 = 16%nat) by (apply OUT1_length; assumption).
  assert (Ho2 : length out2 = 16%nat) by (apply OUT_length; assumption).
  unfold milenage.ComputeAll, bind at 1.
  rewrite validate_ok by exact L.
  (* F1 *)
  unfold bind at 1.
  rewrite (wrap_ok _ _ _ _ _ (F1_closed m L H)).
  fold K RAND opc out1.
  set (m1 := milenage.set_MACA (firstn 8 out1) (milenage.set_OPc (Some opc) m)).
  assert (L1 : lengths_ok m1).
  { apply lengths_ok_set_MACA; [ apply lengths_ok_set_OPc; assumption | ].
    apply firstn_length_16; [ exact Ho1 | lia ]. }
  assert (H1 : has_opc m1) by (left; discriminate).
  (* F1Star *)
  unfold bind at 1, get at 1. unfold bind at 1.
  assert (E2 : milenage.F1Star (milenage.SQN m1) (milenage.AMF m1) m1
               = (Ok (skipn 8 out1), milenage.set_MACS (skipn 8 out1) m1)).
  { rewrite (F1Star_closed m1 _ _ L1 H1).
    rewrite f1_value_ok by (solve [ apply (ok_SQN m L) | apply (ok_AMF m L) ]).
    reflexivity. }
  rewrite (wrap_ok _ _ _ _ _ E2).
  set (m2 := milenage.set_MACS (skipn 8 out1) m1).
  assert (L2 : lengths_ok m2)
    by (apply lengths_ok_set_MACS; [ exact L1 | apply skipn8_length_16, Ho1 ]).
  assert (H2 : has_opc m2) by (left; discriminate).
  (* F2345 *)
  unfold bind at 1.
  rewrite (wrap_ok _ _ _ _ _ (F2345_closed m2 L2 H2)).
  change (opc_of m2) with opc.
  change (milenage.K m2) with K. change (milenage.RAND m2) with RAND.
  fold out2.
  set (m3 := milenage.set_f2345 (skipn 8 out2) (spec.OUT3 K RAND opc)
               (spec.OUT4 K RAND opc) (firstn 6 out2)
               (milenage.set_OPc (Some opc) m2)).
  assert (L3 : lengths_ok m3).
  { apply lengths_ok_set_f2345.
    - apply lengths_ok_set_OPc; assumption.
    - apply skipn8_length_16, Ho2.
    - apply OUT_length; assumption.
    - apply OUT_length; assumption.
    - apply firstn_length_16; [ exact Ho2 | lia ]. }
  assert (H3 : has_opc m3) by (left; discriminate).
  (* F5Star *)
  unfold bind at 1.
  rewrite (wrap_ok _ _ _ _ _ (F5Star_closed m3 L3 H3)).
  reflexivity.
Qed.

(** X8.  On an instance that passes the length validation and whose OPc is
    present or derivable, [ComputeAll] succeeds and fills MACA, MACS, RES,
    CK, IK, AK and AKS with exactly what [F1], [F1Star] on the instance's
    own SQN and AMF, [F2345] and [F5Star] return on that instance; MACA
    followed by MACS is the whole block OUT1.  K, OP, RAND, SQN, AMF and
    RESStar are left alone, OPc is present afterwards, and the instance
    still passes the validation. *)
Theorem X8_ComputeAll_fills (m : milenage.Milenage) :
  milenage.validateLength m = None -> has_opc m ->
  exists m',
    milenage.ComputeAll m = (Ok tt, m')
    /\ fst (milenage.F1 m) = Ok (milenage.MACA m')
    /\ fst (milenage.F1Star (milenage.SQN m) (milenage.AMF m) m)
       = Ok (milenage.MACS m')
    /\ fst (milenage.F2345 m)
       = Ok (milenage.RES m', milenage.CK m', milenage.IK m', milenage.AK m')
    /\ fst (milenage.F5Star m) = Ok (milenage.AKS m')
    /\ milenage.MACA m' ++ milenage.MACS m'
       = spec.OUT1 (milenage.K m) (milenage.RAND m) (opc_of m)
                   (milenage.SQN m) (milenage.AMF m)
    /\ (milenage.K m', milenage.OP m', milenage.RAND m', milenage.SQN m',
        milenage.AMF m', milenage.RESStar m')
       = (milenage.K m, milenage.OP m, milenage.RAND m, milenage.SQN m,
          milenage.AMF m, milenage.RESStar m)
    /\ milenage.OPc m' = Some (opc_of m)
    /\ milenage.validateLength m' = None.
Proof.
  intros Hv H. apply validateLength_None in Hv.
  pose proof (opc_of_length m Hv H) as Hc.
  pose proof (ok_K m Hv) as Hk.
  eexists. split; [ apply (ComputeAll_closed m Hv H) | ].
  cbn [milenage.MACA milenage.MACS milenage.RES milenage.CK milenage.IK
       milenage.AK milenage.AKS milenage.K milenage.OP milenage.OPc
       milenage.RAND milenage.SQN milenage.AMF milenage.RESStar].
  split; [ rewrite (F1_closed m Hv H); reflexivity | ].
  split.
  { rewrite (F1Star_closed m _ _ Hv H).
    rewrite f1_value_ok by (solve [ apply (ok_SQN m Hv) | apply (ok_AMF m Hv) ]).
    reflexivity. }
  split; [ rewrite (F2345_closed m Hv H); reflexivity | ].
  split; [ rewrite (F5Star_closed m Hv H); reflexivity | ].
  split; [ apply firstn_skipn | ].
  split; [ reflexivity | ]. split; [ reflexivity | ].
  apply validateLength_None.
  pose proof (OUT1_length (milenage.K m) (milenage.RAND m) (opc_of m)
                (milenage.SQN m) (milenage.AMF m) Hk Hc) as Ho1.
  pose proof (OUT_length 0 1 (milenage.K m) (milenage.RAND m) (opc_of m) Hk Hc)
    as Ho2.
  destruct Hv.
  constructor;
    cbn [milenage.MACA milenage.MACS milenage.RES milenage.CK milenage.IK
         milenage.AK milenage.AKS milenage.K milenage.OP milenage.OPc
         milenage.RAND milenage.SQN milenage.AMF milenage.RESStar];
    auto.
  - intros c E. injection E as <-. exact Hc.
  - apply firstn_length_16; [ exact Ho1 | lia ].
  - apply skipn8_length_16, Ho1.
  - apply skipn8_length_16, Ho2.
  - apply OUT_length; assumption.
  - apply OUT_length; assumption.
  - apply firstn_length_16; [ exact Ho2 | lia ].
  - apply firstn_length_16; [ apply OUT_length; assumption | lia ].
Qed.

Lemma X8_ComputeAll_fills_witness :
  milenage.validateLength m_op = None /\ has_opc m_op
  /\ fst (milenage.ComputeAll m_op) = Ok tt
  /\ milenage.CK (snd (milenage.ComputeAll m_op))
     = unhex "b379874b3d183d2a21291d439e7761e1"
  /\ milenage.OPc (snd (milenage.ComputeAll m_op)) = Some OPc0.
Proof.
  assert (Hv : milenage.validateLength m_op = None) by (vm_compute; reflexivity).
  assert (H : has_opc m_op) by (right; discriminate).
  split; [ exact Hv | ]. split; [ exact H | ].
  destruct (X8_ComputeAll_fills m_op Hv H)
    as (m' & E & _ & _ & E3 & _ & _ & _ & Eo & _).
  rewrite E. cbn [fst snd]. split; [ reflexivity | ].
  split.
  - assert (E3' : fst (milenage.F2345 m_op)
                  = Ok (unhex "700eb2300b2c4799",
                        unhex "b379874b3d183d2a21291d439e7761e1",
                        unhex "f4706f66629cf7ddf881d80025bf1255",
                        unhex "de656c8b0bce")) by (vm_compute; reflexivity).
    rewrite E3' in E3. injection E3 as _ <- _ _. reflexivity.
  - rewrite Eo. vm_compute. reflexivity.
Defined.

(* ------------------------------------------------------------------ *)
(** ** Instances without an operator field *)

Lemma computeOPc_no_OP (m : milenage.Milenage) :
  length (milenage.K m) = 16%nat -> milenage.OP m = None ->
  milenage.computeOPc m = (Panic, milenage.set_OPc (Some (make 16)) m).
Proof.
  intros Hk Ho. unfold milenage.computeOPc.
  cbn [milenage.K milenage.OP milenage.OPc milenage.set_OPc].
  rewrite Ho. unfold AES.NewCipher, len. rewrite Hk. reflexivity.
Qed.

Lemma ensureOPc_no_OP (m : milenage.Milenage) :
  lengths_ok m -> milenage.OP m = None -> milenage.OPc m = None ->
  (milenage.validate ;; milenage.ensureOPc) m
  = (Panic, milenage.set_OPc (Some (make 16)) m).
Proof.
  intros L Ho Hc. unfold bind. rewrite validate_ok by exact L.
  unfold milenage.ensureOPc. rewrite Hc.
  rewrite (computeOPc_no_OP m (ok_K m L) Ho). reflexivity.
Qed.

Lemma bind_assoc {S A B C} (c : M S A) (k : A -> M S B) (h : B -> M S C)
  (s : S) :
  bind (bind c k) h s = bind c (fun a => bind (k a) h) s.
Proof. unfold bind. destruct (c s) as [[a | e |] s']; reflexivity. Qed.

Lemma no_OP_panics {A} (m : milenage.Milenage)
  (k : M milenage.Milenage A) :
  lengths_ok m -> milenage.OP m = None -> milenage.OPc m = None ->
  (milenage.validate ;; milenage.ensureOPc ;; k) m
  = (Panic, milenage.set_OPc (Some (make 16)) m).
Proof.
  intros L Ho Hc.
  pose proof (ensureOPc_no_OP m L Ho Hc) as E.
  unfold bind in *. rewrite validate_ok in * by exact L.
  destruct (milenage.ensureOPc m) as [[[] | e |] s']; try discriminate E.
  injection E as ->. reflexivity.
Qed.

Lemma F1_no_OP (m : milenage.Milenage) :
  lengths_ok m -> milenage.OP m = None -> milenage.OPc m = None ->
  milenage.F1 m = (Panic, milenage.set_OPc (Some (make 16)) m).
Proof.
  intros L Ho Hc. unfold milenage.F1, bind at 1, get at 1. unfold bind at 1.
  unfold milenage.f1base. rewrite (no_OP_panics m _ L Ho Hc). reflexivity.
Qed.

Lemma ComputeAll_no_OP (m : milenage.Milenage) :
  lengths_ok m -> milenage.OP m = None -> milenage.OPc m = None ->
  milenage.ComputeAll m = (Panic, milenage.set_OPc (Some (make 16)) m).
Proof.
  intros L Ho Hc. unfold milenage.ComputeAll, bind at 1.
  rewrite validate_ok by exact L. unfold bind at 1, milenage.wrap.
  rewrite (F1_no_OP m L Ho Hc). reflexivity.
Qed.

(** X9.  An instance can pass the length validation with neither OP nor
    OPc.  On such an instance [F1], [F1Star], [F2345], [F5Star],
    [GenerateAUTS] and [ComputeAll] panic in the OPc derivation, while
    [GenerateAUTN] still returns a token.  The panic leaves OPc set to 16
    zero bytes and nothing else changed, so the instance still passes the
    validation and a later [F1] runs with an all-zero OPc. *)
Theorem X9_no_operator_field (m : milenage.Milenage) (sqn amf : bytes) :
  milenage.validateLength m = None ->
  milenage.OP m = None -> milenage.OPc m = None ->
  let m0 := milenage.set_OPc (Some (make 16)) m in
  milenage.F1 m = (Panic, m0)
  /\ milenage.F1Star sqn amf m = (Panic, m0)
  /\ milenage.F2345 m = (Panic, m0)
  /\ milenage.F5Star m = (Panic, m0)
  /\ milenage.GenerateAUTS m = (Panic, m0)
  /\ milenage.ComputeAll m = (Panic, m0)
  /\ (exists autn, milenage.GenerateAUTN m = (Ok autn, m))
  /\ milenage.validateLength m0 = None
  /\ fst (milenage.F1 m0)
     = Ok (firstn 8 (spec.OUT1 (milenage.K m) (milenage.RAND m) (make 16)
                               (milenage.SQN m) (milenage.AMF m))).
Proof.
  intros Hv Ho Hc m0. apply validateLength_None in Hv.
  assert (Hf : forall s a, milenage.f1base s a m = (Panic, m0))
    by (intros s a; apply (no_OP_panics m _ Hv Ho Hc)).
  assert (L0 : lengths_ok m0) by (apply lengths_ok_set_OPc; auto).
  split; [ apply (F1_no_OP m Hv Ho Hc) | ].
  assert (HS : forall s a, milenage.F1Star s a m = (Panic, m0))
    by (intros s a; unfold milenage.F1Star, bind at 1; rewrite Hf; reflexivity).
  split; [ apply HS | ].
  split; [ apply (no_OP_panics m _ Hv Ho Hc) | ].
  split; [ apply (no_OP_panics m _ Hv Ho Hc) | ].
  split; [ unfold milenage.GenerateAUTS, bind at 1;
           rewrite validate_ok by exact Hv;
           unfold bind at 1, get at 1; unfold bind at 1;
           rewrite HS; reflexivity | ].
  split; [ apply (ComputeAll_no_OP m Hv Ho Hc) | ].
  split; [ eexists; apply (GenerateAUTN_closed m Hv) | ].
  split; [ apply validateLength_None, L0 | ].
  assert (H0 : has_opc m0) by (left; unfold m0; discriminate).
  rewrite (F1_closed m0 L0 H0). reflexivity.
Qed.

Lemma X9_no_operator_field_witness :
  milenage.validateLength m_bare = None
  /\ milenage.OP m_bare = None /\ milenage.OPc m_bare = None
  /\ fst (milenage.F2345 m_bare) = Panic
  /\ milenage.OPc (snd (milenage.F2345 m_bare)) = Some (make 16)
  /\ fst (milenage.F1 (snd (milenage.F2345 m_bare)))
     = Ok (unhex "3622432d3745176b").
Proof.
  assert (Hv : milenage.validateLength m_bare = None)
    by (vm_compute; reflexivity).
  split; [ exact Hv | ]. split; [ reflexivity | ]. split; [ reflexivity | ].
  destruct (X9_no_operator_field m_bare [] [] Hv eq_refl eq_refl)
    as (_ & _ & E & _ & _ & _ & _ & _ & E1).
  rewrite E. cbn [fst snd]. split; [ reflexivity | ].
  split; [ reflexivity | ].
  rewrite E1. vm_compute. reflexivity.
Defined.

(** X10.  [ComputeAll] returns an error only from its own initial length
    validation.  Its four wrapped errors ("F1() failed", "F1Star() failed",
    "F2345() failed", "F5Star() failed") are never returned: on an instance
    that passed the validation every step either succeeds or panics. *)
Theorem X10_ComputeAll_errors (m : milenage.Milenage) :
  (forall e, fst (milenage.ComputeAll m) = Err e ->
             milenage.validateLength m = Some e
             /\ milenage.ComputeAll m = (Err e, m))
  /\ (forall ctx e, fst (milenage.ComputeAll m) <> Err (Wrapped ctx e))
  /\ (milenage.validateLength m = None ->
      fst (milenage.ComputeAll m) = Ok tt
      \/ (fst (milenage.ComputeAll m) = Panic
          /\ milenage.OP m = None /\ milenage.OPc m = None)).
Proof.
  assert (Cases :
    (exists e, milenage.validateLength m = Some e
               /\ milenage.ComputeAll m = (Err e, m))
    \/ (milenage.validateLength m = None
        /\ fst (milenage.ComputeAll m) = Ok tt)
    \/ (milenage.validateLength m = None
        /\ fst (milenage.ComputeAll m) = Panic
        /\ milenage.OP m = None /\ milenage.OPc m = None)).
  { destruct (milenage.validateLength m) as [e |] eqn:Hv.
    - left. exists e. split; [ reflexivity | apply validate_fails, Hv ].
    - right. pose proof (proj1 (validateLength_None m) Hv) as L.
      destruct (milenage.OPc m) as [c |] eqn:Ec.
      + left. split; [ reflexivity | ].
        assert (H : has_opc m) by (left; rewrite Ec; discriminate).
        rewrite (ComputeAll_closed m L H). reflexivity.
      + destruct (milenage.OP m) as [o |] eqn:Eo.
        * left. split; [ reflexivity | ].
          assert (H : has_opc m) by (right; rewrite Eo; discriminate).
          rewrite (ComputeAll_closed m L H). reflexivity.
        * right. split; [ reflexivity | ].
          rewrite (ComputeAll_no_OP m L Eo Ec).
          split; [ reflexivity | split; reflexivity ]. }
  split; [ | split ].
  - intros e E. destruct Cases as [(e' & Hv & Ec) | [(_ & Ec) | (_ & Ec & _)]].
    + rewrite Ec in E. cbn [fst] in E. injection E as <-. auto.
    + rewrite Ec in E. discriminate E.
    + rewrite Ec in E. discriminate E.
  - intros ctx e E. destruct Cases as [(e' & Hv & Ec) | [(_ & Ec) | (_ & Ec & _)]].
    + rewrite Ec in E. cbn [fst] in E. injection E as ->.
      destruct (validateLength_Some m _ Hv) as (f & w & g & Ee & _).
      discriminate Ee.
    + rewrite Ec in E. discriminate E.
    + rewrite Ec in E. discriminate E.
  - intros Hv. destruct Cases as [(e' & Hv' & _) | [(_ & Ec) | (_ & Ec & Ho)]].
    + congruence.
    + left. exact Ec.
    + right. split; assumption.
Qed.

Lemma X10_ComputeAll_errors_witness :
  fst (milenage.ComputeAll m_short_k) = Err (LengthError "K" 16 15)
  /\ milenage.ComputeAll m_short_k = (Err (LengthError "K" 16 15), m_short_k)
  /\ milenage.validateLength m_bare = None
  /\ fst (milenage.ComputeAll m_bare) = Panic
  /\ milenage.validateLength m_op = None
  /\ fst (milenage.ComputeAll m_op) = Ok tt.
Proof.
  assert (E : fst (milenage.ComputeAll m_short_k) = Err (LengthError "K" 16 15))
    by (vm_compute; reflexivity).
  split; [ exact E | ].
  destruct (X10_ComputeAll_errors m_short_k) as (P & _ & _).
  split; [ apply (P _ E) | ].
  assert (Hb : milenage.validateLength m_bare = None) by (vm_compute; reflexivity).
  split; [ exact Hb | ].
  destruct (X10_ComputeAll_errors m_bare) as (_ & _ & Q).
  split.
  - destruct (Q Hb) as [Q1 | [Q1 _]]; [ | exact Q1 ].
    exfalso. revert Q1. vm_compute. discriminate.
  - assert (Ho : milenage.validateLength m_op = None) by (vm_compute; reflexivity).
    split; [ exact Ho | ].
    destruct (X10_ComputeAll_errors m_op) as (_ & _ & R).
    destruct (R Ho) as [R1 | [_ [R1 _]]]; [ exact R1 | discriminate R1 ].
Defined.

(* ------------------------------------------------------------------ *)
(** ** The arguments of [F1Star] *)

Lemma build_in1_short (sqn amf : bytes) :
  (length sqn < 6)%nat \/ (length amf < 2)%nat ->
  milenage.build_in1 sqn amf = None.
Proof.
  intros H.
  destruct sqn as [| s0 [| s1 [| s2 [| s3 [| s4 [| s5 sq]]]]]];
    try reflexivity.
  destruct H as [H | H]; [ simpl in H; lia | ].
  destruct amf as [| a0 [| a1 am]]; try reflexivity. simpl in H. lia.
Qed.

Lemma build_in1_prefix (sqn amf : bytes) :
  (6 <= length sqn)%nat -> (2 <= length amf)%nat ->
  milenage.build_in1 sqn amf
  = milenage.build_in1 (firstn 6 sqn) (firstn 2 amf).
Proof.
  intros Hs Ha.
  destruct sqn as [| s0 [| s1 [| s2 [| s3 [| s4 [| s5 sq]]]]]];
    simpl in Hs; try lia.
  destruct amf as [| a0 [| a1 am]]; simpl in Ha; try lia.
  reflexivity.
Qed.

(** X11.  [F1Star] does not check the lengths of its two arguments.  On an
    instance that passes the length validation and whose OPc is present or
    derivable, a [sqn] shorter than 6 bytes or an [amf] shorter than 2 bytes
    makes it panic on an index out of range, with MACS left as it was; with
    longer arguments only the first 6 bytes of [sqn] and the first 2 bytes
    of [amf] are used. *)
Theorem X11_F1Star_arguments (m : milenage.Milenage) (sqn amf : bytes) :
  milenage.validateLength m = None -> has_opc m ->
  ((length sqn < 6)%nat \/ (length amf < 2)%nat ->
   fst (milenage.F1Star sqn amf m) = Panic
   /\ milenage.MACS (snd (milenage.F1Star sqn amf m)) = milenage.MACS m)
  /\ ((6 <= length sqn)%nat -> (2 <= length amf)%nat ->
      milenage.F1Star sqn amf m
      = milenage.F1Star (firstn 6 sqn) (firstn 2 amf) m
      /\ exists macS, fst (milenage.F1Star sqn amf m) = Ok macS
                      /\ length macS = 8%nat).
Proof.
  intros Hv H. apply validateLength_None in Hv.
  split.
  - intros Hs. rewrite (F1Star_closed m sqn amf Hv H).
    unfold f1_value. rewrite (build_in1_short sqn amf Hs).
    split; reflexivity.
  - intros Hs Ha.
    rewrite (F1Star_closed m sqn amf Hv H),
            (F1Star_closed m (firstn 6 sqn) (firstn 2 amf) Hv H).
    assert (Ev : f1_value (milenage.K m) (milenage.RAND m) (opc_of m) sqn amf
                 = f1_value (milenage.K m) (milenage.RAND m) (opc_of m)
                            (firstn 6 sqn) (firstn 2 amf))
      by (unfold f1_value; rewrite (build_in1_prefix sqn amf Hs Ha);
          reflexivity).
    rewrite Ev. split; [ reflexivity | ].
    rewrite f1_value_ok
      by (rewrite length_firstn; lia).
    eexists. split; [ reflexivity | ].
    apply skipn8_length_16, OUT1_length;
      [ apply (ok_K m Hv) | apply opc_of_length; assumption ].
Qed.

Lemma X11_F1Star_arguments_witness :
  milenage.validateLength m_opc = None /\ has_opc m_opc
  /\ ((length [0; 0; 0; 0; 1] < 6)%nat \/ (length [0x80; 0] < 2)%nat)
  /\ fst (milenage.F1Star [0; 0; 0; 0; 1] [0x80; 0] m_opc) = Panic
  /\ (6 <= length [0; 0; 0; 0; 0; 1; 9; 9])%nat
  /\ (2 <= length [0x80; 0; 9])%nat
  /\ fst (milenage.F1Star [0; 0; 0; 0; 0; 1; 9; 9] [0x80; 0; 9] m_opc)
     = Ok (unhex "23fc01ba24031362").
Proof.
  assert (Hv : milenage.validateLength m_opc = None) by (vm_compute; reflexivity).
  assert (H : has_opc m_opc) by (left; discriminate).
  split; [ exact Hv | ]. split; [ exact H | ].
  assert (H1 : (length [0; 0; 0; 0; 1] < 6)%nat \/ (length [0x80; 0] < 2)%nat)
    by (left; simpl; lia).
  split; [ exact H1 | ].
  destruct (X11_F1Star_arguments m_opc [0; 0; 0; 0; 1] [0x80; 0] Hv H)
    as (P & _).
  split; [ apply (P H1) | ].
  assert (H2 : (6 <= length [0; 0; 0; 0; 0; 1; 9; 9])%nat) by (simpl; lia).
  assert (H3 : (2 <= length [0x80; 0; 9])%nat) by (simpl; lia).
  split; [ exact H2 | ]. split; [ exact H3 | ].
  destruct (X11_F1Star_arguments m_opc [0; 0; 0; 0; 0; 1; 9; 9] [0x80; 0; 9]
              Hv H) as (_ & Q).
  destruct (Q H2 H3) as (E & _). rewrite E. vm_compute. reflexivity.
Defined.

(* ------------------------------------------------------------------ *)
(** ** Call order *)

Lemma xor_bytes_zero (a : bytes) (n : nat) :
  length a = n -> xor_bytes a (make n) = a.
Proof.
  revert n. induction a as [| x a IH]; intros [| n] H; simpl in *;
    try discriminate; [ reflexivity | ].
  rewrite Z.lxor_0_r. f_equal. apply IH. lia.
Qed.

(** X12.  [GenerateAUTN] does not require [F1] and [F2345] to have run.  On
    a freshly constructed instance that passes the length validation it
    succeeds and returns the sequence number in clear, followed by AMF and
    eight zero bytes, because AK and MACA are still the constructor's
    zeros. *)
Theorem X12_GenerateAUTN_fresh (k rand : bytes) (o : option bytes)
  (sqn amf : Z) :
  length k = 16%nat -> length rand = 16%nat ->
  (forall b, o = Some b -> length b = 16%nat) ->
  let m1 := milenage.New k o rand sqn amf in
  let m2 := milenage.NewWithOPc k o rand sqn amf in
  milenage.GenerateAUTN m1
  = (Ok (milenage.SQN m1 ++ milenage.AMF m1 ++ make 8), m1)
  /\ milenage.GenerateAUTN m2
     = (Ok (milenage.SQN m2 ++ milenage.AMF m2 ++ make 8), m2).
Proof.
  intros Hk Hr Ho m1 m2.
  pose proof (New_lengths k rand o sqn amf Hk Hr Ho) as L1.
  pose proof (NewWithOPc_lengths k rand o sqn amf Hk Hr Ho) as L2.
  rewrite (GenerateAUTN_closed m1 L1), (GenerateAUTN_closed m2 L2).
  change (milenage.AK m1) with (make 6). change (milenage.AK m2) with (make 6).
  change (milenage.MACA m1) with (make 8).
  change (milenage.MACA m2) with (make 8).
  rewrite (xor_bytes_zero _ 6 (ok_SQN m1 L1)),
          (xor_bytes_zero _ 6 (ok_SQN m2 L2)).
  split; reflexivity.
Qed.

Lemma X12_GenerateAUTN_fresh_witness :
  length K0 = 16%nat /\ length RAND0 = 16%nat
  /\ (forall b, Some OPc0 = Some b -> length b = 16%nat)
  /\ fst (milenage.GenerateAUTN m_opc)
     = Ok (unhex "00000000000180000000000000000000").
Proof.
  assert (Ho : forall b, Some OPc0 = Some b -> length b = 16%nat)
    by (intros b E; injection E as <-; reflexivity).
  split; [ reflexivity | ]. split; [ reflexivity | ]. split; [ exact Ho | ].
  destruct (X12_GenerateAUTN_fresh K0 RAND0 (Some OPc0) 1 0x8000
              eq_refl eq_refl Ho) as (_ & E).
  unfold m_opc. rewrite E. vm_compute. reflexivity.
Defined.

(* ------------------------------------------------------------------ *)
(** ** The network codes of [ComputeRESStar] *)

(** X13.  [ComputeRESStar] treats a two-character MNC as the same MNC with a
    zero in front: on every instance and for every MCC the call with [mnc]
    and the call with ["0" + mnc] have the same outcome. *)
Theorem X13_ComputeRESStar_pads_mnc (m : milenage.Milenage)
  (mcc mnc : string) :
  String.length mnc = 2%nat ->
  milenage.ComputeRESStar mcc mnc m
  = milenage.ComputeRESStar mcc (String "0" mnc) m.
Proof.
  intros H2. unfold milenage.ComputeRESStar, bind.
  destruct (milenage.validate m) as [[[] | e |] s']; try reflexivity.
  destruct (negb (Z.of_nat (String.length mcc) =? 3)); [ reflexivity | ].
  cbv zeta. cbn [String.length]. rewrite H2. reflexivity.
Qed.

Lemma X13_ComputeRESStar_pads_mnc_witness :
  String.length "01" = 2%nat
  /\ milenage.ComputeRESStar "001" "01" m_derived
     = milenage.ComputeRESStar "001" "001" m_derived.
Proof.
  split; [ reflexivity | ].
  apply (X13_ComputeRESStar_pads_mnc m_derived "001" "01" eq_refl).
Defined.

(* ------------------------------------------------------------------ *)
(** ** What a derivation reads and what it leaves *)

Lemma Ok_inj {A} (a b : A) : Ok a = Ok b -> a = b.
Proof. intros E. injection E as E'. exact E'. Qed.

(** One derivation on a valid instance: the inputs, OP and RESStar are kept,
    and a returned value has the widths of the data model. *)
Lemma run_frame (d : derivation) (m : milenage.Milenage) :
  ready m ->
  inputs (snd (run d m)) = inputs m
  /\ milenage.OP (snd (run d m)) = milenage.OP m
  /\ milenage.RESStar (snd (run d m)) = milenage.RESStar m
  /\ (forall v, fst (run d m) = Ok v -> value_lengths v = result_lengths d).
Proof.
  intros [L H].
  pose proof (opc_of_length m L H) as Hc.
  pose proof (ok_K m L) as Hk.
  pose proof (fun s a => OUT1_length (milenage.K m) (milenage.RAND m)
                           (opc_of m) s a Hk Hc) as Ho1.
  pose proof (fun k c => OUT_length k c (milenage.K m) (milenage.RAND m)
                           (opc_of m) Hk Hc) as Ho.
  destruct d as [| sqn amf | | | mcc mnc | |]; unfold run; rewrite fmap_run.
  - rewrite (F1_closed m L H). cbn [fst snd].
    split; [ reflexivity | ]. split; [ reflexivity | ]. split; [ reflexivity | ].
    intros v E. apply Ok_inj in E. subst v. cbn [value_lengths result_lengths].
    rewrite firstn_length_16; [ reflexivity | apply Ho1 | lia ].
  - rewrite (F1Star_closed m sqn amf L H).
    destruct (f1_value (milenage.K m) (milenage.RAND m) (opc_of m) sqn amf)
      as [mac | e |] eqn:E; cbn [fst snd];
      (split; [ reflexivity | ]); (split; [ reflexivity | ]);
      (split; [ reflexivity | ]); intros v Ev; try discriminate Ev.
    apply Ok_inj in Ev. subst v. cbn [value_lengths result_lengths].
    rewrite skipn8_length_16; [ reflexivity | ].
    apply (f1_value_length _ _ _ _ _ _ Hk Hc E).
  - rewrite (F2345_closed m L H). cbn [fst snd].
    split; [ reflexivity | ]. split; [ reflexivity | ]. split; [ reflexivity | ].
    intros v E. apply Ok_inj in E. subst v. cbn [value_lengths result_lengths].
    unfold spec.OUT2, spec.OUT3, spec.OUT4.
    rewrite skipn8_length_16, !Ho, firstn_length_16;
      [ reflexivity | apply Ho | lia | apply Ho ].
  - rewrite (F5Star_closed m L H). cbn [fst snd].
    split; [ reflexivity | ]. split; [ reflexivity | ]. split; [ reflexivity | ].
    intros v E. apply Ok_inj in E. subst v. cbn [value_lengths result_lengths].
    unfold spec.OUT5.
    rewrite firstn_length_16; [ reflexivity | apply Ho | lia ].
  - rewrite (ComputeRESStar_closed m mcc mnc L).
    destruct (negb (String.length mcc =? 3)%nat); cbn [fst snd];
      [ repeat (split; [ reflexivity | ]); intros v E; discriminate E | ].
    destruct ((String.length mnc =? 2)%nat || (String.length mnc =? 3)%nat);
      cbn [fst snd];
      repeat (split; [ reflexivity | ]); intros v E; try discriminate E.
    apply Ok_inj in E. subst v. cbn [value_lengths result_lengths].
    unfold spec.RESStar. rewrite length_skipn, hmac_length. reflexivity.
  - rewrite (GenerateAUTN_closed m L). cbn [fst snd].
    repeat (split; [ reflexivity | ]). intros v E. apply Ok_inj in E. subst v.
    cbn [value_lengths result_lengths].
    rewrite !length_app, xor_bytes_length, (ok_SQN m L), (ok_AK m L),
      (ok_AMF m L), (ok_MACA m L). reflexivity.
  - rewrite (GenerateAUTS_closed m L H). cbn [fst snd].
    split; [ reflexivity | ]. split; [ reflexivity | ]. split; [ reflexivity | ].
    intros v E. apply Ok_inj in E. subst v. cbn [value_lengths result_lengths].
    unfold spec.OUT5.
    rewrite length_app, xor_bytes_length, (ok_SQN m L), firstn_length_16,
      skipn8_length_16; [ reflexivity | apply Ho1 | apply Ho | lia ].
Qed.

Lemma after_ready (ds : list derivation) (m : milenage.Milenage) :
  ready m ->
  ready (after ds m)
  /\ inputs (after ds m) = inputs m
  /\ milenage.OP (after ds m) = milenage.OP m
  /\ milenage.RESStar (after ds m) = milenage.RESStar m.
Proof.
  revert m. induction ds as [| d ds IH]; intros m R; cbn [after]; [ auto | ].
  destruct (run_canon d m R) as [R' _].
  destruct (run_frame d m R) as (E1 & E2 & E3 & _).
  destruct (IH _ R') as (R'' & F1 & F2 & F3).
  split; [ exact R'' | ]. split; [ congruence | ]. split; congruence.
Qed.

Lemma reads_inputs (d : derivation) (m m' : milenage.Milenage) :
  ready m -> ready m' -> inputs m' = inputs m ->
  reads_inputs_only d = true ->
  fst (run d m') = fst (run d m).
Proof.
  intros [L H] [L' H'] E Hd. unfold inputs in E.
  injection E as EK ER ES EA EO.
  destruct d as [| sqn amf | | | mcc mnc | |]; try discriminate Hd;
    unfold run; rewrite !fmap_run.
  - rewrite (F1_closed m L H), (F1_closed m' L' H'), EK, ER, ES, EA, EO.
    reflexivity.
  - rewrite (F1Star_closed m _ _ L H), (F1Star_closed m' _ _ L' H'),
      EK, ER, EO.
    destruct (f1_value _ _ _ sqn amf); reflexivity.
  - rewrite (F2345_closed m L H), (F2345_closed m' L' H'), EK, ER, EO.
    reflexivity.
  - rewrite (F5Star_closed m L H), (F5Star_closed m' L' H'), EK, ER, EO.
    reflexivity.
  - rewrite (GenerateAUTS_closed m L H), (GenerateAUTS_closed m' L' H'),
      EK, ER, ES, EO.
    reflexivity.
Qed.

(** X14.  [F1], [F1Star], [F2345], [F5Star] and [GenerateAUTS] can be called
    in any order and any number of times: on an instance that passes the
    length validation and whose OPc is present or derivable, each of them
    returns, after any sequence of derivations on that instance, what it
    returns when called first. *)
Theorem X14_any_order (ds : list derivation) (d : derivation)
  (m : milenage.Milenage) :
  milenage.validateLength m = None -> has_opc m ->
  reads_inputs_only d = true ->
  fst (run d (after ds m)) = fst (run d m).
Proof.
  intros Hv H Hd. apply validateLength_None in Hv.
  destruct (after_ready ds m (conj Hv H)) as (R' & E & _).
  apply reads_inputs; [ split; assumption | exact R' | exact E | exact Hd ].
Qed.

Lemma X14_any_order_witness :
  milenage.validateLength m_op = None /\ has_opc m_op
  /\ reads_inputs_only dF1 = true
  /\ fst (run dF1 (after [dGenerateAUTS; dF2345; dF1Star [] []; dF5Star] m_op))
     = Ok (VBytes (unhex "4af30b82a8531115")).
Proof.
  assert (Hv : milenage.validateLength m_op = None) by (vm_compute; reflexivity).
  assert (H : has_opc m_op) by (right; discriminate).
  split; [ exact Hv | ]. split; [ exact H | ]. split; [ reflexivity | ].
  rewrite (X14_any_order [dGenerateAUTS; dF2345; dF1Star [] []; dF5Star]
             dF1 m_op Hv H eq_refl).
  vm_compute. reflexivity.
Defined.

(** X15.  The length validation is an invariant of the derivations: an
    instance that passes it and whose OPc is present or derivable still
    does after any sequence of derivations, whatever their outcomes.  The
    sequence changes none of K, OP, RAND, SQN, AMF and RESStar, and every
    value a derivation then returns has the tabled width (MAC-A, MAC-S and
    RES 8 bytes, CK and IK 16, AK and AK-S 6, RES* and AUTN 16, AUTS 14). *)
Theorem X15_validity_kept (ds : list derivation) (m : milenage.Milenage) :
  milenage.validateLength m = None -> has_opc m ->
  let m' := after ds m in
  milenage.validateLength m' = None /\ has_opc m'
  /\ (milenage.K m', milenage.OP m', milenage.RAND m', milenage.SQN m',
      milenage.AMF m', milenage.RESStar m')
     = (milenage.K m, milenage.OP m, milenage.RAND m, milenage.SQN m,
        milenage.AMF m, milenage.RESStar m)
  /\ (forall d v, fst (run d m') = Ok v -> value_lengths v = result_lengths d).
Proof.
  intros Hv H m'. apply validateLength_None in Hv.
  destruct (after_ready ds m (conj Hv H)) as ([L' H'] & E & Eo & Er).
  fold m' in L', H', E, Eo, Er.
  split; [ apply validateLength_None, L' | ]. split; [ exact H' | ].
  split.
  - unfold inputs in E. injection E as EK ER ES EA _.
    rewrite EK, ER, ES, EA, Eo, Er. reflexivity.
  - intros d v Ev. apply (run_frame d m' (conj L' H')). exact Ev.
Qed.

Lemma X15_validity_kept_witness :
  milenage.validateLength m_op = None /\ has_opc m_op
  /\ milenage.validateLength
       (after [dGenerateAUTS; dF1Star [] []; dComputeRESStar "1" "2"; dF2345]
              m_op) = None
  /\ milenage.RESStar
       (after [dGenerateAUTS; dF1Star [] []; dComputeRESStar "1" "2"; dF2345]
              m_op) = [].
Proof.
  assert (Hv : milenage.validateLength m_op = None) by (vm_compute; reflexivity).
  assert (H : has_opc m_op) by (right; discriminate).
  split; [ exact Hv | ]. split; [ exact H | ].
  pose proof (X15_validity_kept
                [dGenerateAUTS; dF1Star [] []; dComputeRESStar "1" "2"; dF2345]
                m_op Hv H) as P.
  cbv zeta in P. destruct P as (P1 & _ & P2 & _).
  split; [ exact P1 | ].
  apply (f_equal snd) in P2. exact P2.
Defined.

(* ------------------------------------------------------------------ *)
(** ** The AKA key schedule *)

Lemma be16_small (n : Z) :
  0 <= n < 256 -> be16 n = [0; n].
Proof.
  intros Hn. unfold be16, uint16.
  rewrite (Z.mod_small n 65536) by lia.
  rewrite (Z.div_small n 256) by lia.
  rewrite (Z.mod_small n 256) by lia. reflexivity.
Qed.



(** X17.  [ComputeKSEAF] and [ComputeKAMF] never fail and do not check that
    KAUSF has been computed: they key the HMAC with whatever the KAUSF
    field holds, which on a snapshot just built by [New] is 32 zero bytes.
    [ComputeKSEAF] stores and returns HMAC-SHA-256 of
    [0x6C || SNN || len(SNN)] on every snapshot, and after [ComputeKAUSF]
    both use the key that call returned. *)
Theorem X17_KSEAF_key_chain (a : aka.Aka) :
  let S := [0x6C] ++ aka.SNN a ++ be16 (len (aka.SNN a)) in
  let kseaf := HMAC.sha256 (aka.KAUSF a) S in
  aka.ComputeKSEAF a = (Ok kseaf, aka.set_KSEAF kseaf a)
  /\ length kseaf = 32%nat
  /\ (forall kausf a1, aka.ComputeKAUSF a = (Ok kausf, a1) ->
      fst (aka.ComputeKSEAF a1) = Ok (HMAC.sha256 kausf S)
      /\ fst (aka.ComputeKAMF a1)
         = Ok (HMAC.sha256 kausf
                 ([0x6D] ++ aka.SUPI a ++ be16 (len (aka.SUPI a))
                         ++ [0x00; 0x00] ++ [0x00; 0x02])))
  /\ (forall mil snn supi,
        aka.KAUSF (aka.New mil snn supi) = make 32
        /\ fst (aka.ComputeKSEAF (aka.New mil snn supi))
           = Ok (HMAC.sha256 (make 32)
                   ([0x6C] ++ bytes_of_string snn
                           ++ be16 (len (bytes_of_string snn))))).
Proof.
  intros S kseaf.
  split; [ | split; [ apply hmac_length | split ] ].
  - cbv [aka.ComputeKSEAF bind get put ret]. unfold kseaf, S.
    rewrite <- !app_assoc. reflexivity.
  - intros kausf a1 E.
    cbv [aka.ComputeKAUSF bind get put ret] in E.
    apply (f_equal snd) in E as E2. apply (f_equal fst) in E as E1.
    cbn [fst snd] in E1, E2. apply Ok_inj in E1. subst a1.
    cbv [aka.ComputeKSEAF aka.ComputeKAMF bind get put ret fst].
    cbn [aka.KAUSF aka.SNN aka.SUPI aka.set_KAUSF].
    rewrite E1. unfold S. rewrite <- !app_assoc. split; reflexivity.
  - intros mil snn supi. split; [ reflexivity | ].
    cbv [aka.ComputeKSEAF bind get put ret fst].
    cbn [aka.KAUSF aka.SNN aka.New]. rewrite <- !app_assoc. reflexivity.
Qed.

Lemma X17_KSEAF_key_chain_witness :
  exists kausf a1,
    aka.ComputeKAUSF (aka.New m_derived "5G:mnc01.mcc001.3gppnetwork.org"
                              "001010123456789") = (Ok kausf, a1)
    /\ fst (aka.ComputeKSEAF a1)
       = Ok (unhex "442ac77e2366d8084cb447883b03311065ea6bbd8753cf87e92c0669019cf829").
Proof.
  destruct (aka_always_ok (aka.New m_derived "5G:mnc01.mcc001.3gppnetwork.org"
                                   "001010123456789"))
    as ((kausf & a1 & E & _) & _).
  exists kausf, a1. split; [ exact E | ].
  pose proof (X17_KSEAF_key_chain
                (aka.New m_derived "5G:mnc01.mcc001.3gppnetwork.org"
                         "001010123456789")) as P.
  cbv zeta in P. destruct P as (_ & _ & Q & _).
  destruct (Q _ _ E) as (E1 & _). rewrite E1.
  assert (Ek : kausf = unhex "fe8d2546b6971c510329cd8ae34c177d6569486aa9b71159cc3b5c752a93bd10").
  { apply (f_equal fst) in E. cbn [fst] in E.
    assert (E' : fst (aka.ComputeKAUSF
                        (aka.New m_derived "5G:mnc01.mcc001.3gppnetwork.org"
                                 "001010123456789"))
                 = Ok (unhex "fe8d2546b6971c510329cd8ae34c177d6569486aa9b71159cc3b5c752a93bd10"))
      by (vm_compute; reflexivity).
    rewrite E' in E. apply Ok_inj in E. symmetry. exact E. }
  rewrite Ek. vm_compute. reflexivity.
Defined.



(* ------------------------------------------------------------------ *)
(** ** The driver *)

Lemma substring_length (s : string) (n m : nat) :
  (n + m <= String.length s)%nat -> String.length (substring n m s) = m.
Proof.
  revert n m. induction s as [| c s IH]; intros n m H; cbn [String.length] in H.
  - assert (n = 0%nat) by lia. assert (m = 0%nat) by lia. subst.
    reflexivity.
  - destruct n as [| n].
    + destruct m as [| m]; [ reflexivity | ].
      cbn [substring String.length]. f_equal. apply IH. lia.
    + cbn [substring]. apply IH. lia.
Qed.

Lemma lengths_ok_set_RESStar (m : milenage.Milenage) (v : bytes) :
  lengths_ok m -> lengths_ok (milenage.set_RESStar v m).
Proof. intros []. constructor; simpl; auto. Qed.

Lemma call_ok {S A} (c : M S A) (s s' : S) (a : A) :
  c s = (Ok a, s') -> driver.call c s = Ok (a, s').
Proof. intros E. unfold driver.call. rewrite E. reflexivity. Qed.

Lemma call_err {S A} (c : M S A) (s s' : S) (e : error) :
  c s = (Err e, s') -> driver.call c s = Err e.
Proof. intros E. unfold driver.call. rewrite E. reflexivity. Qed.

(** X19.  Whenever its flags decode to a 16-byte K, OP and RAND, a
    hexadecimal SQN and AMF, and an IMSI of at least five characters, the
    driver runs to the end, and every value of its trace is the documented
    function of these inputs.  RES* is derived with the 32-byte SNN whose
    two-character MNC is zero-padded, whereas KAUSF and KSEAF are derived
    with the SNN the driver builds itself from the unpadded MNC, which has
    31 bytes. *)
Theorem X19_main_trace (imsis ks ops sqns amfs rands : string)
  (k op rand : bytes) (sqn amf : Z) :
  DecodeString ks = Some k -> DecodeString ops = Some op ->
  ParseUintHex sqns 64 = Some sqn -> ParseUintHex amfs 16 = Some amf ->
  DecodeString rands = Some rand ->
  length k = 16%nat -> length op = 16%nat -> length rand = 16%nat ->
  (5 <= String.length imsis)%nat ->
  let mcc := substring 0 3 imsis in
  let mnc := substring 3 2 imsis in
  let opc := spec.OPc k op in
  let m := milenage.NewWithOPc k (Some opc) rand sqn (uint16 amf) in
  let SQN := milenage.SQN m in
  let AMF := milenage.AMF m in
  let maca := firstn 8 (spec.OUT1 k rand opc SQN AMF) in
  let xres := skipn 8 (spec.OUT2 k rand opc) in
  let ak := firstn 6 (spec.OUT2 k rand opc) in
  let ck := spec.OUT3 k rand opc in
  let ik := spec.OUT4 k rand opc in
  let snn32 := spec.SNN (String "0" mnc) mcc in
  let snn31 := bytes_of_string (milenage.snn_string mnc mcc) in
  let resstar := spec.RESStar ck ik snn32 rand xres in
  let kausf :=
    HMAC.sha256 (ck ++ ik)
      ([0x6A] ++ snn31 ++ [0; 31] ++ xor_bytes SQN ak ++ [0; 6]) in
  length snn32 = 32%nat /\ length snn31 = 31%nat
  /\ driver.main imsis ks ops sqns amfs rands
     = Ok {| driver.t_OPc := opc;
             driver.t_MACA := maca;
             driver.t_CK := ck;
             driver.t_IK := ik;
             driver.t_AK := ak;
             driver.t_xRES := xres;
             driver.t_xRESStar := resstar;
             driver.t_AUTN := xor_bytes SQN ak ++ AMF ++ maca;
             driver.t_KAUSF := kausf;
             driver.t_HXRESStar :=
               skipn 16 (SHA256.Sum256 (rand ++ resstar));
             driver.t_KSEAF :=
               HMAC.sha256 kausf ([0x6C] ++ snn31 ++ [0; 31]);
             driver.t_KAMF :=
               HMAC.sha256 kausf
                 ([0x6D] ++ bytes_of_string imsis
                         ++ be16 (len (bytes_of_string imsis))
                         ++ [0x00; 0x00] ++ [0x00; 0x02]) |}.
Proof.
  intros Dk Dop Dsqn Damf Drand Hk Hop Hr Hi
         mcc mnc opc m SQN AMF maca xres ak ck ik snn32 snn31 resstar kausf.
  assert (Lmcc : String.length mcc = 3%nat)
    by (apply substring_length; lia).
  assert (Lmnc : String.length mnc = 2%nat)
    by (apply substring_length; lia).
  assert (L32 : length snn32 = 32%nat).
  { pose proof (snn_string_length (String "0" mnc) mcc) as P.
    unfold milenage.snn_string in P. unfold snn32, spec.SNN. rewrite P.
    cbn [String.length]. rewrite Lmnc, Lmcc. reflexivity. }
  assert (L31 : length snn31 = 31%nat)
    by (unfold snn31; rewrite snn_string_length, Lmnc, Lmcc; reflexivity).
  split; [ exact L32 | ]. split; [ exact L31 | ].
  assert (Hc : length opc = 16%nat) by (apply spec_OPc_length; assumption).
  assert (L0 : lengths_ok m).
  { apply NewWithOPc_lengths; auto. intros o E. apply (f_equal milenage.sl) in E.
    cbn [milenage.sl] in E. subst o. exact Hc. }
  assert (H0 : has_opc m) by (left; discriminate).
  (* F1 *)
  pose proof (F1_closed m L0 H0) as E1. cbv zeta in E1.
  change (opc_of m) with opc in E1.
  change (milenage.K m) with k in E1. change (milenage.RAND m) with rand in E1.
  fold SQN AMF maca in E1.
  set (m1 := milenage.set_MACA maca (milenage.set_OPc (Some opc) m)) in E1.
  assert (L1 : lengths_ok m1).
  { apply lengths_ok_set_MACA; [ apply lengths_ok_set_OPc; assumption | ].
    apply firstn_length_16; [ apply OUT1_length; assumption | lia ]. }
  assert (H1 : has_opc m1) by (left; discriminate).
  (* F2345 *)
  pose proof (F2345_closed m1 L1 H1) as E2. cbv zeta in E2.
  change (opc_of m1) with opc in E2.
  change (milenage.K m1) with k in E2.
  change (milenage.RAND m1) with rand in E2.
  fold xres ak ck ik in E2.
  set (m2 := milenage.set_f2345 xres ck ik ak
               (milenage.set_OPc (Some opc) m1)) in E2.
  assert (L2 : lengths_ok m2).
  { apply lengths_ok_set_f2345.
    - apply lengths_ok_set_OPc; assumption.
    - apply skipn8_length_16, OUT_length; assumption.
    - apply OUT_length; assumption.
    - apply OUT_length; assumption.
    - apply firstn_length_16; [ apply OUT_length; assumption | lia ]. }
  (* ComputeRESStar *)
  pose proof (ComputeRESStar_closed m2 mcc mnc L2) as E3.
  rewrite Lmcc, Lmnc in E3. cbn [Nat.eqb negb orb] in E3.
  unfold spec.MNC3 in E3. rewrite Lmnc in E3. cbn [Nat.eqb] in E3.
  change (milenage.CK m2) with ck in E3. change (milenage.IK m2) with ik in E3.
  change (milenage.RAND m2) with rand in E3.
  change (milenage.RES m2) with xres in E3.
  fold snn32 resstar in E3.
  set (m3 := milenage.set_RESStar resstar m2).
  assert (L3 : lengths_ok m3) by (apply lengths_ok_set_RESStar, L2).
  (* GenerateAUTN *)
  pose proof (GenerateAUTN_closed m3 L3) as E4.
  change (milenage.SQN m3) with SQN in E4.
  change (milenage.AK m3) with ak in E4.
  change (milenage.AMF m3) with AMF in E4.
  change (milenage.MACA m3) with maca in E4.
  (* the driver *)
  unfold driver.main.
  rewrite Dk, Dop, Dsqn, Damf, Drand. cbn [driver.fatal driver.andThen].
  rewrite (ComputeOPc_ok k op Hk Hop). cbn [driver.andThen].
  destruct (Nat.ltb_spec (String.length imsis) 5) as [Hlt | _]; [ lia | ].
  fold opc m mcc mnc.
  rewrite (call_ok _ _ _ _ E1). cbn [driver.andThen].
  rewrite (call_ok _ _ _ _ E2). cbn [driver.andThen].
  rewrite (call_ok _ _ _ _ E3). cbn [driver.andThen].
  fold m3. change (milenage.RESStar m3) with resstar.
  rewrite (call_ok _ _ _ _ E4). cbn [driver.andThen].
  (* the AKA layer never fails *)
  assert (Hx : length (xor_bytes SQN ak) = 6%nat).
  { rewrite xor_bytes_length. unfold SQN. rewrite (ok_SQN m L0).
    unfold ak. rewrite firstn_length_16;
      [ reflexivity | apply OUT_length; assumption | lia ]. }
  assert (Hh : forall x, slice (SHA256.Sum256 x)
                               (length (SHA256.Sum256 x) - 16)
                               (length (SHA256.Sum256 x))
                         = skipn 16 (SHA256.Sum256 x))
    by (intros x; rewrite slice_to_end, sha256_length; reflexivity).
  cbv [driver.call aka.ComputeKAUSF aka.ComputeHXRESStar aka.ComputeKSEAF
       aka.ComputeKAMF bind get put ret].
  cbn [driver.andThen aka.mil aka.SNN aka.SUPI aka.KAUSF aka.New
       aka.set_KAUSF aka.set_KSEAF aka.set_KAMF aka.set_HXRESStar].
  change (milenage.SQN m3) with SQN. change (milenage.AK m3) with ak.
  change (milenage.CK m3) with ck. change (milenage.IK m3) with ik.
  change (milenage.RAND m3) with rand.
  change (milenage.RESStar m3) with resstar.
  fold snn31. unfold milenage.Xor. rewrite xor_spec.
  unfold aka.byteArrayLen2B, len. rewrite Hx, L31, Hh.
  change (PutUint16 (make 2) 0 (Z.of_nat 6)) with [0; 6].
  change (PutUint16 (make 2) 0 (Z.of_nat 31)) with [0; 31].
  unfold kausf. rewrite <- !app_assoc. reflexivity.
Qed.

Lemma X19_main_trace_witness :
  DecodeString "00112233445566778899aabbccddeeff" = Some K0
  /\ ParseUintHex "000000000001" 64 = Some 1
  /\ ParseUintHex "8000" 16 = Some 0x8000
  /\ length K0 = 16%nat
  /\ (5 <= String.length "001010123456789")%nat
  /\ driver.main "001010123456789" "00112233445566778899aabbccddeeff"
                 "00112233445566778899aabbccddeeff" "000000000001" "8000"
                 "00112233445566778899aabbccddeeff"
     = Ok golden.
Proof.
  assert (Dk : DecodeString "00112233445566778899aabbccddeeff" = Some K0)
    by reflexivity.
  assert (Ds : ParseUintHex "000000000001" 64 = Some 1) by reflexivity.
  assert (Da : ParseUintHex "8000" 16 = Some 0x8000) by reflexivity.
  assert (Hi : (5 <= String.length "001010123456789")%nat) by (simpl; lia).
  split; [ exact Dk | ]. split; [ exact Ds | ]. split; [ exact Da | ].
  split; [ reflexivity | ]. split; [ exact Hi | ].
  pose proof (X19_main_trace "001010123456789" _ _ _ _ _ K0 K0 K0 1 0x8000
                Dk Dk Ds Da Dk eq_refl eq_refl eq_refl Hi) as P.
  cbv zeta in P. destruct P as (_ & _ & E).
  rewrite E. vm_compute. reflexivity.
Defined.

Lemma F1_fails (m : milenage.Milenage) (e : error) :
  milenage.validateLength m = Some e -> milenage.F1 m = (Err e, m).
Proof.
  intros H. unfold milenage.F1, bind at 1, get at 1. unfold bind at 1.
  rewrite (f1base_fails m e _ _ H). reflexivity.
Qed.

(** X20.  How the driver fails.  A K flag whose bytes are not 16, 24 or 32
    is rejected by [ComputeOPc] with the cipher's key-size error; a K of 24
    or 32 bytes passes [ComputeOPc] and is only rejected by [F1], with the
    invalid-length error for K; a RAND that is not 16 bytes is rejected by
    [F1] with the invalid-length error for RAND; and an IMSI of fewer than
    five characters makes the driver panic on a string slice out of range,
    after OPc has been computed. *)
Theorem X20_main_failures (imsis ks ops sqns amfs rands : string)
  (k op rand : bytes) (sqn amf : Z) :
  DecodeString ks = Some k -> DecodeString ops = Some op ->
  ParseUintHex sqns 64 = Some sqn -> ParseUintHex amfs 16 = Some amf ->
  DecodeString rands = Some rand -> length op = 16%nat ->
  (~ (length k = 16%nat \/ length k = 24%nat \/ length k = 32%nat) ->
   driver.main imsis ks ops sqns amfs rands = Err (KeySizeError (len k)))
  /\ (length k = 24%nat \/ length k = 32%nat ->
      (5 <= String.length imsis)%nat ->
      driver.main imsis ks ops sqns amfs rands
      = Err (LengthError "K" 16 (len k)))
  /\ (length k = 16%nat -> length rand <> 16%nat ->
      (5 <= String.length imsis)%nat ->
      driver.main imsis ks ops sqns amfs rands
      = Err (LengthError "RAND" 16 (len rand)))
  /\ (length k = 16%nat \/ length k = 24%nat \/ length k = 32%nat ->
      (String.length imsis < 5)%nat ->
      driver.main imsis ks ops sqns amfs rands = Panic).
Proof.
  intros Dk Dop Dsqn Damf Drand Hop.
  unfold driver.main. rewrite Dk, Dop. cbn [driver.fatal driver.andThen].
  split; [ | split; [ | split ] ].
  - intros Hk. rewrite (ComputeOPc_bad_key k (Some op) Hk). reflexivity.
  - intros Hk Hi.
    destruct (ComputeOPc_keyed k op (or_intror Hk) Hop) as [E _].
    rewrite E, Dsqn, Damf, Drand. cbn [driver.fatal driver.andThen].
    destruct (Nat.ltb_spec (String.length imsis) 5) as [Hlt | _]; [ lia | ].
    erewrite call_err; [ reflexivity | ].
    apply F1_fails.
    rewrite validateLength_K by (cbn [milenage.K milenage.NewWithOPc]; lia).
    reflexivity.
  - intros Hk Hr Hi.
    destruct (ComputeOPc_keyed k op (or_introl Hk) Hop) as [E Hc].
    rewrite E, Dsqn, Damf, Drand. cbn [driver.fatal driver.andThen].
    destruct (Nat.ltb_spec (String.length imsis) 5) as [Hlt | _]; [ lia | ].
    erewrite call_err; [ reflexivity | ].
    apply F1_fails. unfold milenage.validateLength.
    cbn [milenage.K milenage.OP milenage.OPc milenage.RAND milenage.NewWithOPc
         milenage.check_set].
    rewrite !check_pass by (unfold len; lia).
    unfold milenage.check at 1, len.
    destruct (Z.eqb_spec (Z.of_nat (length rand)) 16) as [E' | E'];
      [ lia | reflexivity ].
  - intros Hk Hi.
    destruct (ComputeOPc_keyed k op Hk Hop) as [E _].
    rewrite E, Dsqn, Damf, Drand. cbn [driver.fatal driver.andThen].
    destruct (Nat.ltb_spec (String.length imsis) 5) as [_ | Hge]; [ | lia ].
    reflexivity.
Qed.

Lemma X20_main_failures_witness :
  DecodeString "00112233445566778899aabbccddeeff" = Some K0
  /\ DecodeString "001122" = Some [0x00; 0x11; 0x22]
  /\ driver.main "001010123456789" "001122"
                 "00112233445566778899aabbccddeeff" "000000000001" "8000"
                 "00112233445566778899aabbccddeeff"
     = Err (KeySizeError 3)
  /\ driver.main "001010123456789" "00112233445566778899aabbccddeeff"
                 "00112233445566778899aabbccddeeff" "000000000001" "8000"
                 "001122"
     = Err (LengthError "RAND" 16 3)
  /\ driver.main "0010" "00112233445566778899aabbccddeeff"
                 "00112233445566778899aabbccddeeff" "000000000001" "8000"
                 "00112233445566778899aabbccddeeff"
     = Panic.
Proof.
  assert (Dk : DecodeString "00112233445566778899aabbccddeeff" = Some K0)
    by reflexivity.
  assert (D3 : DecodeString "001122" = Some [0x00; 0x11; 0x22]) by reflexivity.
  assert (Ds : ParseUintHex "000000000001" 64 = Some 1) by reflexivity.
  assert (Da : ParseUintHex "8000" 16 = Some 0x8000) by reflexivity.
  split; [ exact Dk | ]. split; [ exact D3 | ].
  split; [ | split ].
  - destruct (X20_main_failures "001010123456789" _ _ _ _ _ _ K0 K0 1 0x8000
                D3 Dk Ds Da Dk eq_refl) as (P & _).
    apply P. simpl. lia.
  - destruct (X20_main_failures "001010123456789" _ _ _ _ _ K0 K0 _ 1 0x8000
                Dk Dk Ds Da D3 eq_refl) as (_ & _ & P & _).
    apply P; [ reflexivity | simpl; lia | simpl; lia ].
  - destruct (X20_main_failures "0010" _ _ _ _ _ K0 K0 K0 1 0x8000
                Dk Dk Ds Da Dk eq_refl) as (_ & _ & _ & P).
    apply P; [ left; reflexivity | simpl; lia ].
Defined.
